(** * USB file transfer tracker: policy, reconciler, device registry, log digest

    A shallow embedding of the core of the tracker:
    - [src/core/file_watcher.py]: [USBFileEventHandler] (eligibility,
      classification, the in-flight table and its finalizer);
    - [src/core/usb_monitor.py]: the polling reconciliation of
      [USBMonitor._monitor_fallback];
    - [src/utils/logger.py]: [SecureFileHandler] and [verify_log_integrity];
    - [src/utils/config.py]: the configuration dataclasses.

    Python values are modelled as follows.  [str] is [string] (a byte
    string; the case mapping below is the ASCII one), [int] is [Z],
    [float] is [Q] (seconds of [time.time()] and megabytes are exact
    rationals), [Optional[int]] is [option Z], a [dict] with string keys
    is a [gmap string], a [set] of strings a [gset string], and the files
    of the log directory are a [gmap] from file names to contents.  A loop
    over a dict visits the entries in the order of [map_to_list], which is
    not Python's insertion order; nothing below depends on that order.
    A call that may raise returns a [result]. *)

From Stdlib Require Import ZArith QArith List String Ascii Bool Lia Lqa.
From stdpp Require Import base option list strings gmap pretty finite.

#[local] Open Scope string_scope.
#[local] Open Scope Z_scope.

(** ** Python runtime *)

Module Py.

(** The outcome of a call: a value or a raised exception. *)
Inductive exn : Type :=
| ValueError
| KeyError
| OSError
| FileNotFoundError.

Inductive result (A : Type) : Type :=
| Ok (a : A)
| Raise (e : exn).
Arguments Ok {A} a.
Arguments Raise {A} e.

Definition bind {A B : Type} (r : result A) (k : A -> result B) : result B :=
  match r with
  | Ok a => k a
  | Raise e => Raise e
  end.

Definition is_ok {A : Type} (r : result A) : bool :=
  match r with Ok _ => true | Raise _ => false end.

(** [str.lower()] on ASCII letters; other bytes are left alone. *)
Definition lower_ascii (c : ascii) : ascii :=
  let n := nat_of_ascii c in
  if ((65 <=? n) && (n <=? 90))%nat then ascii_of_nat (n + 32) else c.

Fixpoint lower (s : string) : string :=
  match s with
  | EmptyString => EmptyString
  | String c s' => String (lower_ascii c) (lower s')
  end.

(** [s.rfind(c)] for a one-character [c]: the last index of [c], or -1. *)
Fixpoint rfind_from (c : ascii) (s : string) (i acc : Z) : Z :=
  match s with
  | EmptyString => acc
  | String a s' => rfind_from c s' (i + 1) (if Ascii.eqb a c then i else acc)
  end.

Definition rfind (c : ascii) (s : string) : Z := rfind_from c s 0 (-1).

(** The slice [s[i:j]] for [0 <= i]. *)
Definition slice (i j : Z) (s : string) : string :=
  String.substring (Z.to_nat i) (Z.to_nat (j - i)) s.

Definition slice_from (i : Z) (s : string) : string :=
  String.substring (Z.to_nat i) (String.length s - Z.to_nat i) s.

Fixpoint string_existsb (f : ascii -> bool) (s : string) : bool :=
  match s with
  | EmptyString => false
  | String c s' => f c || string_existsb f s'
  end.

(** [genericpath._splitext(p, sep, altsep, '.')]: the extension is the
    part from the last dot of the last path component, unless that
    component consists of leading dots only up to that dot. *)
Definition splitext (sep : ascii) (altsep : option ascii) (p : string)
  : string * string :=
  let sepIndex :=
    match altsep with
    | Some a => Z.max (rfind sep p) (rfind a p)
    | None => rfind sep p
    end in
  let dotIndex := rfind "." p in
  if (sepIndex <? dotIndex)
     && string_existsb (fun c => negb (Ascii.eqb c "."))
                       (slice (sepIndex + 1) dotIndex p)
  then (slice 0 dotIndex p, slice_from dotIndex p)
  else (p, EmptyString).

(** The line terminator ["\n"]. *)
Definition newline : string := String "010"%char EmptyString.

(** [s.endswith(suffix)]. *)
Definition endswith (s suffix : string) : bool :=
  let n := String.length s in
  let m := String.length suffix in
  (m <=? n)%nat && String.eqb (String.substring (n - m) m s) suffix.

(** [x in xs] for a list of strings. *)
Definition str_in (x : string) (xs : list string) : bool :=
  existsb (String.eqb x) xs.

(** [s.split(sep)[0]] for a one-character separator. *)
Fixpoint split_first (sep : ascii) (s : string) : string :=
  match s with
  | EmptyString => EmptyString
  | String c s' =>
      if Ascii.eqb c sep then EmptyString else String c (split_first sep s')
  end.

(** The characters [int()] and [str.strip()] skip at both ends. *)
Definition is_space (c : ascii) : bool :=
  let n := nat_of_ascii c in
  ((9 <=? n) && (n <=? 13) || (28 <=? n) && (n <=? 32))%nat.

Fixpoint lstrip (s : string) : string :=
  match s with
  | EmptyString => EmptyString
  | String c s' => if is_space c then lstrip s' else s
  end.

Fixpoint rstrip (s : string) : string :=
  match s with
  | EmptyString => EmptyString
  | String c s' =>
      match rstrip s' with
      | EmptyString => if is_space c then EmptyString else String c EmptyString
      | r => String c r
      end
  end.

Definition strip (s : string) : string := rstrip (lstrip s).

Definition digit_of (c : ascii) : option Z :=
  let n := nat_of_ascii c in
  if ((48 <=? n) && (n <=? 57))%nat then Some (Z.of_nat n - 48) else None.

(** The digits of a decimal literal; a single underscore may separate
    two digits.  [sep] tells that a digit must come next. *)
Fixpoint int_digits (s : string) (acc : Z) (sep : bool) : option Z :=
  match s with
  | EmptyString => if sep then None else Some acc
  | String c s' =>
      match digit_of c with
      | Some d => int_digits s' (acc * 10 + d) false
      | None =>
          if Ascii.eqb c "_" && negb sep then int_digits s' acc true else None
      end
  end.

(** [int(s)] in base ten: surrounding white space, an optional sign,
    then the digits.  Anything else raises [ValueError]. *)
Definition int (s : string) : result Z :=
  let of_digits (neg : bool) (d : string) :=
    match int_digits d 0 true with
    | Some n => Ok (if neg then - n else n)
    | None => Raise ValueError
    end in
  match strip s with
  | String "-" d => of_digits true d
  | String "+" d => of_digits false d
  | d => of_digits false d
  end.

Fixpoint all_chars (p : ascii -> bool) (s : string) : bool :=
  match s with
  | EmptyString => true
  | String c s' => p c && all_chars p s'
  end.

Definition not_space (c : ascii) : bool := negb (is_space c).

(** [d[key]] on a dict with string keys. *)
Definition getitem {V : Type} (d : gmap string V) (key : string) : result V :=
  match d !! key with
  | Some v => Ok v
  | None => Raise KeyError
  end.

End Py.

(** ** Configuration ([utils/config.py]) *)

Module Config.

Record MonitoringConfig : Type := {
  check_interval_seconds : Z;
  include_file_extensions : list string;
  exclude_file_extensions : list string;
  min_file_size_bytes : Z;
  max_file_size_bytes : option Z
}.

Record TimeBasedAlertConfig : Type := {
  enabled : bool;
  restricted_hours : gmap string string;
  weekend_alerts : bool
}.

Record AlertConfig : Type := {
  enable_alerts : bool;
  alert_threshold_mb : Z;
  suspicious_extensions : list string;
  large_transfer_alert : bool;
  large_transfer_threshold_mb : Z;
  time_based_alerts : TimeBasedAlertConfig
}.

Record Config : Type := {
  monitoring : MonitoringConfig;
  alerts : AlertConfig
}.

(** The dataclass defaults. *)
Definition default_monitoring : MonitoringConfig := {|
  check_interval_seconds := 1;
  include_file_extensions := ["*"];
  exclude_file_extensions := [".tmp"; ".temp"; ".lock"];
  min_file_size_bytes := 0;
  max_file_size_bytes := None
|}.

Definition default_time_based_alerts : TimeBasedAlertConfig := {|
  enabled := true;
  restricted_hours := <["start" := "18:00"]> {["end" := "07:00"]};
  weekend_alerts := true
|}.

Definition default_alerts : AlertConfig := {|
  enable_alerts := true;
  alert_threshold_mb := 100;
  suspicious_extensions :=
    [".zip"; ".rar"; ".7z"; ".tar"; ".gz"; ".db"; ".sql"; ".xlsx"; ".docx"; ".pdf"];
  large_transfer_alert := true;
  large_transfer_threshold_mb := 500;
  time_based_alerts := default_time_based_alerts
|}.

Definition default_config : Config := {|
  monitoring := default_monitoring;
  alerts := default_alerts
|}.

End Config.

(** ** SHA-256 ([hashlib.sha256], FIPS 180-4)

    Words are integers below [2^32]; the message is a byte string. *)

Module Sha256.

Definition wrap (x : Z) : Z := x mod 2 ^ 32.
Definition add32 (x y : Z) : Z := wrap (x + y).
Definition rotr (n x : Z) : Z :=
  Z.lor (Z.shiftr x n) (wrap (Z.shiftl x (32 - n))).

Definition Ch (x y z : Z) : Z := Z.lxor (Z.land x y) (Z.land (Z.lnot x) z).
Definition Maj (x y z : Z) : Z :=
  Z.lxor (Z.lxor (Z.land x y) (Z.land x z)) (Z.land y z).
Definition Sigma0 (x : Z) : Z := Z.lxor (Z.lxor (rotr 2 x) (rotr 13 x)) (rotr 22 x).
Definition Sigma1 (x : Z) : Z := Z.lxor (Z.lxor (rotr 6 x) (rotr 11 x)) (rotr 25 x).
Definition sigma0 (x : Z) : Z := Z.lxor (Z.lxor (rotr 7 x) (rotr 18 x)) (Z.shiftr x 3).
Definition sigma1 (x : Z) : Z := Z.lxor (Z.lxor (rotr 17 x) (rotr 19 x)) (Z.shiftr x 10).

(** The constants are derived as the standard prescribes: the first 32
    bits of the fractional parts of the cube roots (round constants) and
    square roots (initial value) of the first primes. *)
Definition primes : list Z :=
  List.filter
    (fun p => List.forallb (fun d => negb (p mod d =? 0) || (p <=? d))
                           (List.map Z.of_nat (List.seq 2 17)))
    (List.map Z.of_nat (List.seq 2 310)).

(** The integer cube root below [2^36], found bit by bit. *)
Definition cube_root (n : Z) : Z :=
  List.fold_left
    (fun r bit => let c := r + 2 ^ Z.of_nat bit in
                  if c * c * c <=? n then c else r)
    (List.rev (List.seq 0 36)) 0.

Definition K : list Z :=
  Eval vm_compute in
    List.map (fun p => wrap (cube_root (p * 2 ^ 96))) primes.

(** The chaining value: eight words. *)
Record state : Type := State {
  h0 : Z; h1 : Z; h2 : Z; h3 : Z; h4 : Z; h5 : Z; h6 : Z; h7 : Z
}.

Definition initial_word (i : nat) : Z :=
  wrap (Z.sqrt (nth i primes 0 * 2 ^ 64)).

Definition initial : state :=
  Eval vm_compute in
    State (initial_word 0) (initial_word 1) (initial_word 2) (initial_word 3)
          (initial_word 4) (initial_word 5) (initial_word 6) (initial_word 7).

(** The message schedule, most recent word first. *)
Fixpoint schedule (n : nat) (w : list Z) : list Z :=
  match n with
  | O => w
  | S n' =>
      let next :=
        add32 (add32 (sigma1 (nth 1 w 0)) (nth 6 w 0))
              (add32 (sigma0 (nth 14 w 0)) (nth 15 w 0)) in
      schedule n' (next :: w)
  end.

Definition round (s : state) (kw : Z * Z) : state :=
  let '(State a b c d e f g h) := s in
  let t1 := add32 (add32 (add32 h (Sigma1 e)) (add32 (Ch e f g) (fst kw))) (snd kw) in
  let t2 := add32 (Sigma0 a) (Maj a b c) in
  State (add32 t1 t2) a b c (add32 d t1) e f g.

(** One 16-word block. *)
Definition compress (s : state) (block : list Z) : state :=
  let w := List.rev (schedule 48 (List.rev block)) in
  let '(State a b c d e f g h) := List.fold_left round (List.combine K w) s in
  State (add32 (h0 s) a) (add32 (h1 s) b) (add32 (h2 s) c) (add32 (h3 s) d)
        (add32 (h4 s) e) (add32 (h5 s) f) (add32 (h6 s) g) (add32 (h7 s) h).

Fixpoint words_of_bytes (l : list Z) : list Z :=
  match l with
  | a :: b :: c :: d :: l' =>
      (Z.shiftl a 24 + Z.shiftl b 16 + Z.shiftl c 8 + d) :: words_of_bytes l'
  | _ => []
  end.

Definition bytes_of_string (s : string) : list Z :=
  List.map (fun c => Z.of_nat (nat_of_ascii c)) (list_ascii_of_string s).

(** The bit length as eight bytes, most significant first. *)
Definition be64 (n : Z) : list Z :=
  List.map (fun i => Z.shiftr n (8 * i) mod 256) [7; 6; 5; 4; 3; 2; 1; 0].

Definition pad (msg : list Z) : list Z :=
  let n := Z.of_nat (List.length msg) in
  msg ++ [0x80] ++ List.repeat 0 (Z.to_nat ((55 - n) mod 64)) ++ be64 (8 * n).

(** The first [n] blocks of sixteen words. *)
Fixpoint blocks (n : nat) (ws : list Z) : list (list Z) :=
  match n with
  | O => []
  | S n' => List.firstn 16 ws :: blocks n' (List.skipn 16 ws)
  end.

Definition digest (msg : string) : state :=
  let ws := words_of_bytes (pad (bytes_of_string msg)) in
  List.fold_left compress (blocks (Nat.div (List.length ws) 16) ws) initial.

Definition hex_digit (n : Z) : ascii :=
  match n with
  | 0 => "0" | 1 => "1" | 2 => "2" | 3 => "3" | 4 => "4" | 5 => "5"
  | 6 => "6" | 7 => "7" | 8 => "8" | 9 => "9" | 10 => "a" | 11 => "b"
  | 12 => "c" | 13 => "d" | 14 => "e" | _ => "f"
  end%char.

Definition hex_word (w : Z) : string :=
  string_of_list_ascii
    (List.map (fun i => hex_digit (Z.shiftr w (4 * i) mod 16)) [7; 6; 5; 4; 3; 2; 1; 0]).

(** [hashlib.sha256(msg).hexdigest()] *)
Definition hexdigest (msg : string) : string :=
  let '(State a b c d e f g h) := digest msg in
  hex_word a ++ hex_word b ++ hex_word c ++ hex_word d ++
  hex_word e ++ hex_word f ++ hex_word g ++ hex_word h.

(** All eight words of a chaining value are below [2^32]. *)
Definition bounded (s : state) : Prop :=
  (0 <= h0 s < 2 ^ 32) /\ (0 <= h1 s < 2 ^ 32) /\ (0 <= h2 s < 2 ^ 32)
  /\ (0 <= h3 s < 2 ^ 32) /\ (0 <= h4 s < 2 ^ 32) /\ (0 <= h5 s < 2 ^ 32)
  /\ (0 <= h6 s < 2 ^ 32) /\ (0 <= h7 s < 2 ^ 32).

(** The chaining value as one number below [2^256]. *)
Definition pack (s : state) : Z :=
  ((((((h0 s * 2 ^ 32 + h1 s) * 2 ^ 32 + h2 s) * 2 ^ 32 + h3 s) * 2 ^ 32
      + h4 s) * 2 ^ 32 + h5 s) * 2 ^ 32 + h6 s) * 2 ^ 32 + h7 s.

(** [n] copies of the byte ["a"]. *)
Fixpoint filler (n : nat) : string :=
  match n with
  | O => EmptyString
  | S n' => String "a" (filler n')
  end.

End Sha256.

(** ** The transfer log and its digest ([utils/logger.py])

    The log directory is a finite map from file names to contents.  A
    handler keeps its stream open in append mode and flushes after every
    write, so a write lands at the end of whatever the file holds at that
    moment. *)

Module Logger.
Import Py.

Record SecureFileHandler : Type := {
  baseFilename : string;
  maxBytes : Z;
  backupCount : Z;
  hash_file : string;
  current_hash : option string
}.

Definition set_current_hash (h : SecureFileHandler) (v : option string)
  : SecureFileHandler :=
  {| baseFilename := baseFilename h; maxBytes := maxBytes h;
     backupCount := backupCount h; hash_file := hash_file h;
     current_hash := v |}.

(** [open(name, 'a')]: creates the file when it is missing. *)
Definition open_append (name : string) (fs : gmap string string)
  : gmap string string :=
  match fs !! name with
  | Some _ => fs
  | None => <[name := EmptyString]> fs
  end.

(** [SecureFileHandler.__init__] with [delay=False]. *)
Definition init (filename : string) (max_bytes backup_count : Z)
    (fs : gmap string string) : SecureFileHandler * gmap string string :=
  ({| baseFilename := filename; maxBytes := max_bytes;
      backupCount := backup_count; hash_file := filename ++ ".hash";
      current_hash := None |},
   open_append filename fs).

Definition _compute_file_hash (h : SecureFileHandler) (fs : gmap string string)
  : option string :=
  match fs !! baseFilename h with
  | None => None
  | Some content => Some (Sha256.hexdigest content)
  end.

(** Truthiness of [self.current_hash]. *)
Definition truthy (v : option string) : bool :=
  match v with
  | Some (String _ _) => true
  | _ => false
  end.

Definition _save_hash (h : SecureFileHandler) (fs : gmap string string)
  : SecureFileHandler * gmap string string :=
  let cur := _compute_file_hash h fs in
  (set_current_hash h cur,
   match cur with
   | Some d => if truthy cur then <[hash_file h := d]> fs else fs
   | None => fs
   end).

Definition _check_hash (h : SecureFileHandler) (fs : gmap string string) : bool :=
  match fs !! hash_file h with
  | None => true
  | Some saved =>
      match _compute_file_hash h fs with
      | Some cur => String.eqb (strip saved) cur
      | None => false
      end
  end.

(** [os.rename(src, dst)] for an existing [src]. *)
Definition rename (src dst : string) (fs : gmap string string)
  : gmap string string :=
  match fs !! src with
  | Some c => <[dst := c]> (delete src fs)
  | None => fs
  end.

Definition backup_name (base : string) (i : nat) : string :=
  base ++ "." ++ pretty i.

(** [RotatingFileHandler.doRollover]: shift the backups up by one, move
    the log to [base.1], reopen the log. *)
Definition rotating_doRollover (h : SecureFileHandler) (fs : gmap string string)
  : gmap string string :=
  let base := baseFilename h in
  let shift (fs : gmap string string) (i : nat) :=
    rename (backup_name base i) (backup_name base (S i)) fs in
  let fs1 :=
    if 0 <? backupCount h then
      let fs' := List.fold_left shift
                   (List.rev (List.seq 1 (Z.to_nat (backupCount h) - 1))) fs in
      rename base (backup_name base 1) fs'
    else fs in
  open_append base fs1.

(** [SecureFileHandler.doRollover] *)
Definition doRollover (h : SecureFileHandler) (fs : gmap string string)
  : SecureFileHandler * gmap string string :=
  _save_hash h (rotating_doRollover h fs).

(** [RotatingFileHandler.shouldRollover] for a formatted line. *)
Definition shouldRollover (h : SecureFileHandler) (line : string)
    (fs : gmap string string) : bool :=
  (0 <? maxBytes h)
  && (maxBytes h <=?
        Z.of_nat (String.length (default EmptyString (fs !! baseFilename h)))
        + Z.of_nat (String.length line) + 1).

(** [StreamHandler.emit]: the line and its terminator, flushed. *)
Definition stream_write (h : SecureFileHandler) (line : string)
    (fs : gmap string string) : gmap string string :=
  match fs !! baseFilename h with
  | Some c => <[baseFilename h := c ++ line ++ Py.newline]> fs
  | None => fs
  end.

(** [SecureFileHandler.emit] for a formatted line.  [rollover] is the
    answer of the library's [shouldRollover(record)]; the rollover it
    triggers is the overridden [doRollover] above. *)
Definition emit (h : SecureFileHandler) (rollover : bool) (line : string)
    (fs : gmap string string) : SecureFileHandler * gmap string string :=
  let '(h1, fs1) := if rollover then doRollover h fs else (h, fs) in
  _save_hash h1 (stream_write h1 line fs1).

(** A finalized operation, as handed to [log_file_transfer]. *)
Record TransferRecord : Type := {
  operation : string;
  device : string;
  file_path : string;
  file_size : Z;
  file_type : string;
  user : string
}.

(** The message of [log_file_transfer] under the transfer formatter
    ['%(asctime)s,%(message)s']. *)
Definition format_transfer (asctime : string) (r : TransferRecord) : string :=
  asctime ++ "," ++ operation r ++ "," ++ device r ++ "," ++ file_path r
  ++ "," ++ pretty (file_size r) ++ "," ++ file_type r ++ "," ++ user r.

Definition header : string :=
  "timestamp,operation,device,file_path,file_size,file_type,user"
  ++ Py.newline.

(** The transfer-log part of [setup_logger]: write the header when the
    file is missing, then attach the handler. *)
Definition setup_transfer_log (filename : string) (fs : gmap string string)
  : SecureFileHandler * gmap string string :=
  let fs1 :=
    match fs !! filename with
    | Some _ => fs
    | None => <[filename := header]> fs
    end in
  init filename (50 * 1024 * 1024) 20 fs1.

(** [log_file_transfer]: one appended line per record. *)
Definition log_file_transfer (h : SecureFileHandler) (asctime : string)
    (r : TransferRecord) (fs : gmap string string)
  : SecureFileHandler * gmap string string :=
  let line := format_transfer asctime r in
  emit h (shouldRollover h line fs) line fs.

Fixpoint log_file_transfers (h : SecureFileHandler)
    (rs : list (string * TransferRecord)) (fs : gmap string string)
  : SecureFileHandler * gmap string string :=
  match rs with
  | [] => (h, fs)
  | (asctime, r) :: rs' =>
      let '(h1, fs1) := log_file_transfer h asctime r fs in
      log_file_transfers h1 rs' fs1
  end.

(** The state [__init__] establishes and every [emit] keeps: the digest
    lives next to the log, and the log exists. *)
Definition attached (h : SecureFileHandler) (fs : gmap string string) : Prop :=
  hash_file h = baseFilename h ++ ".hash" /\ is_Some (fs !! baseFilename h).

(** An out-of-band change of the log: its content replaced, the digest
    left alone. *)
Definition tamper (log_file content : string) (fs : gmap string string)
  : gmap string string :=
  <[log_file := content]> fs.

(** [content[:-1]] *)
Definition drop_last_byte (content : string) : string :=
  String.substring 0 (String.length content - 1) content.

Definition msg_missing : string := "Hash file missing".
Definition msg_mismatch : string :=
  "Hash mismatch, log file may have been tampered with".
Definition msg_verified : string := "Log file integrity verified".

Definition verify_log_integrity (log_file : string) (fs : gmap string string)
  : result (bool * string) :=
  match fs !! (log_file ++ ".hash") with
  | None => Ok (false, msg_missing)
  | Some saved =>
      let saved_hash := strip saved in
      match fs !! log_file with
      | None => Raise FileNotFoundError
      | Some content =>
          let current := Sha256.hexdigest content in
          if negb (String.eqb saved_hash current)
          then Ok (false, msg_mismatch)
          else Ok (true, msg_verified)
      end
  end.

End Logger.

(** ** Device registry ([core/usb_monitor.py]) *)

Module UsbMonitor.

Record USBDevice : Type := {
  device_id : string;
  name : string;
  mount_point : string;
  serial : option string;
  vendor : option string;
  model : option string
}.

(** [USBDevice.__eq__]: by [device_id] only. *)
Definition USBDevice_eqb (a b : USBDevice) : bool :=
  String.eqb (device_id a) (device_id b).

(** What one polling round reports to the registered callbacks. *)
Record Deltas : Type := {
  connected_devices : gmap string USBDevice;
  removed : list USBDevice;
  added : list USBDevice
}.

(** The body of [for device_id in list(self.connected_devices.keys())].
    The keys come from the dict itself, so [pop] finds each of them. *)
Definition remove_step (current_device_ids : gset string)
    (acc : gmap string USBDevice * list USBDevice) (device_id : string)
  : gmap string USBDevice * list USBDevice :=
  if decide (device_id ∉ current_device_ids) then
    match acc.1 !! device_id with
    | Some removed_device => (delete device_id acc.1, (acc.2 ++ [removed_device])%list)
    | None => acc
    end
  else acc.

(** The body of [for device in current_devices]. *)
Definition add_step (acc : gmap string USBDevice * list USBDevice)
    (device : USBDevice) : gmap string USBDevice * list USBDevice :=
  if decide (acc.1 !! device_id device = None) then
    (<[device_id device := device]> acc.1, (acc.2 ++ [device])%list)
  else acc.

(** One round of [_monitor_fallback] on the devices [_detect_devices]
    returned: removals first, then additions. *)
Definition poll (current_devices : list USBDevice)
    (connected : gmap string USBDevice) : Deltas :=
  let current_device_ids : gset string :=
    list_to_set (device_id <$> current_devices) in
  let after_removed :=
    foldl (remove_step current_device_ids) (connected, [])
          (map_to_list connected).*1 in
  let after_added := foldl add_step (after_removed.1, []) current_devices in
  {| connected_devices := after_added.1;
     removed := after_removed.2;
     added := after_added.2 |}.

End UsbMonitor.

(** ** The per-device event handler ([core/file_watcher.py]) *)

Module FileWatcher.
Import Py.

(** The operation kinds: the strings ["created"], ["modified"],
    ["deleted"] and ["moved"] the callbacks pass around. *)
Inductive Operation : Type := created | modified | deleted | moved.

Definition operation_name (o : Operation) : string :=
  match o with
  | created => "created"
  | modified => "modified"
  | deleted => "deleted"
  | moved => "moved"
  end.

Definition operation_eqb (a b : Operation) : bool :=
  String.eqb (operation_name a) (operation_name b).

(** What [os.path], [fnmatch], [time] and [datetime] answer while one
    callback or one finalizer round runs.  The three file-system
    questions are separate answers, so a file that vanishes between
    [isfile] and [getsize] is [isfile p = true] with
    [getsize p = Raise _]. *)
Record Env : Type := {
  os_sep : ascii;
  os_altsep : option ascii;
  isfile : string -> bool;
  path_exists : string -> bool;
  getsize : string -> result Z;
  relpath : string -> string -> result string;
  fnmatch : string -> string -> bool;
  time : Q;
  hour : Z;
  weekday : Z
}.

Record USBFileEventHandler : Type := {
  config : Config.Config;
  device : UsbMonitor.USBDevice;
  username : string;
  _in_progress : gmap string (Operation * Q);
  op_completion_time : Q
}.

(** [USBFileEventHandler.__init__] *)
Definition init (cfg : Config.Config) (dev : UsbMonitor.USBDevice)
    (user : string) : USBFileEventHandler :=
  {| config := cfg; device := dev; username := user;
     _in_progress := ∅; op_completion_time := 1 |}.

Definition set_in_progress (self : USBFileEventHandler)
    (m : gmap string (Operation * Q)) : USBFileEventHandler :=
  {| config := config self; device := device self;
     username := username self; _in_progress := m;
     op_completion_time := op_completion_time self |}.

(** [x > y] on floats. *)
Definition Qgtb (x y : Q) : bool := negb (Qle_bool x y).

(** [os.path.splitext(path)[1].lower()] *)
Definition extension (env : Env) (path : string) : string :=
  lower (snd (splitext (os_sep env) (os_altsep env) path)).

(** Truthiness of [max_file_size_bytes]. *)
Definition exceeds (limit : option Z) (size_bytes : Z) : bool :=
  match limit with
  | Some m => negb (m =? 0) && (m <? size_bytes)
  | None => false
  end.

(** The two size tests inside the [try] of [_should_monitor_file]. *)
Definition size_rejected (m : Config.MonitoringConfig) (size_bytes : Z) : bool :=
  (0 <? Config.min_file_size_bytes m) && (size_bytes <? Config.min_file_size_bytes m)
  || exceeds (Config.max_file_size_bytes m) size_bytes.

Definition pattern_matches (env : Env) (ext pattern : string) : bool :=
  endswith ext pattern || fnmatch env ext pattern.

(** The inclusion and exclusion part of [_should_monitor_file]. *)
Definition extension_allowed (env : Env) (m : Config.MonitoringConfig)
    (ext : string) : bool :=
  let include_patterns := Config.include_file_extensions m in
  let exclude_patterns := Config.exclude_file_extensions m in
  match include_patterns with
  | ["*"] => negb (str_in ext exclude_patterns)
  | _ =>
      if negb (existsb (pattern_matches env ext) include_patterns) then false
      else negb (existsb (pattern_matches env ext) exclude_patterns)
  end.

Definition _should_monitor_file (env : Env) (self : USBFileEventHandler)
    (path : string) : bool :=
  let m := Config.monitoring (config self) in
  if negb (isfile env path) then false
  else
    let rejected :=
      match getsize env path with
      | Ok size_bytes => size_rejected m size_bytes
      | Raise _ => false
      end in
    if rejected then false
    else extension_allowed env m (extension env path).

Definition _is_suspicious_file (env : Env) (self : USBFileEventHandler)
    (path : string) : bool :=
  let a := Config.alerts (config self) in
  if str_in (extension env path) (Config.suspicious_extensions a) then
    match getsize env path with
    | Ok size =>
        let size_mb := (inject_Z size / inject_Z (1024 * 1024))%Q in
        if Qgtb size_mb (inject_Z (Config.alert_threshold_mb a)) then true
        else false
    | Raise _ => true
    end
  else false.

(** [int(restricted_hours[key].split(":")[0])] *)
Definition restricted_hour (t : Config.TimeBasedAlertConfig) (key : string)
  : result Z :=
  bind (getitem (Config.restricted_hours t) key)
       (fun s => int (split_first ":" s)).

Definition _check_time_based_alerts (env : Env) (self : USBFileEventHandler)
  : result bool :=
  let t := Config.time_based_alerts (Config.alerts (config self)) in
  if negb (Config.enabled t) then Ok false
  else
    let current_hour := hour env in
    let is_weekend := 5 <=? weekday env in
    if is_weekend && Config.weekend_alerts t then Ok true
    else
      bind (restricted_hour t "start") (fun start_hour =>
      bind (restricted_hour t "end") (fun end_hour =>
        if end_hour <? start_hour
        then Ok ((start_hour <=? current_hour) || (current_hour <? end_hour))
        else Ok ((start_hour <=? current_hour) && (current_hour <? end_hour)))).

(** *** Log output

    The lines a callback hands to the logger, in order.  [Transfer r]
    is the call [log_file_transfer(...)]; the three warnings are the
    alert lines; [LoggingError] is the line of the [except] clause of
    [_log_file_operation]. *)
Inductive LogLine : Type :=
| LargeTransferWarning (operation : Operation) (relative_path : string) (size_mb : Q)
| SuspiciousWarning (operation : Operation) (relative_path : string) (file_size : Z)
| AfterHoursWarning (operation : Operation) (relative_path : string) (file_size : Z)
| Transfer (r : Logger.TransferRecord)
| LoggingError (e : exn).

(** A computation that logs lines and may raise. *)
Definition Logging (A : Type) : Type := list LogLine * result A.

Definition ret {A : Type} (a : A) : Logging A := ([], Ok a).

Definition lift {A : Type} (r : result A) : Logging A := ([], r).

Definition log (line : LogLine) : Logging unit := ([line], Ok tt).

Definition and_then {A B : Type} (m : Logging A) (k : A -> Logging B)
  : Logging B :=
  match m with
  | (lines, Ok a) => let '(lines', r) := k a in ((lines ++ lines')%list, r)
  | (lines, Raise e) => (lines, Raise e)
  end.

Definition when (b : bool) (m : Logging unit) : Logging unit :=
  if b then m else ret tt.

(** [try: m except Exception as e: handler(e)] *)
Definition try_except (m : Logging unit) (handler : exn -> LogLine)
  : list LogLine :=
  match m with
  | (lines, Ok _) => lines
  | (lines, Raise e) => (lines ++ [handler e])%list
  end.

#[global] Instance Logging_ret : MRet Logging := @ret.
#[global] Instance Logging_bind : MBind Logging :=
  fun A B k m => and_then m k.

Definition _log_file_operation (env : Env) (self : USBFileEventHandler)
    (operation : Operation) (path : string) (final : bool) : list LogLine :=
  let a := Config.alerts (config self) in
  try_except
    (relative_path ←
       lift (relpath env path (UsbMonitor.mount_point (device self)));
     file_size ←
       lift (if path_exists env path then getsize env path else Ok 0);
     let file_type := extension env path in
     when (Config.large_transfer_alert a)
          (let size_mb := (inject_Z file_size / inject_Z (1024 * 1024))%Q in
           when (Qgtb size_mb (inject_Z (Config.large_transfer_threshold_mb a)))
                (log (LargeTransferWarning operation relative_path size_mb)));;
     when (_is_suspicious_file env self path)
          (log (SuspiciousWarning operation relative_path file_size));;
     restricted ← lift (_check_time_based_alerts env self);
     when restricted
          (log (AfterHoursWarning operation relative_path file_size));;
     when final
          (log (Transfer
                  {| Logger.operation := operation_name operation;
                     Logger.device := UsbMonitor.name (device self);
                     Logger.file_path := relative_path;
                     Logger.file_size := file_size;
                     Logger.file_type := file_type;
                     Logger.user := username self |})))
    LoggingError.

Definition _record_operation (env : Env) (self : USBFileEventHandler)
    (operation : Operation) (path : string) : USBFileEventHandler :=
  set_in_progress self (<[path := (operation, time env)]> (_in_progress self)).

(** The first loop body of [_finalize_operations], under the lock. *)
Definition sweep_step (self : USBFileEventHandler) (current_time : Q)
    (acc : list (string * Operation) * gmap string (Operation * Q))
    (item : string * (Operation * Q))
  : list (string * Operation) * gmap string (Operation * Q) :=
  let '(path, (operation, start_time)) := item in
  if Qgtb (current_time - start_time) (op_completion_time self)
  then ((acc.1 ++ [(path, operation)])%list, delete path acc.2)
  else acc.

(** The second loop body. *)
Definition finalize_one (env : Env) (self : USBFileEventHandler)
    (entry : string * Operation) : list LogLine :=
  let '(path, operation) := entry in
  if path_exists env path || operation_eqb operation deleted
  then _log_file_operation env self operation path true
  else [].

(** One round of the [while] loop of [_finalize_operations]. *)
Definition _finalize_operations (env : Env) (self : USBFileEventHandler)
  : USBFileEventHandler * list LogLine :=
  let current_time := time env in
  let swept :=
    foldl (sweep_step self current_time) ([], _in_progress self)
          (map_to_list (_in_progress self)) in
  (set_in_progress self swept.2,
   List.concat (List.map (finalize_one env self) swept.1)).

(** A [watchdog] event; [dest_path] is present on move events. *)
Record FileSystemEvent : Type := {
  is_directory : bool;
  src_path : string;
  dest_path : option string
}.

(** [self._record_operation(op, path); self._log_file_operation(op, path)] *)
Definition record_and_log (env : Env) (self : USBFileEventHandler)
    (operation : Operation) (path : string)
  : USBFileEventHandler * list LogLine :=
  let self' := _record_operation env self operation path in
  (self', _log_file_operation env self' operation path false).

Definition on_created (env : Env) (event : FileSystemEvent)
    (self : USBFileEventHandler) : USBFileEventHandler * list LogLine :=
  if negb (is_directory event) && _should_monitor_file env self (src_path event)
  then record_and_log env self created (src_path event)
  else (self, []).

Definition on_deleted (env : Env) (event : FileSystemEvent)
    (self : USBFileEventHandler) : USBFileEventHandler * list LogLine :=
  if negb (is_directory event)
  then record_and_log env self deleted (src_path event)
  else (self, []).

Definition on_modified (env : Env) (event : FileSystemEvent)
    (self : USBFileEventHandler) : USBFileEventHandler * list LogLine :=
  if negb (is_directory event) && _should_monitor_file env self (src_path event)
  then record_and_log env self modified (src_path event)
  else (self, []).

Definition on_moved (env : Env) (event : FileSystemEvent)
    (self : USBFileEventHandler) : USBFileEventHandler * list LogLine :=
  if negb (is_directory event) then
    match dest_path event with
    | Some dest =>
        if _should_monitor_file env self dest
        then record_and_log env self moved dest
        else if _should_monitor_file env self (src_path event)
        then record_and_log env self moved (src_path event)
        else (self, [])
    | None =>
        if _should_monitor_file env self (src_path event)
        then record_and_log env self moved (src_path event)
        else (self, [])
    end
  else (self, []).

(** *** Runs

    The observer thread and the finalizer thread take turns under the
    handler's lock; a run is the sequence of their turns, each with the
    environment it saw. *)
Inductive Turn : Type :=
| Created (event : FileSystemEvent)
| Deleted (event : FileSystemEvent)
| Modified (event : FileSystemEvent)
| Moved (event : FileSystemEvent)
| Sweep.

Definition turn (env : Env) (t : Turn) (self : USBFileEventHandler)
  : USBFileEventHandler * list LogLine :=
  match t with
  | Created event => on_created env event self
  | Deleted event => on_deleted env event self
  | Modified event => on_modified env event self
  | Moved event => on_moved env event self
  | Sweep => _finalize_operations env self
  end.

Fixpoint run (turns : list (Env * Turn)) (self : USBFileEventHandler)
  : USBFileEventHandler * list LogLine :=
  match turns with
  | [] => (self, [])
  | (env, t) :: rest =>
      let '(self1, lines1) := turn env t self in
      let '(self2, lines2) := run rest self1 in
      (self2, (lines1 ++ lines2)%list)
  end.

(** The finalized records among the logged lines. *)
Fixpoint transfers (lines : list LogLine) : list Logger.TransferRecord :=
  match lines with
  | [] => []
  | Transfer r :: rest => r :: transfers rest
  | _ :: rest => transfers rest
  end.

(** The kind of the event a turn delivers. *)
Definition turn_kind (t : Turn) : option Operation :=
  match t with
  | Created _ => Some created
  | Deleted _ => Some deleted
  | Modified _ => Some modified
  | Moved _ => Some moved
  | Sweep => None
  end.

(** The kind of the last event of a run. *)
Fixpoint last_event_kind (turns : list (Env * Turn)) : option Operation :=
  match turns with
  | [] => None
  | (_, t) :: rest =>
      match last_event_kind rest with
      | Some k => Some k
      | None => turn_kind t
      end
  end.

(** Whether a turn delivers an event that names [path], as its source or
    as its destination. *)
Definition touches (path : string) (t : Turn) : bool :=
  match t with
  | Created event | Deleted event | Modified event =>
      String.eqb (src_path event) path
  | Moved event =>
      String.eqb (src_path event) path
      || match dest_path event with
         | Some dest => String.eqb dest path
         | None => false
         end
  | Sweep => false
  end.

(** The kind of the last event of a run that names [path]. *)
Fixpoint last_kind_on (path : string) (turns : list (Env * Turn))
  : option Operation :=
  match turns with
  | [] => None
  | (_, t) :: rest =>
      match last_kind_on path rest with
      | Some k => Some k
      | None => if touches path t then turn_kind t else None
      end
  end.

(** What follows the latest event on [path] (kind [k], recorded at [t])
    in a burst on [path]: modify events on [path], each on an eligible
    file and no later than the completion threshold after the event
    before it; finalizer rounds that come no later than the threshold
    after the latest event on [path]; and, at any time, events of any
    kind that do not name [path].  [k'] and [t'] are the kind and time of
    the last event on [path]. *)
Inductive burst_rest (self : USBFileEventHandler) (path : string)
  : Operation -> Q -> list (Env * Turn) -> Operation -> Q -> Prop :=
| burst_done (k : Operation) (t : Q) :
    burst_rest self path k t [] k t
| burst_modify (k : Operation) (t : Q) (env : Env) (event : FileSystemEvent)
      (turns : list (Env * Turn)) (k' : Operation) (t' : Q) :
    is_directory event = false ->
    src_path event = path ->
    (time env - t <= op_completion_time self)%Q ->
    _should_monitor_file env self path = true ->
    burst_rest self path modified (time env) turns k' t' ->
    burst_rest self path k t ((env, Modified event) :: turns) k' t'
| burst_sweep (k : Operation) (t : Q) (env : Env)
      (turns : list (Env * Turn)) (k' : Operation) (t' : Q) :
    (time env - t <= op_completion_time self)%Q ->
    burst_rest self path k t turns k' t' ->
    burst_rest self path k t ((env, Sweep) :: turns) k' t'
| burst_elsewhere (k : Operation) (t : Q) (env : Env) (other : Turn)
      (turns : list (Env * Turn)) (k' : Operation) (t' : Q) :
    other <> Sweep ->
    touches path other = false ->
    burst_rest self path k t turns k' t' ->
    burst_rest self path k t ((env, other) :: turns) k' t'.

(** A burst on [path]: a create event on an eligible file, then
    [burst_rest]. *)
Inductive burst (self : USBFileEventHandler) (path : string)
  : list (Env * Turn) -> Operation -> Q -> Prop :=
| burst_create (env : Env) (event : FileSystemEvent)
      (turns : list (Env * Turn)) (k : Operation) (t : Q) :
    is_directory event = false ->
    src_path event = path ->
    _should_monitor_file env self path = true ->
    burst_rest self path created (time env) turns k t ->
    burst self path ((env, Created event) :: turns) k t.

(** The entries the first loop of a finalizer round takes out of the
    table. *)
Definition to_finalize (env : Env) (self : USBFileEventHandler)
  : list (string * Operation) :=
  (foldl (sweep_step self (time env)) ([], _in_progress self)
         (map_to_list (_in_progress self))).1.

(** The lines the second loop of that round logs for the entries of
    [path]. *)
Definition finalized_lines (env : Env) (self : USBFileEventHandler)
    (path : string) : list LogLine :=
  List.concat
    (List.map (finalize_one env self)
       (List.filter (fun entry => String.eqb entry.1 path)
                    (to_finalize env self))).

(** The records a run writes for [path]: those the finalizer rounds write
    for the entries of [path]. *)
Fixpoint records_for (path : string) (turns : list (Env * Turn))
    (self : USBFileEventHandler) : list Logger.TransferRecord :=
  match turns with
  | [] => []
  | (env, t) :: rest =>
      (match t with
       | Sweep => transfers (finalized_lines env self path)
       | _ => []
       end
       ++ records_for path rest (turn env t self).1)%list
  end.

(** The second loop body with its two moments apart:
    [exists_at_check] is what [os.path.exists(path)] answers in the [if]
    of the loop, [env] is what the calls inside [_log_file_operation]
    answer afterwards.  [finalize_one env] is
    [finalize_one_at (path_exists env path) env]. *)
Definition finalize_one_at (exists_at_check : bool) (env : Env)
    (self : USBFileEventHandler) (entry : string * Operation)
  : list LogLine :=
  let '(path, operation) := entry in
  if exists_at_check || operation_eqb operation deleted
  then _log_file_operation env self operation path true
  else [].

(** The same handler under another monitoring policy. *)
Definition with_monitoring (self : USBFileEventHandler)
    (m : Config.MonitoringConfig) : USBFileEventHandler :=
  {| config := {| Config.monitoring := m;
                  Config.alerts := Config.alerts (config self) |};
     device := device self;
     username := username self;
     _in_progress := _in_progress self;
     op_completion_time := op_completion_time self |}.

(** The record [_log_file_operation] hands to [log_file_transfer]. *)
Definition transfer_record (env : Env) (self : USBFileEventHandler)
    (operation : Operation) (path relative_path : string) (file_size : Z)
  : Logger.TransferRecord :=
  {| Logger.operation := operation_name operation;
     Logger.device := UsbMonitor.name (device self);
     Logger.file_path := relative_path;
     Logger.file_size := file_size;
     Logger.file_type := extension env path;
     Logger.user := username self |}.

End FileWatcher.

(** ** Sample inputs

    A device mounted on [/mnt/usb], environments over a finite table of
    regular files, and handlers for a few policies. *)

Module Samples.
Import Py FileWatcher.

Definition device_D1 : UsbMonitor.USBDevice := {|
  UsbMonitor.device_id := "SER-0001";
  UsbMonitor.name := "D1";
  UsbMonitor.mount_point := "/mnt/usb";
  UsbMonitor.serial := Some "0001";
  UsbMonitor.vendor := None;
  UsbMonitor.model := None
|}.

Definition device_D2 : UsbMonitor.USBDevice := {|
  UsbMonitor.device_id := "SER-0002";
  UsbMonitor.name := "D2";
  UsbMonitor.mount_point := "/mnt/usb2";
  UsbMonitor.serial := Some "0002";
  UsbMonitor.vendor := None;
  UsbMonitor.model := None
|}.

(** [device_D1] as a later detection sees it: same id, new mount point. *)
Definition device_D1_remounted : UsbMonitor.USBDevice := {|
  UsbMonitor.device_id := "SER-0001";
  UsbMonitor.name := "D1";
  UsbMonitor.mount_point := "/media/usb";
  UsbMonitor.serial := Some "0001";
  UsbMonitor.vendor := None;
  UsbMonitor.model := None
|}.

Definition device_D3 : UsbMonitor.USBDevice := {|
  UsbMonitor.device_id := "SER-0003";
  UsbMonitor.name := "D3";
  UsbMonitor.mount_point := "/mnt/usb3";
  UsbMonitor.serial := None;
  UsbMonitor.vendor := None;
  UsbMonitor.model := None
|}.

(** A registry holding [device_D1] and [device_D2]. *)
Definition registry_D1_D2 : gmap string UsbMonitor.USBDevice :=
  <["SER-0001" := device_D1]> {["SER-0002" := device_D2]}.

(** The answer of [os.path.relpath(path, start)] for a path below
    [start]; the sample environments raise elsewhere. *)
Definition relpath_below (path start : string) : result string :=
  if String.prefix (start ++ "/") path
  then Ok (String.substring (String.length start + 1) (String.length path) path)
  else Raise ValueError.

(** Shell-style matching with [*] and [?], which is [fnmatch] on
    patterns without brackets. *)
Fixpoint glob (pattern : string) : string -> bool :=
  match pattern with
  | EmptyString => fun s => String.eqb s EmptyString
  | String c pattern' =>
      if Ascii.eqb c "*" then
        fix star (s : string) : bool :=
          glob pattern' s
          || match s with
             | EmptyString => false
             | String _ s' => star s'
             end
      else
        fun s =>
          match s with
          | EmptyString => false
          | String d s' =>
              (Ascii.eqb c "?" || Ascii.eqb c d) && glob pattern' s'
          end
  end.

(** A POSIX environment whose regular files and their sizes are [files]. *)
Definition posix_env (files : gmap string Z) (now : Q) (h wd : Z) : Env := {|
  os_sep := "/";
  os_altsep := None;
  isfile := fun p => bool_decide (is_Some (files !! p));
  path_exists := fun p => bool_decide (is_Some (files !! p));
  getsize := fun p =>
    match files !! p with
    | Some n => Ok n
    | None => Raise FileNotFoundError
    end;
  relpath := relpath_below;
  fnmatch := fun name pattern => glob pattern name;
  time := now;
  hour := h;
  weekday := wd
|}.

(** The same files, but every [getsize] fails: the files vanish between
    the existence test and the size read. *)
Definition racy_env (files : gmap string Z) (now : Q) (h wd : Z) : Env := {|
  os_sep := "/";
  os_altsep := None;
  isfile := fun p => bool_decide (is_Some (files !! p));
  path_exists := fun p => bool_decide (is_Some (files !! p));
  getsize := fun _ => Raise FileNotFoundError;
  relpath := relpath_below;
  fnmatch := fun name pattern => glob pattern name;
  time := now;
  hour := h;
  weekday := wd
|}.

Definition default_handler : USBFileEventHandler :=
  init Config.default_config device_D1 "alice".

Definition monitoring_with (include exclude : list string) (min : Z)
    (max : option Z) : Config.MonitoringConfig := {|
  Config.check_interval_seconds := 1;
  Config.include_file_extensions := include;
  Config.exclude_file_extensions := exclude;
  Config.min_file_size_bytes := min;
  Config.max_file_size_bytes := max
|}.

Definition handler_with (m : Config.MonitoringConfig) : USBFileEventHandler :=
  init {| Config.monitoring := m; Config.alerts := Config.default_alerts |}
       device_D1 "alice".

(** Restricted from 09:00 to 17:00, no weekend rule, and a suspicious
    threshold of 1 MB for ".docx". *)
Definition office_hours_handler : USBFileEventHandler :=
  init {| Config.monitoring := Config.default_monitoring;
          Config.alerts := {|
            Config.enable_alerts := true;
            Config.alert_threshold_mb := 1;
            Config.suspicious_extensions := [".docx"];
            Config.large_transfer_alert := true;
            Config.large_transfer_threshold_mb := 500;
            Config.time_based_alerts := {|
              Config.enabled := true;
              Config.restricted_hours :=
                <["start" := "09:00"]> {["end" := "17:00"]};
              Config.weekend_alerts := false
            |}
          |} |}
       device_D1 "alice".

Definition usb_files : gmap string Z :=
  <["/mnt/usb/report.docx" := 2097152]>
  (<["/mnt/usb/a.txt" := 1000]>
  (<["/mnt/usb/a.tmp" := 1000]>
  (<["/mnt/usb/small.txt" := 500]> ∅))).

Definition transfers_csv : string := "logs/transfers_2024-01-01.csv".

(** A fresh log directory after [setup_logger]: the header, no digest yet. *)
Definition fresh_log : Logger.SecureFileHandler * gmap string string :=
  Logger.setup_transfer_log transfers_csv ∅.

Definition two_records : list (string * Logger.TransferRecord) :=
  [ ("2024-01-01 10:00:00",
     {| Logger.operation := "created"; Logger.device := "D1";
        Logger.file_path := "report.docx"; Logger.file_size := 2097152;
        Logger.file_type := ".docx"; Logger.user := "alice" |});
    ("2024-01-01 10:00:07",
     {| Logger.operation := "deleted"; Logger.device := "D1";
        Logger.file_path := "old.txt"; Logger.file_size := 0;
        Logger.file_type := ".txt"; Logger.user := "alice" |}) ].

(** The log file after the two appends. *)
Definition two_records_log : string :=
  Eval vm_compute in
    default EmptyString ((Logger.log_file_transfers fresh_log.1 two_records fresh_log.2).2
                  !! transfers_csv).

Definition file_event (path : string) : FileSystemEvent :=
  {| is_directory := false; src_path := path; dest_path := None |}.

Definition move_event (src dest : string) : FileSystemEvent :=
  {| is_directory := false; src_path := src; dest_path := Some dest |}.

(** [old.txt] was deleted from the device; nothing is left on it. *)
Definition old_txt : string := "/mnt/usb/old.txt".


Definition report : string := "/mnt/usb/report.docx".

(** A copy of [report.docx]: a create, two modifies, and finalizer
    rounds in between, all within the completion threshold. *)
Definition report_burst : list (Env * Turn) :=
  [ (posix_env usb_files 0 12 2, Created (file_event report));
    (posix_env usb_files (3 # 10) 12 2, Modified (file_event report));
    (posix_env usb_files (1 # 2) 12 2, Sweep);
    (posix_env usb_files (6 # 10) 12 2, Modified (file_event report));
    (posix_env usb_files 1 12 2, Sweep);
    (posix_env usb_files (3 # 2) 12 2, Sweep) ].

(** The rounds after the quiet period. *)
Definition report_settled : Env := posix_env usb_files 2 12 2.
Definition report_later : list (Env * Turn) :=
  [ (posix_env usb_files (5 # 2) 12 2, Sweep);
    (posix_env usb_files 3 12 2, Sweep) ].

End Samples.

(** ** More of the Python runtime *)

Module PyText.
Import Py.

(** [s.split(sep)] for a one-character separator: the fields between the
    separators, at least one. *)
Fixpoint split (sep : ascii) (s : string) : list string :=
  match s with
  | EmptyString => [EmptyString]
  | String c s' =>
      if Ascii.eqb c sep then EmptyString :: split sep s'
      else
        match split sep s' with
        | field :: fields => String c field :: fields
        | [] => [String c EmptyString]
        end
  end.

(** [s.split()]: the maximal runs of characters that are not white space. *)
Fixpoint split_whitespace (s : string) : list string :=
  match s with
  | EmptyString => []
  | String c s' =>
      if is_space c then split_whitespace s'
      else
        match split_whitespace s' with
        | field :: fields =>
            match s' with
            | String d _ =>
                if is_space d then String c EmptyString :: field :: fields
                else String c field :: fields
            | EmptyString => [String c EmptyString]
            end
        | [] => [String c EmptyString]
        end
  end.

(** [needle in s] for strings. *)
Fixpoint contains (needle s : string) : bool :=
  String.prefix needle s
  || match s with
     | EmptyString => false
     | String _ s' => contains needle s'
     end.


(** [a or b] on strings that may be [None]: the first one that is
    neither [None] nor empty. *)
Definition or_else (a : option string) (b : string) : string :=
  match a with
  | Some (String c a') => String c a'
  | _ => b
  end.

End PyText.

(** ** The registry beyond polling ([core/usb_monitor.py]) *)

Module Registry.
Import Py PyText UsbMonitor.

(** [get_connected_devices] *)
Definition get_connected_devices (connected : gmap string USBDevice)
  : list USBDevice :=
  (map_to_list connected).*2.

(** [is_device_connected] *)
Definition is_device_connected (id : string)
    (connected : gmap string USBDevice) : bool :=
  bool_decide (is_Some (connected !! id)).

(** [get_device_by_mount_point]: the first connected device mounted
    there.  Which one is first when several are mounted at the path
    depends on the order of the dict; the statements about this function
    hold for any order. *)
Definition get_device_by_mount_point (path : string)
    (connected : gmap string USBDevice) : option USBDevice :=
  List.find (fun device => String.eqb (mount_point device) path)
            (get_connected_devices connected).

(** The first loop of [start_monitoring]: every detected device is stored
    under its id, silently. *)
Definition initial_devices (current_devices : list USBDevice)
    (connected : gmap string USBDevice) : gmap string USBDevice :=
  foldl (fun m device => <[device_id device := device]> m)
        connected current_devices.

(** Every entry is stored under the id of its device. *)
Definition registry_wf (connected : gmap string USBDevice) : Prop :=
  forall (k : string) (d : USBDevice), connected !! k = Some d -> device_id d = k.

(** A [pyudev] device of the block subsystem, as far as the monitor reads
    it: its action, its properties, its device node, and whether it has a
    parent in the usb subsystem. *)
Record UdevDevice : Type := {
  action : string;
  properties : gmap string string;
  device_node : string;
  usb_parent : bool
}.

(** [device.get('ID_BUS') == 'usb' or device.find_parent(subsystem='usb')] *)
Definition is_usb (d : UdevDevice) : bool :=
  match properties d !! "ID_BUS" with
  | Some bus => String.eqb bus "usb"
  | None => false
  end
  || usb_parent d.

(** The scan of [/proc/mounts]: the second field of the first line whose
    first field is the device node. *)
Fixpoint find_mount_point (mounts : list string) (node : string)
  : option string :=
  match mounts with
  | [] => None
  | line :: rest =>
      match split_whitespace line with
      | first :: second :: _ =>
          if String.eqb first node then Some second
          else find_mount_point rest node
      | _ => find_mount_point rest node
      end
  end.

(** The [USBDevice] both Linux code paths build for a mounted device. *)
Definition linux_usb_device (d : UdevDevice) (mount : string) : USBDevice :=
  let vendor :=
    or_else (properties d !! "ID_VENDOR")
            (default "Unknown" (properties d !! "ID_VENDOR_ID")) in
  let model :=
    or_else (properties d !! "ID_MODEL")
            (default "USB Storage" (properties d !! "ID_MODEL_ID")) in
  {| device_id := default (device_node d) (properties d !! "ID_SERIAL");
     name := model;
     mount_point := mount;
     serial := properties d !! "ID_SERIAL_SHORT";
     vendor := Some vendor;
     model := Some model |}.



(** One event of the loop of [_monitor_linux_devices]. *)
Definition linux_event (d : UdevDevice) (mounts : result (list string))
    (connected : gmap string USBDevice) : Deltas :=
  let unchanged :=
    {| connected_devices := connected; removed := []; added := [] |} in
  if String.eqb (action d) "add" && is_usb d then
    match mounts with
    | Raise _ => unchanged
    | Ok lines =>
        match find_mount_point lines (device_node d) with
        | Some (String c mount) =>
            let new_device := linux_usb_device d (String c mount) in
            {| connected_devices := <[device_id new_device := new_device]> connected;
               removed := [];
               added := [new_device] |}
        | _ => unchanged
        end
    end
  else if String.eqb (action d) "remove" && is_usb d then
    let id := default (device_node d) (properties d !! "ID_SERIAL") in
    match connected !! id with
    | Some removed_device =>
        {| connected_devices := delete id connected;
           removed := [removed_device];
           added := [] |}
    | None => unchanged
    end
  else unchanged.

(** One turn of [iter(lambda: monitor.poll(1), None)]: what [poll]
    returned ([None] after a second without an event), whether
    [stop_event] is set when the loop body starts, and what reading
    [/proc/mounts] gives at that moment. *)
Record Poll : Type := {
  polled : option UdevDevice;
  stop_set : bool;
  mounts_now : result (list string)
}.

(** The [for] loop of [_monitor_linux_devices]: the sentinel [None] ends
    the iteration, a set [stop_event] breaks out of it. *)
Fixpoint _monitor_linux_devices (polls : list Poll)
    (connected : gmap string USBDevice) : Deltas :=
  match polls with
  | [] => {| connected_devices := connected; removed := []; added := [] |}
  | p :: rest =>
      match polled p with
      | None => {| connected_devices := connected; removed := []; added := [] |}
      | Some d =>
          if stop_set p
          then {| connected_devices := connected; removed := []; added := [] |}
          else
            let step := linux_event d (mounts_now p) connected in
            let later := _monitor_linux_devices rest (connected_devices step) in
            {| connected_devices := connected_devices later;
               removed := (removed step ++ removed later)%list;
               added := (added step ++ added later)%list |}
      end
  end.

End Registry.

(** ** The watcher of all devices ([FileWatcher] in [core/file_watcher.py]) *)

Module Watcher.
Import Py UsbMonitor.

(** A [watchdog] observer scheduled on a mount point. *)
Record Observer : Type := {
  scheduled_path : string;
  recursive : bool
}.

Record FileWatcher : Type := {
  config : Config.Config;
  observers : gmap string Observer;
  handlers : gmap string FileWatcher.USBFileEventHandler
}.

(** [FileWatcher.__init__] *)
Definition init (cfg : Config.Config) : FileWatcher :=
  {| config := cfg; observers := ∅; handlers := ∅ |}.

(** [_handle_device_added].  [user] is [getpass.getuser()];
    [start_observer] tells whether creating, scheduling and starting the
    observer on a path raises.  The second component is the exception the
    [except] clause logs. *)
Definition _handle_device_added (user : string)
    (start_observer : string -> result unit) (device : USBDevice)
    (self : FileWatcher) : FileWatcher * option exn :=
  let handler := FileWatcher.init (config self) device user in
  match start_observer (mount_point device) with
  | Ok _ =>
      let observer :=
        {| scheduled_path := mount_point device; recursive := true |} in
      ({| config := config self;
          observers := <[device_id device := observer]> (observers self);
          handlers := <[device_id device := handler]> (handlers self) |},
       None)
  | Raise e => (self, Some e)
  end.

(** [_handle_device_removed]: both [pop]s have a default, so an unknown
    device is not an error.  The second component is the handler and the
    observer that are stopped. *)
Definition _handle_device_removed (device : USBDevice) (self : FileWatcher)
  : FileWatcher * (option FileWatcher.USBFileEventHandler * option Observer) :=
  ({| config := config self;
      observers := delete (device_id device) (observers self);
      handlers := delete (device_id device) (handlers self) |},
   (handlers self !! device_id device, observers self !! device_id device)).

(** [stop_monitoring] *)
Definition stop_monitoring (self : FileWatcher) : FileWatcher :=
  {| config := config self; observers := ∅; handlers := ∅ |}.

(** The callbacks of one polling round, in the order the monitor fires
    them: the removals, then the additions. *)
Definition dispatch (user : string) (start_observer : string -> result unit)
    (deltas : Deltas) (self : FileWatcher) : FileWatcher :=
  let after_removed :=
    foldl (fun w device => (_handle_device_removed device w).1)
          self (removed deltas) in
  foldl (fun w device => (_handle_device_added user start_observer device w).1)
        after_removed (added deltas).

(** The first loop of [start_monitoring]: a monitor for every device that
    is already connected. *)
Definition start_monitoring (user : string)
    (start_observer : string -> result unit)
    (connected : gmap string USBDevice) (self : FileWatcher) : FileWatcher :=
  foldl (fun w device => (_handle_device_added user start_observer device w).1)
        self (Registry.get_connected_devices connected).

End Watcher.

(** ** Retention ([cleanup_old_logs] in [utils/logger.py]) *)

Module Retention.
Import Py PyText.

(** [fnmatch(name, "*.log*")] where names are matched case-sensitively. *)
Definition glob_log (name : string) : bool := contains ".log" name.

(** [log_file.name.split('_')[1].split('.')[0]]; [None] is the
    [IndexError] of a name without underscore. *)
Definition file_date_str (name : string) : option string :=
  match split "_" name with
  | _ :: second :: _ => Some (List.hd EmptyString (split "." second))
  | _ => None
  end.

(** [os.unlink]: a missing file raises. *)
Definition unlink (name : string) (fs : gmap string string)
  : result (gmap string string) :=
  match fs !! name with
  | Some _ => Ok (delete name fs)
  | None => Raise FileNotFoundError
  end.

(** The loop of [cleanup_old_logs] over the names [glob] yields.
    [strptime] is [datetime.strptime(_, '%Y-%m-%d')] as seconds, [None]
    for its [ValueError]; [cutoff] is [now - days_to_keep] days.  Only
    [IndexError] and [ValueError] are caught. *)
Fixpoint cleanup_loop (strptime : string -> option Q) (cutoff : Q)
    (listing : list string) (fs : gmap string string)
  : result (gmap string string) :=
  match listing with
  | [] => Ok fs
  | log_file :: rest =>
      match file_date_str log_file with
      | None => cleanup_loop strptime cutoff rest fs
      | Some text =>
          match strptime text with
          | None => cleanup_loop strptime cutoff rest fs
          | Some file_date =>
              if FileWatcher.Qgtb cutoff file_date then
                match unlink log_file fs with
                | Raise e => Raise e
                | Ok fs1 =>
                    let hash_file := log_file ++ ".hash" in
                    match fs1 !! hash_file with
                    | Some _ => cleanup_loop strptime cutoff rest (delete hash_file fs1)
                    | None => cleanup_loop strptime cutoff rest fs1
                    end
                end
              else cleanup_loop strptime cutoff rest fs
          end
      end
  end.

(** [cleanup_old_logs].  [scan] is the directory as [glob] scans it, a
    snapshot taken before the first file is removed; the loop visits the
    names that match ["*.log*"], in the order of the scan. *)
Definition cleanup_old_logs (strptime : string -> option Q) (now : Q)
    (days_to_keep : Z) (scan : list string) (fs : gmap string string)
  : result (gmap string string) :=
  cleanup_loop strptime (now - inject_Z (days_to_keep * 86400))
               (List.filter glob_log scan) fs.

End Retention.

(** ** The settings dialog ([SettingsDialog] in [ui/settings.py]) *)

Module Settings.
Import Py PyText.

Record GeneralConfig : Type := {
  log_directory : string;
  run_at_startup : bool;
  minimize_to_tray : bool
}.

Record SecurityConfig : Type := {
  hash_algorithm : string;
  encrypt_logs : bool;
  log_retention_days : Z
}.

(** The whole [Config] object the dialog edits: the two parts the
    monitor reads ([monitoring] and [alerts], as [Config.Config]) with
    the general and the security part. *)
Record AppConfig : Type := {
  general : GeneralConfig;
  core : Config.Config;
  security : SecurityConfig
}.

(** The Tk variables of the dialog: a [StringVar] holds a [string], a
    [BooleanVar] a [bool]. *)
Record SettingsDialog : Type := {
  log_dir_var : string;
  startup_var : bool;
  tray_var : bool;
  interval_var : string;
  include_var : string;
  exclude_var : string;
  min_size_var : string;
  max_size_var : string;
  alerts_enabled_var : bool;
  threshold_var : string;
  suspicious_var : string;
  large_transfer_var : bool;
  large_size_var : string;
  time_alerts_var : bool;
  time_start_var : string;
  time_end_var : string;
  weekend_alerts_var : bool;
  hash_var : string;
  encrypt_var : bool;
  retention_var : string
}.


(** [try: v = int(text); if v < minimum: raise ValueError(...)
    except ValueError: ...]: [None] is the [except] branch. *)
Definition at_least (minimum : Z) (text : string) : option Z :=
  match int text with
  | Ok v => if v <? minimum then None else Some v
  | Raise _ => None
  end.

(** [[ext.strip() for ext in text.split(",") if ext.strip()]] *)
Definition extension_list (text : string) : list string :=
  List.map strip
    (List.filter (fun ext => negb (String.eqb (strip ext) EmptyString))
                 (split "," text)).

(** How [_save_settings] ends: the configuration is updated and the
    dialog closes with [result = True]; or a field is rejected, an error
    box names it, the notebook switches to a tab, and the configuration
    is as before; or an exception after the update reaches the outer
    [except], with the configuration already updated and [result] still
    [False]. *)
Inductive Outcome : Type :=
| Saved (cfg : AppConfig)
| Invalid (message : string) (tab : Z)
| Failed (cfg : AppConfig) (e : exn).

(** [_save_settings].  Every field of the configuration is assigned, so
    the updated configuration does not depend on the previous one.
    [mkdir] is [Path(log_directory).mkdir(exist_ok=True, parents=True)]. *)
Definition _save_settings (mkdir : string -> result unit)
    (self : SettingsDialog) : Outcome :=
  match at_least 1 (interval_var self) with
  | None => Invalid "Check interval must be a positive integer" 1
  | Some check_interval =>
  match at_least 0 (min_size_var self) with
  | None => Invalid "Minimum file size must be a non-negative integer" 1
  | Some min_size =>
  let max_size_str := strip (max_size_var self) in
  match (match max_size_str with
         | EmptyString => Some None
         | String _ _ => option_map Some (at_least min_size max_size_str)
         end) with
  | None =>
      Invalid "Maximum file size must be a valid integer greater than minimum size" 1
  | Some max_size =>
  match at_least 0 (threshold_var self) with
  | None => Invalid "Alert threshold must be a non-negative integer" 2
  | Some threshold =>
  match at_least 0 (large_size_var self) with
  | None => Invalid "Large transfer threshold must be a non-negative integer" 2
  | Some large_size =>
  match at_least 1 (retention_var self) with
  | None => Invalid "Log retention must be a positive integer" 3
  | Some retention =>
      let cfg :=
        {| general :=
             {| log_directory := log_dir_var self;
                run_at_startup := startup_var self;
                minimize_to_tray := tray_var self |};
           core :=
             {| Config.monitoring :=
                  {| Config.check_interval_seconds := check_interval;
                     Config.include_file_extensions :=
                       extension_list (include_var self);
                     Config.exclude_file_extensions :=
                       extension_list (exclude_var self);
                     Config.min_file_size_bytes := min_size;
                     Config.max_file_size_bytes := max_size |};
                Config.alerts :=
                  {| Config.enable_alerts := alerts_enabled_var self;
                     Config.alert_threshold_mb := threshold;
                     Config.suspicious_extensions :=
                       extension_list (suspicious_var self);
                     Config.large_transfer_alert := large_transfer_var self;
                     Config.large_transfer_threshold_mb := large_size;
                     Config.time_based_alerts :=
                       {| Config.enabled := time_alerts_var self;
                          Config.restricted_hours :=
                            <["start" := time_start_var self]>
                              {["end" := time_end_var self]};
                          Config.weekend_alerts := weekend_alerts_var self |} |} |};
           security :=
             {| hash_algorithm := hash_var self;
                encrypt_logs := encrypt_var self;
                log_retention_days := retention |} |} in
      match mkdir (log_dir_var self) with
      | Ok _ => Saved cfg
      | Raise e => Failed cfg e
      end
  end end end end end end.

(** The configuration [_save_settings] leaves behind, if it got as far
    as updating it. *)
Definition updated (o : Outcome) : option AppConfig :=
  match o with
  | Saved cfg => Some cfg
  | Failed cfg _ => Some cfg
  | Invalid _ _ => None
  end.

End Settings.

(** ** The log viewer ([LogViewer._scan_logs] in [ui/log_viewer.py]) *)

Module LogViewer.

(** Whether [log_dir.glob("transfers_*.csv")] yields a name; the pattern
    has no brackets. *)
Definition is_transfer_log (name : string) : bool :=
  Samples.glob "transfers_*.csv" name.

(** The files [_scan_logs] offers in its combo box, out of the names in
    the log directory.  [sorted(..., reverse=True)] orders them and is
    left out: the list below is in the order of the scan. *)
Definition log_files (scan : list string) : list string :=
  List.filter is_transfer_log scan.

End LogViewer.

(** ** Notions used in the statements *)

Module Notions.
Import FileWatcher.

(** What no turn of a run changes in a handler. *)
Definition same_identity (self self' : USBFileEventHandler) : Prop :=
  config self' = config self /\ device self' = device self
  /\ username self' = username self
  /\ op_completion_time self' = op_completion_time self.


(** What the characters of a printed number are not: white space, a
    sign, or a comma. *)
Definition numeral_char (c : ascii) : bool :=
  Py.not_space c && negb (Ascii.eqb c "-") && negb (Ascii.eqb c "+")
  && negb (Ascii.eqb c ",").

(** The last character of a string. *)
Fixpoint last_char (s : string) : option ascii :=
  match s with
  | EmptyString => None
  | String c s' =>
      match s' with
      | EmptyString => Some c
      | String _ _ => last_char s'
      end
  end.

End Notions.

(** ** More sample inputs *)

Module MoreSamples.
Import Py UsbMonitor Registry.

(** A USB stick as udev reports its partition. *)
Definition stick (act : string) : UdevDevice := {|
  action := act;
  properties :=
    <["ID_BUS" := "usb"]>
    (<["ID_SERIAL" := "Kingston_DT_0001"]>
    (<["ID_SERIAL_SHORT" := "0001"]>
    (<["ID_VENDOR" := "Kingston"]>
    (<["ID_MODEL" := "DataTraveler"]> ∅))));
  device_node := "/dev/sdb1";
  usb_parent := true
|}.


Definition proc_mounts : list string :=
  [ "/dev/sda1 / ext4 rw,relatime 0 0";
    "/dev/sdb1 /mnt/usb vfat rw,nosuid 0 0";
    "/dev/sdb1 /mnt/again vfat rw 0 0" ].

Definition stick_device : USBDevice := linux_usb_device (stick "add") "/mnt/usb".

Definition always_starts (path : string) : result unit := Ok tt.
Definition never_starts (path : string) : result unit := Raise OSError.

(** Dates as days since 2024-01-01, for the two dates the samples use. *)
Definition sample_strptime (text : string) : option Q :=
  if String.eqb text "2024-01-01" then Some 0%Q
  else if String.eqb text "2024-06-01" then Some (inject_Z (152 * 86400))
  else None.

Definition old_log : string := "app_2024-01-01.log".
Definition recent_log : string := "app_2024-06-01.log".

Definition log_directory : gmap string string :=
  <[old_log := "old lines"]>
  (<[old_log ++ ".hash" := "d1"]>
  (<[recent_log := "recent lines"]>
  (<[recent_log ++ ".hash" := "d2"]>
  (<["transfers_2024-01-01.csv" := "timestamp,operation"]>
  (<["notes.log" := "no date in this name"]> ∅))))).

(** The moment of the sample cleanup: day 160 of 2024. *)
Definition sample_now : Q := inject_Z (160 * 86400).

(** Two orders in which the directory may be scanned. *)
Definition scan_digest_first : list string :=
  [ recent_log; old_log ++ ".hash"; "notes.log"; "transfers_2024-01-01.csv";
    old_log; recent_log ++ ".hash" ].

Definition scan_log_first : list string :=
  [ old_log; "notes.log"; old_log ++ ".hash" ].

(** An observer that cannot be started on one path. *)
Definition starts_except (bad path : string) : result unit :=
  if String.eqb path bad then Raise OSError else Ok tt.

(** A plug event, a second without an event, and an unplug event that
    comes too late. *)
Definition sample_polls : list Poll :=
  [ {| polled := Some (stick "add"); stop_set := false;
       mounts_now := Ok proc_mounts |};
    {| polled := None; stop_set := false; mounts_now := Ok proc_mounts |};
    {| polled := Some (stick "remove"); stop_set := false;
       mounts_now := Ok proc_mounts |} ].

(** The dialog as a user may fill it in; the start of the restricted
    hours is not a time. *)
Definition sample_dialog (start : string) : Settings.SettingsDialog := {|
  Settings.log_dir_var := "logs";
  Settings.startup_var := true;
  Settings.tray_var := true;
  Settings.interval_var := "2";
  Settings.include_var := " .txt, .pdf ,,";
  Settings.exclude_var := ".tmp";
  Settings.min_size_var := "10";
  Settings.max_size_var := " 5000 ";
  Settings.alerts_enabled_var := true;
  Settings.threshold_var := "100";
  Settings.suspicious_var := ".zip,.rar";
  Settings.large_transfer_var := true;
  Settings.large_size_var := "500";
  Settings.time_alerts_var := true;
  Settings.time_start_var := start;
  Settings.time_end_var := "07:00";
  Settings.weekend_alerts_var := true;
  Settings.hash_var := "sha256";
  Settings.encrypt_var := false;
  Settings.retention_var := "30"
|}.

Definition default_app_config : Settings.AppConfig := {|
  Settings.general :=
    {| Settings.log_directory := "logs";
       Settings.run_at_startup := true;
       Settings.minimize_to_tray := true |};
  Settings.core := Config.default_config;
  Settings.security :=
    {| Settings.hash_algorithm := "sha256";
       Settings.encrypt_logs := false;
       Settings.log_retention_days := 90 |}
|}.

Definition mkdir_ok (path : string) : result unit := Ok tt.

(** What saving [sample_dialog "6pm"] leaves behind. *)
Definition saved_sample_config : Settings.AppConfig :=
  default default_app_config
    (Settings.updated (Settings._save_settings mkdir_ok (sample_dialog "6pm"))).


(** Events only: a create and a modify of [report.docx], a delete of
    [old.txt]. *)
Definition events_only : list (FileWatcher.Env * FileWatcher.Turn) :=
  [ (Samples.posix_env Samples.usb_files 0 12 2,
     FileWatcher.Created (Samples.file_event Samples.report));
    (Samples.posix_env Samples.usb_files (3 # 10) 12 2,
     FileWatcher.Modified (Samples.file_event Samples.report));
    (Samples.posix_env Samples.usb_files 5 12 2,
     FileWatcher.Deleted (Samples.file_event Samples.old_txt)) ].

(** A handler that already holds a delete of [old.txt], recorded at
    time 0. *)
Definition busy_handler : FileWatcher.USBFileEventHandler :=
  FileWatcher._record_operation
    (Samples.posix_env Samples.usb_files 0 12 2)
    Samples.default_handler FileWatcher.deleted Samples.old_txt.

(** A copy of [report.docx] while [a.txt] is created and moved away. *)
Definition report_burst_among : list (FileWatcher.Env * FileWatcher.Turn) :=
  [ (Samples.posix_env Samples.usb_files 0 12 2,
     FileWatcher.Created (Samples.file_event Samples.report));
    (Samples.posix_env Samples.usb_files (1 # 10) 12 2,
     FileWatcher.Created (Samples.file_event "/mnt/usb/a.txt"));
    (Samples.posix_env Samples.usb_files (3 # 10) 12 2,
     FileWatcher.Modified (Samples.file_event Samples.report));
    (Samples.posix_env Samples.usb_files (1 # 2) 12 2, FileWatcher.Sweep);
    (Samples.posix_env Samples.usb_files (6 # 10) 12 2,
     FileWatcher.Modified (Samples.file_event Samples.report));
    (Samples.posix_env Samples.usb_files (8 # 10) 12 2,
     FileWatcher.Moved (Samples.move_event "/mnt/usb/a.txt" "/mnt/usb/b.txt"));
    (Samples.posix_env Samples.usb_files 1 12 2, FileWatcher.Sweep);
    (Samples.posix_env Samples.usb_files (3 # 2) 12 2, FileWatcher.Sweep) ].

(** What follows the quiet period: a delete of [small.txt] and two more
    rounds. *)
Definition report_after : list (FileWatcher.Env * FileWatcher.Turn) :=
  [ (Samples.posix_env Samples.usb_files (5 # 2) 12 2,
     FileWatcher.Deleted (Samples.file_event "/mnt/usb/small.txt"));
    (Samples.posix_env Samples.usb_files 3 12 2, FileWatcher.Sweep);
    (Samples.posix_env Samples.usb_files 4 12 2, FileWatcher.Sweep) ].

End MoreSamples.

(** * Properties *)

(** ** The Python helpers on sample inputs *)

Section Helpers.

Example splitext_lower_case :
  Py.lower (Py.splitext "/" None "/mnt/usb/Report.DOCX").2 = ".docx".
Proof. reflexivity. Qed.

Example splitext_leading_dot :
  Py.splitext "/" None "/mnt/usb/.bashrc" = ("/mnt/usb/.bashrc", EmptyString).
Proof. reflexivity. Qed.

Example splitext_dot_in_directory :
  Py.splitext "/" None "/mnt/u.sb/notes" = ("/mnt/u.sb/notes", EmptyString).
Proof. reflexivity. Qed.

Example splitext_windows :
  Py.splitext "\" (Some "/"%char) "E:\docs/a.b\c.tar.gz" = ("E:\docs/a.b\c.tar", ".gz").
Proof. reflexivity. Qed.

Example int_of_hour_field :
  Py.int (Py.split_first ":" "07:00") = Py.Ok 7
  /\ Py.int (Py.split_first ":" " 18 :00") = Py.Ok 18
  /\ Py.int (Py.split_first ":" "late") = Py.Raise Py.ValueError
  /\ Py.int "1_000" = Py.Ok 1000
  /\ Py.int "-12" = Py.Ok (-12)
  /\ Py.int EmptyString = Py.Raise Py.ValueError.
Proof. repeat split. Qed.

Example endswith_samples :
  Py.endswith ".tmp" "tmp" = true
  /\ Py.endswith ".tmp" EmptyString = true
  /\ Py.endswith EmptyString ".tmp" = false.
Proof. repeat split. Qed.

Example sha256_empty :
  Sha256.hexdigest EmptyString
  = "e3b0c44298fc1c149afbf4c8996fb92427ae41e4649b934ca495991b7852b855".
Proof. vm_compute. reflexivity. Qed.

Example sha256_abc :
  Sha256.hexdigest "abc"
  = "ba7816bf8f01cfea414140de5dae2223b00361a396177a9cb410ff61f20015ad".
Proof. vm_compute. reflexivity. Qed.

Example sha256_two_blocks :
  Sha256.hexdigest "abcdbcdecdefdefgefghfghighijhijkijkljklmklmnlmnomnopnopq"
  = "248d6a61d20638b8e5c026930c3e6039a33ce45964ff2167f6ecedd419db06c1".
Proof. vm_compute. reflexivity. Qed.

(** The spec's end-to-end scenario: a 2 MB [report.docx] with the
    suspicious threshold at 1 MB raises the suspicious alert at the create
    event and yields one finalized record. *)
Example report_docx_scenario :
  FileWatcher.run
    [ (Samples.posix_env Samples.usb_files 0 20 2,
       FileWatcher.Created (Samples.file_event Samples.report));
      (Samples.posix_env Samples.usb_files 2 20 2, FileWatcher.Sweep) ]
    Samples.office_hours_handler
  = (Samples.office_hours_handler,
     [ FileWatcher.SuspiciousWarning FileWatcher.created "report.docx" 2097152;
       FileWatcher.SuspiciousWarning FileWatcher.created "report.docx" 2097152;
       FileWatcher.Transfer
         {| Logger.operation := "created"; Logger.device := "D1";
            Logger.file_path := "report.docx"; Logger.file_size := 2097152;
            Logger.file_type := ".docx"; Logger.user := "alice" |} ]).
Proof. vm_compute. reflexivity. Qed.

End Helpers.

(** ** Policy evaluation *)

Section Policy.
Import FileWatcher.

Lemma Qgtb_true_iff (x y : Q) : Qgtb x y = true <-> (y < x)%Q.
Proof.
  unfold Qgtb. rewrite negb_true_iff, <- not_true_iff_false, Qle_bool_iff.
  split; [apply Qnot_le_lt | apply Qlt_not_le].
Qed.

Lemma Qgtb_false_iff (x y : Q) : Qgtb x y = false <-> (x <= y)%Q.
Proof.
  unfold Qgtb. rewrite negb_false_iff. apply Qle_bool_iff.
Qed.

(** Megabytes against a whole threshold, in bytes. *)
Lemma size_mb_gt_iff (size threshold : Z) :
  (inject_Z threshold < inject_Z size / inject_Z (1024 * 1024))%Q
  <-> threshold * 1048576 < size.
Proof.
  unfold Qlt, Qdiv, Qmult, Qinv, inject_Z. simpl. lia.
Qed.

Lemma size_rejected_false_iff (m : Config.MonitoringConfig) (size : Z) :
  size_rejected m size = false
  <-> (Config.min_file_size_bytes m <= 0 \/ Config.min_file_size_bytes m <= size)
      /\ (forall limit, Config.max_file_size_bytes m = Some limit ->
            limit = 0 \/ size <= limit).
Proof.
  unfold size_rejected, exceeds.
  rewrite orb_false_iff, andb_false_iff, Z.ltb_ge, Z.ltb_ge.
  destruct (Config.max_file_size_bytes m) as [limit|].
  - rewrite andb_false_iff, negb_false_iff, Z.eqb_eq, Z.ltb_ge.
    split.
    + intros [Hmin Hmax]. split; [exact Hmin|]. intros l [= <-]. exact Hmax.
    + intros [Hmin Hmax]. split; [exact Hmin|]. apply Hmax. reflexivity.
  - split.
    + intros [Hmin _]. split; [exact Hmin|]. intros l [=].
    + intros [Hmin _]. split; [exact Hmin | reflexivity].
Qed.

(** The time check once both hours parse. *)
Lemma check_time_based_alerts_parsed (env : Env) (self : USBFileEventHandler)
    (start_hour end_hour : Z) :
  let t := Config.time_based_alerts (Config.alerts (config self)) in
  Config.enabled t = true ->
  (5 <=? weekday env) && Config.weekend_alerts t = false ->
  restricted_hour t "start" = Py.Ok start_hour ->
  restricted_hour t "end" = Py.Ok end_hour ->
  _check_time_based_alerts env self
  = Py.Ok (if end_hour <? start_hour
           then (start_hour <=? hour env) || (hour env <? end_hour)
           else (start_hour <=? hour env) && (hour env <? end_hour)).
Proof.
  intros t Hen Hwk Hs He. unfold _check_time_based_alerts.
  fold t. rewrite Hen, Hwk, Hs, He. simpl.
  destruct (end_hour <? start_hour); reflexivity.
Qed.

Lemma restricted_hour_lookup (t : Config.TimeBasedAlertConfig)
    (key text : string) :
  Config.restricted_hours t !! key = Some text ->
  restricted_hour t key = Py.int (Py.split_first ":" text).
Proof.
  intros H. unfold restricted_hour, Py.getitem. rewrite H. reflexivity.
Qed.

End Policy.

Section PolicyClaims.
Import FileWatcher.

(** C4: with the restricted hours start "18:00" and end "07:00", time-based
    alerts enabled and the weekend rule not firing, the restricted-time
    check answers [hour >= 18 or hour < 7]: true at hour 20, true at hour
    3, false at hour 12.  In general, once both hours parse, a start hour
    above the end hour is a window wrapping past midnight
    ([hour >= start or hour < end]); otherwise the window is
    [[start, end)]. *)
Theorem restricted_time_window :
  (forall (env : Env) (self : USBFileEventHandler),
      let t := Config.time_based_alerts (Config.alerts (config self)) in
      Config.enabled t = true ->
      (5 <=? weekday env) && Config.weekend_alerts t = false ->
      Config.restricted_hours t !! "start" = Some "18:00" ->
      Config.restricted_hours t !! "end" = Some "07:00" ->
      _check_time_based_alerts env self
      = Py.Ok ((18 <=? hour env) || (hour env <? 7))
      /\ (hour env = 20 -> _check_time_based_alerts env self = Py.Ok true)
      /\ (hour env = 3 -> _check_time_based_alerts env self = Py.Ok true)
      /\ (hour env = 12 -> _check_time_based_alerts env self = Py.Ok false))
  /\ (forall (env : Env) (self : USBFileEventHandler) (start_hour end_hour : Z),
      let t := Config.time_based_alerts (Config.alerts (config self)) in
      Config.enabled t = true ->
      (5 <=? weekday env) && Config.weekend_alerts t = false ->
      restricted_hour t "start" = Py.Ok start_hour ->
      restricted_hour t "end" = Py.Ok end_hour ->
      (end_hour < start_hour ->
       _check_time_based_alerts env self
       = Py.Ok ((start_hour <=? hour env) || (hour env <? end_hour)))
      /\ (start_hour <= end_hour ->
          _check_time_based_alerts env self
          = Py.Ok ((start_hour <=? hour env) && (hour env <? end_hour)))).
Proof.
  split.
  - intros env self t Hen Hwk Hs He.
    assert (Hgen : _check_time_based_alerts env self
                   = Py.Ok ((18 <=? hour env) || (hour env <? 7))).
    { rewrite (check_time_based_alerts_parsed env self 18 7 Hen Hwk).
      - reflexivity.
      - fold t. rewrite (restricted_hour_lookup t _ _ Hs). reflexivity.
      - fold t. rewrite (restricted_hour_lookup t _ _ He). reflexivity. }
    split; [exact Hgen|].
    split; [|split]; intros Hh; rewrite Hgen, Hh; reflexivity.
  - intros env self s e t Hen Hwk Hs He.
    pose proof (check_time_based_alerts_parsed env self s e Hen Hwk Hs He) as H.
    split; intros Hlt; rewrite H.
    + apply Z.ltb_lt in Hlt. rewrite Hlt. reflexivity.
    + apply Z.ltb_ge in Hlt. rewrite Hlt. reflexivity.
Qed.

(** C5: for a file whose extension is in the suspicious set, the
    classification is true exactly when the size in megabytes exceeds the
    alert threshold, and true when the size cannot be read; the
    eligibility check, on a regular file whose size cannot be read, skips
    the size bounds and decides on the extension alone. *)
Theorem suspicious_fails_closed_eligibility_fails_open :
  forall (env : Env) (self : USBFileEventHandler) (path : string),
    let a := Config.alerts (config self) in
    let m := Config.monitoring (config self) in
    (Py.str_in (extension env path) (Config.suspicious_extensions a) = true ->
     (forall size : Z,
         getsize env path = Py.Ok size ->
         _is_suspicious_file env self path = true
         <-> (inject_Z (Config.alert_threshold_mb a)
              < inject_Z size / inject_Z (1024 * 1024))%Q)
     /\ (forall e : Py.exn,
            getsize env path = Py.Raise e ->
            _is_suspicious_file env self path = true))
    /\ (forall e : Py.exn,
           isfile env path = true ->
           getsize env path = Py.Raise e ->
           _should_monitor_file env self path
           = extension_allowed env m (extension env path)).
Proof.
  intros env self path a m. split.
  - intros Hext. split.
    + intros size Hsize. unfold _is_suspicious_file. fold a.
      rewrite Hext, Hsize. rewrite <- Qgtb_true_iff.
      destruct (Qgtb _ _); split; congruence.
    + intros e Hsize. unfold _is_suspicious_file. fold a.
      rewrite Hext, Hsize. reflexivity.
  - intros e Hfile Hsize. unfold _should_monitor_file.
    rewrite Hfile, Hsize. reflexivity.
Qed.

(** C8: with the include patterns ["*"], every extension outside the
    exclude list passes the extension policy; with the exclude patterns
    [".tmp"], a file whose lower-case extension is ".tmp" is never
    eligible, and a regular file with extension ".txt" whose size is
    within the bounds is eligible. *)
Theorem wildcard_include_excludes_only_listed :
  forall (env : Env) (self : USBFileEventHandler) (path : string),
    let m := Config.monitoring (config self) in
    Config.include_file_extensions m = ["*"] ->
    (forall ext : string,
        extension_allowed env m ext
        = negb (Py.str_in ext (Config.exclude_file_extensions m)))
    /\ (Config.exclude_file_extensions m = [".tmp"] ->
        extension env path = ".tmp" ->
        _should_monitor_file env self path = false)
    /\ (Config.exclude_file_extensions m = [".tmp"] ->
        extension env path = ".txt" ->
        isfile env path = true ->
        (forall size : Z,
            getsize env path = Py.Ok size ->
            (Config.min_file_size_bytes m <= 0
             \/ Config.min_file_size_bytes m <= size)
            /\ (forall limit : Z,
                   Config.max_file_size_bytes m = Some limit ->
                   limit = 0 \/ size <= limit)) ->
        _should_monitor_file env self path = true).
Proof.
  intros env self path m Hinc.
  assert (Hall : forall ext, extension_allowed env m ext
                   = negb (Py.str_in ext (Config.exclude_file_extensions m))).
  { intros ext. unfold extension_allowed. rewrite Hinc. reflexivity. }
  split; [exact Hall|]. split.
  - intros Hexc Hext. unfold _should_monitor_file. fold m.
    rewrite Hall, Hexc, Hext.
    destruct (isfile env path); [|reflexivity]. simpl.
    destruct (getsize env path) as [size|e]; [|reflexivity].
    destruct (size_rejected m size); reflexivity.
  - intros Hexc Hext Hfile Hsize. unfold _should_monitor_file. fold m.
    rewrite Hall, Hexc, Hext, Hfile. simpl.
    destruct (getsize env path) as [size|e]; [|reflexivity].
    assert (Hrej : size_rejected m size = false)
      by (apply size_rejected_false_iff, Hsize; reflexivity).
    rewrite Hrej. reflexivity.
Qed.

(** C9: with [min_file_size_bytes = 1000] and [max_file_size_bytes = None],
    a regular file of 500 bytes is not eligible, and a regular file of
    exactly 1000 bytes is eligible whenever its extension passes the
    extension policy: the lower bound is inclusive. *)
Theorem min_size_bound_is_inclusive :
  forall (env : Env) (self : USBFileEventHandler) (path : string),
    let m := Config.monitoring (config self) in
    Config.min_file_size_bytes m = 1000 ->
    Config.max_file_size_bytes m = None ->
    isfile env path = true ->
    (getsize env path = Py.Ok 500 ->
     _should_monitor_file env self path = false)
    /\ (getsize env path = Py.Ok 1000 ->
        extension_allowed env m (extension env path) = true ->
        _should_monitor_file env self path = true)
    /\ (forall size : Z,
           getsize env path = Py.Ok size ->
           _should_monitor_file env self path
           = (1000 <=? size) && extension_allowed env m (extension env path)).
Proof.
  intros env self path m Hmin Hmax Hfile.
  assert (Hgen : forall size : Z,
             getsize env path = Py.Ok size ->
             _should_monitor_file env self path
             = (1000 <=? size) && extension_allowed env m (extension env path)).
  { intros size Hsize. unfold _should_monitor_file, size_rejected. fold m.
    rewrite Hfile, Hsize, Hmin, Hmax. simpl.
    rewrite orb_false_r, Z.leb_antisym.
    destruct (size <? 1000); reflexivity. }
  split; [|split].
  - intros Hsize. rewrite (Hgen _ Hsize). reflexivity.
  - intros Hsize Hext. rewrite (Hgen _ Hsize), Hext. reflexivity.
  - exact Hgen.
Qed.

End PolicyClaims.

Section PolicyWitnesses.
Import FileWatcher Samples.

Lemma restricted_time_window_witness :
  (_check_time_based_alerts (posix_env usb_files 0 20 2) default_handler = Py.Ok true
   /\ _check_time_based_alerts (posix_env usb_files 0 3 2) default_handler = Py.Ok true
   /\ _check_time_based_alerts (posix_env usb_files 0 12 2) default_handler = Py.Ok false)
  /\ _check_time_based_alerts (posix_env usb_files 0 10 2) office_hours_handler
     = Py.Ok true.
Proof.
  split.
  - pose proof (proj1 restricted_time_window) as Hspec.
    destruct (Hspec (posix_env usb_files 0 20 2) default_handler
                eq_refl eq_refl eq_refl eq_refl) as (_ & H20 & _ & _).
    destruct (Hspec (posix_env usb_files 0 3 2) default_handler
                eq_refl eq_refl eq_refl eq_refl) as (_ & _ & H3 & _).
    destruct (Hspec (posix_env usb_files 0 12 2) default_handler
                eq_refl eq_refl eq_refl eq_refl) as (_ & _ & _ & H12).
    split; [|split]; [apply H20 | apply H3 | apply H12]; reflexivity.
  - destruct (proj2 restricted_time_window
                (posix_env usb_files 0 10 2) office_hours_handler 9 17
                eq_refl eq_refl eq_refl eq_refl) as [_ Hday].
    rewrite Hday; [reflexivity | lia].
Defined.

Lemma suspicious_fails_closed_eligibility_fails_open_witness :
  _is_suspicious_file (posix_env usb_files 0 12 2) office_hours_handler
    "/mnt/usb/report.docx" = true
  /\ _is_suspicious_file (racy_env usb_files 0 12 2) office_hours_handler
       "/mnt/usb/report.docx" = true
  /\ _should_monitor_file (posix_env usb_files 0 12 2)
       (handler_with (monitoring_with ["*"] [".tmp"] 5000000 None))
       "/mnt/usb/report.docx" = false
  /\ _should_monitor_file (racy_env usb_files 0 12 2)
       (handler_with (monitoring_with ["*"] [".tmp"] 5000000 None))
       "/mnt/usb/report.docx" = true.
Proof.
  split; [|split; [|split]].
  - destruct (suspicious_fails_closed_eligibility_fails_open
                (posix_env usb_files 0 12 2) office_hours_handler
                "/mnt/usb/report.docx") as [Hsusp _].
    destruct (Hsusp eq_refl) as [Hsize _].
    apply (Hsize 2097152 eq_refl). reflexivity.
  - destruct (suspicious_fails_closed_eligibility_fails_open
                (racy_env usb_files 0 12 2) office_hours_handler
                "/mnt/usb/report.docx") as [Hsusp _].
    destruct (Hsusp eq_refl) as [_ Hraise].
    apply (Hraise Py.FileNotFoundError eq_refl).
  - reflexivity.
  - destruct (suspicious_fails_closed_eligibility_fails_open
                (racy_env usb_files 0 12 2)
                (handler_with (monitoring_with ["*"] [".tmp"] 5000000 None))
                "/mnt/usb/report.docx") as [_ Hopen].
    rewrite (Hopen Py.FileNotFoundError eq_refl eq_refl). reflexivity.
Defined.

Lemma wildcard_include_excludes_only_listed_witness :
  _should_monitor_file (posix_env usb_files 0 12 2)
    (handler_with (monitoring_with ["*"] [".tmp"] 0 None)) "/mnt/usb/a.tmp" = false
  /\ _should_monitor_file (posix_env usb_files 0 12 2)
       (handler_with (monitoring_with ["*"] [".tmp"] 0 None)) "/mnt/usb/a.txt" = true.
Proof.
  split.
  - destruct (wildcard_include_excludes_only_listed
                (posix_env usb_files 0 12 2)
                (handler_with (monitoring_with ["*"] [".tmp"] 0 None))
                "/mnt/usb/a.tmp" eq_refl) as (_ & Htmp & _).
    apply Htmp; reflexivity.
  - destruct (wildcard_include_excludes_only_listed
                (posix_env usb_files 0 12 2)
                (handler_with (monitoring_with ["*"] [".tmp"] 0 None))
                "/mnt/usb/a.txt" eq_refl) as (_ & _ & Htxt).
    apply Htxt; try reflexivity.
    intros size Hsize. split.
    + left. simpl. lia.
    + intros limit Hlimit. discriminate Hlimit.
Defined.

Lemma min_size_bound_is_inclusive_witness :
  _should_monitor_file (posix_env usb_files 0 12 2)
    (handler_with (monitoring_with ["*"] [".tmp"] 1000 None))
    "/mnt/usb/small.txt" = false
  /\ _should_monitor_file (posix_env usb_files 0 12 2)
       (handler_with (monitoring_with ["*"] [".tmp"] 1000 None))
       "/mnt/usb/a.txt" = true.
Proof.
  split.
  - destruct (min_size_bound_is_inclusive
                (posix_env usb_files 0 12 2)
                (handler_with (monitoring_with ["*"] [".tmp"] 1000 None))
                "/mnt/usb/small.txt" eq_refl eq_refl eq_refl) as (H500 & _ & _).
    apply H500. reflexivity.
  - destruct (min_size_bound_is_inclusive
                (posix_env usb_files 0 12 2)
                (handler_with (monitoring_with ["*"] [".tmp"] 1000 None))
                "/mnt/usb/a.txt" eq_refl eq_refl eq_refl) as (_ & H1000 & _).
    apply H1000; reflexivity.
Defined.

End PolicyWitnesses.

(** ** Device registry *)

Section Registry.
Import UsbMonitor.

Implicit Types (m : gmap string USBDevice) (ids : gset string)
  (l : list string) (ds : list USBDevice).

Lemma remove_loop_lookup ids l : forall m acc (k : string),
  (foldl (remove_step ids) (m, acc) l).1 !! k
  = if bool_decide (k ∈ l /\ k ∉ ids) then None else m !! k.
Proof.
  induction l as [|x l IH]; intros m acc k.
  - rewrite bool_decide_eq_false_2; [reflexivity|].
    intros [Hin _]. inversion Hin.
  - cbn [foldl]. unfold remove_step at 2. cbn [fst snd].
    destruct (decide (x ∉ ids)) as [Hx|Hx].
    + destruct (m !! x) as [d|] eqn:Hmx; rewrite IH.
      * destruct (decide (k = x)) as [->|Hne].
        -- rewrite lookup_delete_eq.
           rewrite (bool_decide_eq_true_2 (x ∈ x :: l /\ x ∉ ids)).
           ++ destruct (bool_decide _); reflexivity.
           ++ split; [left | exact Hx].
        -- rewrite lookup_delete_ne by congruence.
           apply (f_equal (fun b : bool => if b then None else m !! k)).
           apply bool_decide_ext. rewrite elem_of_cons. tauto.
      * destruct (decide (k = x)) as [->|Hne].
        -- rewrite Hmx. destruct (bool_decide _), (bool_decide _); reflexivity.
        -- apply (f_equal (fun b : bool => if b then None else m !! k)).
           apply bool_decide_ext. rewrite elem_of_cons. tauto.
    + rewrite IH.
      apply (f_equal (fun b : bool => if b then None else m !! k)).
      apply bool_decide_ext. rewrite elem_of_cons.
      split; [tauto|]. intros [[->|Hin] Hk]; [contradiction | tauto].
Qed.

Lemma remove_loop_removed ids l : forall m acc (x : USBDevice),
  x ∈ (foldl (remove_step ids) (m, acc) l).2 ->
  x ∈ acc \/ (exists k : string, (k ∉ ids) /\ m !! k = Some x).
Proof.
  induction l as [|y l IH]; intros m acc x; simpl.
  - intros H. left. exact H.
  - unfold remove_step at 2. simpl.
    destruct (decide (y ∉ ids)) as [Hy|Hy]; [|apply IH].
    destruct (m !! y) as [d|] eqn:Hmy; [|apply IH].
    intros H. apply IH in H as [H|(k & Hk & Hlook)].
    + apply elem_of_app in H as [H|H]; [left; exact H|].
      apply list_elem_of_singleton in H as ->. right. exists y. done.
    + right. exists k. split; [exact Hk|].
      apply lookup_delete_Some in Hlook. tauto.
Qed.

Lemma remove_loop_idle ids l : forall m acc,
  (forall k : string, k ∈ l -> is_Some (m !! k) -> k ∈ ids) ->
  foldl (remove_step ids) (m, acc) l = (m, acc).
Proof.
  induction l as [|x l IH]; intros m acc Hkeys; simpl; [reflexivity|].
  assert (Hstep : remove_step ids (m, acc) x = (m, acc)).
  { unfold remove_step. simpl.
    destruct (decide (x ∉ ids)) as [Hx|Hx]; [|reflexivity].
    destruct (m !! x) as [d|] eqn:Hmx; [|reflexivity].
    exfalso. apply Hx, Hkeys; [left | rewrite Hmx; eauto]. }
  rewrite Hstep. apply IH. intros k Hk. apply Hkeys. right. exact Hk.
Qed.

Lemma add_loop_keeps ds : forall m acc (k : string) (d : USBDevice),
  m !! k = Some d ->
  (foldl add_step (m, acc) ds).1 !! k = Some d.
Proof.
  induction ds as [|x ds IH]; intros m acc k d Hk; simpl; [exact Hk|].
  unfold add_step at 2. simpl.
  destruct (decide (m !! device_id x = None)) as [Hx|Hx]; [|apply IH, Hk].
  apply IH. rewrite lookup_insert_ne; [exact Hk | congruence].
Qed.

Lemma add_loop_covers ds : forall m acc (x : USBDevice),
  x ∈ ds -> is_Some ((foldl add_step (m, acc) ds).1 !! device_id x).
Proof.
  induction ds as [|y ds IH]; intros m acc x Hx; simpl; [inversion Hx|].
  apply elem_of_cons in Hx as [->|Hx];
    [|destruct (add_step (m, acc) y) as [m' acc']; apply IH, Hx].
  unfold add_step at 2. simpl.
  destruct (decide (m !! device_id y = None)) as [Hy|Hy].
  - erewrite add_loop_keeps; [eauto | apply lookup_insert_eq].
  - destruct (m !! device_id y) as [d|] eqn:Hmy; [|contradiction].
    erewrite add_loop_keeps; eauto.
Qed.

Lemma add_loop_keys ds : forall m acc (k : string),
  is_Some ((foldl add_step (m, acc) ds).1 !! k) ->
  is_Some (m !! k) \/ k ∈ device_id <$> ds.
Proof.
  induction ds as [|y ds IH]; intros m acc k; simpl; [tauto|].
  unfold add_step at 2. simpl.
  destruct (decide (m !! device_id y = None)) as [Hy|Hy].
  - intros H. apply IH in H as [H|H].
    + destruct (decide (k = device_id y)) as [->|Hne].
      * right. left.
      * left. rewrite lookup_insert_ne in H; [exact H | congruence].
    + right. right. exact H.
  - intros H. apply IH in H as [H|H]; [left | right; right]; exact H.
Qed.

Lemma add_loop_added ds : forall m acc (x : USBDevice),
  x ∈ (foldl add_step (m, acc) ds).2 ->
  x ∈ acc \/ m !! device_id x = None.
Proof.
  induction ds as [|y ds IH]; intros m acc x; simpl; [tauto|].
  unfold add_step at 2. simpl.
  destruct (decide (m !! device_id y = None)) as [Hy|Hy]; [|apply IH].
  intros H. apply IH in H as [H|H].
  - apply elem_of_app in H as [H|H]; [left; exact H|].
    apply list_elem_of_singleton in H as ->. right. exact Hy.
  - right. destruct (decide (device_id x = device_id y)) as [Heq|Hne].
    + rewrite Heq. exact Hy.
    + rewrite lookup_insert_ne in H; [exact H | congruence].
Qed.

Lemma add_loop_idle ds : forall m acc,
  (forall x : USBDevice, x ∈ ds -> is_Some (m !! device_id x)) ->
  foldl add_step (m, acc) ds = (m, acc).
Proof.
  induction ds as [|y ds IH]; intros m acc Hall; simpl; [reflexivity|].
  assert (Hstep : add_step (m, acc) y = (m, acc)).
  { unfold add_step. simpl.
    destruct (decide (m !! device_id y = None)) as [Hy|Hy]; [|reflexivity].
    destruct (Hall y) as [d Hd]; [left | congruence]. }
  rewrite Hstep. apply IH. intros x Hx. apply Hall. right. exact Hx.
Qed.

Lemma keys_of_map m (k : string) :
  k ∈ (map_to_list m).*1 <-> is_Some (m !! k).
Proof.
  rewrite list_elem_of_fmap. split.
  - intros [[k' d] [-> Hin]]. apply elem_of_map_to_list in Hin.
    simpl. rewrite Hin. eauto.
  - intros [d Hd]. exists (k, d). split; [reflexivity|].
    apply elem_of_map_to_list. exact Hd.
Qed.

(** After one round the registry holds exactly the detected ids. *)
Lemma poll_keys ds m (k : string) :
  is_Some (connected_devices (poll ds m) !! k) <-> k ∈ device_id <$> ds.
Proof.
  unfold poll. simpl.
  destruct (foldl (remove_step _) (m, []) _) as [m1 removed1] eqn:Hrem.
  simpl. split.
  - intros H. apply add_loop_keys in H as [H|H]; [|exact H].
    pose proof (remove_loop_lookup (list_to_set (device_id <$> ds))
                  (map_to_list m).*1 m [] k) as Hlook.
    rewrite Hrem in Hlook. simpl in Hlook. rewrite Hlook in H.
    destruct (decide (k ∈ device_id <$> ds)) as [Hin|Hnot]; [exact Hin|].
    case_bool_decide as Hb; [destruct H as [? [=]]|].
    exfalso. apply Hb. split; [apply keys_of_map, H|].
    rewrite elem_of_list_to_set. exact Hnot.
  - intros H. apply list_elem_of_fmap in H as [x [-> Hx]].
    apply add_loop_covers, Hx.
Qed.

End Registry.

Section RegistryClaims.
Import UsbMonitor.

(** C6: a second polling round on the same detected devices reports no
    removed and no added device and leaves the registry as it is; and in
    any round a device id that is both connected and detected keeps its
    entry: every removed device was stored under another id, and no added
    device carries that id. *)
Theorem poll_twice_reports_nothing :
  forall (detected : list USBDevice) (connected : gmap string USBDevice),
    let first := poll detected connected in
    let second := poll detected (connected_devices first) in
    (removed second = [] /\ added second = []
     /\ connected_devices second = connected_devices first)
    /\ (forall (id : string) (d : USBDevice),
           connected !! id = Some d ->
           id ∈ device_id <$> detected ->
           connected_devices first !! id = Some d
           /\ (forall x : USBDevice,
                  x ∈ removed first ->
                  exists k : string, k <> id /\ connected !! k = Some x)
           /\ (forall x : USBDevice, x ∈ added first -> device_id x <> id)).
Proof.
  intros detected connected first second. split.
  - assert (Hrem : foldl (remove_step (list_to_set (device_id <$> detected)))
                     (connected_devices first, [])
                     (map_to_list (connected_devices first)).*1
                   = (connected_devices first, [])).
    { apply remove_loop_idle. intros k _ Hk.
      apply elem_of_list_to_set. apply (poll_keys detected connected k), Hk. }
    assert (Hadd : foldl add_step (connected_devices first, []) detected
                   = (connected_devices first, [])).
    { apply add_loop_idle. intros x Hx.
      apply (poll_keys detected connected (device_id x)).
      apply list_elem_of_fmap. exists x. split; [reflexivity | exact Hx]. }
    subst second. unfold poll at 1 2 3. cbn [removed added connected_devices].
    rewrite Hrem. cbn [fst snd]. rewrite Hadd. cbn [fst snd]. done.
  - intros id d Hid Hdet.
    assert (Hids : id ∈ (list_to_set (device_id <$> detected) : gset string))
      by (apply elem_of_list_to_set, Hdet).
    subst first. unfold poll. cbn [removed added connected_devices].
    destruct (foldl (remove_step _) (connected, []) _) as [m1 removed1] eqn:Hrem.
    cbn [fst snd].
    pose proof (remove_loop_lookup (list_to_set (device_id <$> detected))
                  (map_to_list connected).*1 connected [] id) as Hlook.
    rewrite Hrem in Hlook. cbn [fst] in Hlook.
    rewrite bool_decide_eq_false_2 in Hlook by tauto.
    rewrite Hid in Hlook.
    split; [|split].
    + destruct (foldl add_step (m1, []) detected) as [m2 added2] eqn:Hadd.
      pose proof (add_loop_keeps detected m1 [] id d Hlook) as Hkeep.
      rewrite Hadd in Hkeep. exact Hkeep.
    + intros x Hx.
      pose proof (remove_loop_removed (list_to_set (device_id <$> detected))
                    (map_to_list connected).*1 connected [] x) as Hpop.
      rewrite Hrem in Hpop. destruct (Hpop Hx) as [Hnil|(k & Hk & Hkx)].
      * inversion Hnil.
      * exists k. split; [|exact Hkx]. intros ->. contradiction.
    + intros x Hx Heq.
      apply add_loop_added in Hx as [Hnil|Hnone]; [inversion Hnil|].
      rewrite Heq, Hlook in Hnone. discriminate.
Qed.

End RegistryClaims.

Section RegistryWitness.
Import UsbMonitor Samples.

Lemma poll_twice_reports_nothing_witness :
  let first := poll [device_D1_remounted; device_D3] registry_D1_D2 in
  let second := poll [device_D1_remounted; device_D3] (connected_devices first) in
  (removed first = [device_D2] /\ added first = [device_D3])
  /\ (removed second = [] /\ added second = [])
  /\ connected_devices first !! "SER-0001" = Some device_D1.
Proof.
  intros first second.
  destruct (poll_twice_reports_nothing
              [device_D1_remounted; device_D3] registry_D1_D2)
    as [(Hrem & Hadd & _) Hkeep].
  split; [|split].
  - split; vm_compute; reflexivity.
  - split; [exact Hrem | exact Hadd].
  - apply (Hkeep "SER-0001" device_D1).
    + vm_compute. reflexivity.
    + apply list_elem_of_fmap. exists device_D1_remounted.
      split; [reflexivity | left].
Defined.

End RegistryWitness.

(** ** The digest of a log file *)

Section Digest.
Import Sha256.

Lemma wrap_bound (x : Z) : 0 <= wrap x < 2 ^ 32.
Proof. unfold wrap. apply Z.mod_pos_bound. reflexivity. Qed.

Lemma compress_bounded (s : state) (block : list Z) : bounded (compress s block).
Proof.
  unfold compress.
  destruct (List.fold_left round _ s) as [a b c d e f g h].
  unfold bounded, add32. cbn [h0 h1 h2 h3 h4 h5 h6 h7].
  do 7 (split; [apply wrap_bound|]). apply wrap_bound.
Qed.

Lemma fold_left_invariant {A B : Type} (P : A -> Prop) (f : A -> B -> A) :
  (forall a b, P (f a b)) ->
  forall (l : list B) (a : A), P a -> P (List.fold_left f l a).
Proof.
  intros Hf l. induction l as [|b l IH]; intros a Ha; [exact Ha|].
  apply IH, Hf.
Qed.

Lemma initial_bounded : bounded initial.
Proof.
  unfold bounded, initial. cbn [h0 h1 h2 h3 h4 h5 h6 h7].
  repeat split; try (vm_compute; congruence).
Qed.

Lemma digest_bounded (msg : string) : bounded (digest msg).
Proof.
  unfold digest.
  apply (fold_left_invariant bounded compress compress_bounded).
  exact initial_bounded.
Qed.

Lemma shift_bound (a b x : Z) :
  0 <= a < x -> 0 <= b < 2 ^ 32 -> 0 <= a * 2 ^ 32 + b < x * 2 ^ 32.
Proof. generalize (2 ^ 32). intros B Ha Hb. nia. Qed.

Lemma pack_bound (s : state) : bounded s -> 0 <= pack s < 2 ^ 256.
Proof.
  intros (H0 & H1 & H2 & H3 & H4 & H5 & H6 & H7). unfold pack.
  replace (2 ^ 256) with (2 ^ 32 * 2 ^ 32 * 2 ^ 32 * 2 ^ 32
                          * 2 ^ 32 * 2 ^ 32 * 2 ^ 32 * 2 ^ 32) by reflexivity.
  repeat (apply shift_bound; [|assumption]). exact H0.
Qed.

Lemma shift_inj (a b a' b' : Z) :
  0 <= b < 2 ^ 32 -> 0 <= b' < 2 ^ 32 ->
  a * 2 ^ 32 + b = a' * 2 ^ 32 + b' -> a = a' /\ b = b'.
Proof.
  generalize (2 ^ 32). intros B Hb Hb' Heq.
  assert (Ha : a = a').
  { apply (f_equal (fun x => x / B)) in Heq.
    rewrite !Z.div_add_l, !Z.div_small in Heq by lia. lia. }
  subst a'. split; [reflexivity | lia].
Qed.

Lemma pack_inj (s s' : state) :
  bounded s -> bounded s' -> pack s = pack s' -> s = s'.
Proof.
  destruct s as [a0 a1 a2 a3 a4 a5 a6 a7], s' as [b0 b1 b2 b3 b4 b5 b6 b7].
  unfold bounded, pack. cbn [h0 h1 h2 h3 h4 h5 h6 h7].
  intros (_ & A1 & A2 & A3 & A4 & A5 & A6 & A7)
         (_ & B1 & B2 & B3 & B4 & B5 & B6 & B7) H.
  apply shift_inj in H as [H ->]; [|assumption..].
  apply shift_inj in H as [H ->]; [|assumption..].
  apply shift_inj in H as [H ->]; [|assumption..].
  apply shift_inj in H as [H ->]; [|assumption..].
  apply shift_inj in H as [H ->]; [|assumption..].
  apply shift_inj in H as [H ->]; [|assumption..].
  apply shift_inj in H as [-> ->]; [|assumption..].
  reflexivity.
Qed.

(** Among any [M + 1] values below [M] two are equal. *)
Lemma collision_below (f : nat -> Z) (M : Z) :
  (forall i : nat, 0 <= f i < M) ->
  exists i j : nat, (i < j)%nat /\ f i = f j.
Proof.
  intros Hf.
  destruct (nat_pigeonhole (fun i => Z.to_nat (f i)) (S (Z.to_nat M)) (Z.to_nat M))
    as (i & j & Hij & Heq).
  - lia.
  - intros i _. specialize (Hf i). lia.
  - exists i, j. split; [lia|].
    pose proof (Hf i). pose proof (Hf j). lia.
Qed.

Lemma filler_length (n : nat) : String.length (filler n) = n.
Proof. induction n as [|n IH]; [reflexivity | cbn; rewrite IH; reflexivity]. Qed.

(** SHA-256 is not injective: some two contents of different length
    share a digest. *)
Lemma sha256_collision :
  exists c c' : string, c <> c' /\ hexdigest c = hexdigest c'.
Proof.
  destruct (collision_below (fun n => pack (digest (filler n))) (2 ^ 256))
    as (i & j & Hij & Heq).
  - intros n. apply pack_bound, digest_bounded.
  - exists (filler i), (filler j). split.
    + intros Hc. apply (f_equal String.length) in Hc.
      rewrite !filler_length in Hc. lia.
    + apply pack_inj in Heq; [|apply digest_bounded..].
      unfold hexdigest. rewrite Heq. reflexivity.
Qed.

Lemma all_chars_app (p : ascii -> bool) (s t : string) :
  Py.all_chars p (s ++ t) = Py.all_chars p s && Py.all_chars p t.
Proof.
  induction s as [|c s IH]; [reflexivity|].
  change (p c && Py.all_chars p (s ++ t)
          = p c && Py.all_chars p s && Py.all_chars p t).
  rewrite IH, andb_assoc. reflexivity.
Qed.

Lemma rstrip_no_space (s : string) :
  Py.all_chars Py.not_space s = true -> Py.rstrip s = s.
Proof.
  induction s as [|c s IH]; [reflexivity|].
  cbn [Py.all_chars Py.rstrip]. intros [Hc Hs]%andb_true_iff.
  rewrite (IH Hs). unfold Py.not_space in Hc. apply negb_true_iff in Hc.
  rewrite Hc. destruct s; reflexivity.
Qed.

Lemma strip_no_space (s : string) :
  Py.all_chars Py.not_space s = true -> Py.strip s = s.
Proof.
  intros Hs. unfold Py.strip.
  assert (Hl : Py.lstrip s = s).
  { destruct s as [|c s]; [reflexivity|].
    cbn [Py.all_chars] in Hs. apply andb_true_iff in Hs as [Hc _].
    unfold Py.not_space in Hc. apply negb_true_iff in Hc.
    cbn [Py.lstrip]. rewrite Hc. reflexivity. }
  rewrite Hl. apply rstrip_no_space, Hs.
Qed.

Lemma hex_digit_not_space (n : Z) : Py.not_space (hex_digit n) = true.
Proof.
  destruct n as [|p|p]; try reflexivity.
  do 4 (destruct p as [p|p|]; try reflexivity).
Qed.

Lemma hex_word_not_space (w : Z) : Py.all_chars Py.not_space (hex_word w) = true.
Proof.
  unfold hex_word. cbn [List.map string_of_list_ascii Py.all_chars].
  rewrite !hex_digit_not_space. reflexivity.
Qed.

Lemma hexdigest_not_space (msg : string) :
  Py.all_chars Py.not_space (hexdigest msg) = true.
Proof.
  unfold hexdigest. destruct (digest msg) as [a b c d e f g h].
  rewrite !all_chars_app, !hex_word_not_space. reflexivity.
Qed.

Lemma strip_hexdigest (msg : string) : Py.strip (hexdigest msg) = hexdigest msg.
Proof. apply strip_no_space, hexdigest_not_space. Qed.

Lemma hexdigest_truthy (msg : string) : Logger.truthy (Some (hexdigest msg)) = true.
Proof.
  unfold hexdigest. destruct (digest msg) as [a b c d e f g h].
  reflexivity.
Qed.

End Digest.

(** ** The transfer log *)

Section LogIntegrity.
Import Logger.

Lemma string_length_app (s t : string) :
  String.length (s ++ t) = (String.length s + String.length t)%nat.
Proof.
  induction s as [|c s IH]; [reflexivity|].
  change (S (String.length (s ++ t)) = S (String.length s + String.length t)).
  rewrite IH. reflexivity.
Qed.

Lemma hash_name_ne (base : string) : base ++ ".hash" <> base.
Proof.
  intros H. apply (f_equal String.length) in H.
  rewrite string_length_app in H. cbn in H. lia.
Qed.

(** [_save_hash] leaves the log alone and records its digest. *)
Lemma save_hash_records (h : SecureFileHandler) (fs : gmap string string)
    (content : string) :
  hash_file h = baseFilename h ++ ".hash" ->
  fs !! baseFilename h = Some content ->
  let '(h', fs') := _save_hash h fs in
  baseFilename h' = baseFilename h
  /\ hash_file h' = hash_file h
  /\ fs' !! baseFilename h = Some content
  /\ fs' !! hash_file h = Some (Sha256.hexdigest content).
Proof.
  intros Hname Hlog. unfold _save_hash, _compute_file_hash.
  rewrite Hlog, hexdigest_truthy. cbn [set_current_hash baseFilename hash_file].
  split; [reflexivity|]. split; [reflexivity|]. split.
  - rewrite lookup_insert_ne; [exact Hlog|].
    rewrite Hname. apply hash_name_ne.
  - apply lookup_insert_eq.
Qed.

Lemma open_append_exists (name : string) (fs : gmap string string) :
  is_Some (open_append name fs !! name).
Proof.
  unfold open_append. destruct (fs !! name) as [c|] eqn:H.
  - rewrite H. eauto.
  - rewrite lookup_insert_eq. eauto.
Qed.

(** After an append, with or without a rollover, the persisted digest is
    the digest of the log. *)
Lemma emit_records (h : SecureFileHandler) (rollover : bool) (line : string)
    (fs : gmap string string) :
  attached h fs ->
  let '(h', fs') := emit h rollover line fs in
  baseFilename h' = baseFilename h
  /\ attached h' fs'
  /\ exists content : string,
       fs' !! baseFilename h = Some content
       /\ fs' !! (baseFilename h ++ ".hash") = Some (Sha256.hexdigest content).
Proof.
  intros [Hname Hlog]. unfold emit.
  assert (Hpre : exists h1 fs1,
             (if rollover then doRollover h fs else (h, fs)) = (h1, fs1)
             /\ baseFilename h1 = baseFilename h
             /\ hash_file h1 = hash_file h
             /\ is_Some (fs1 !! baseFilename h)).
  { destruct rollover.
    - unfold doRollover.
      destruct (open_append_exists (baseFilename h)
                  (if 0 <? backupCount h
                   then rename (baseFilename h) (backup_name (baseFilename h) 1)
                          (List.fold_left
                             (fun fs i => rename (backup_name (baseFilename h) i)
                                            (backup_name (baseFilename h) (S i)) fs)
                             (List.rev (List.seq 1 (Z.to_nat (backupCount h) - 1))) fs)
                   else fs)) as [c Hc].
      pose proof (save_hash_records h (rotating_doRollover h fs) c Hname Hc) as Hs.
      destruct (_save_hash h (rotating_doRollover h fs)) as [h1 fs1].
      destruct Hs as (Hb & Hh & Hl & _).
      exists h1, fs1. rewrite Hl. eauto.
    - exists h, fs. eauto. }
  destruct Hpre as (h1 & fs1 & -> & Hb1 & Hh1 & [c Hc]).
  assert (Hw : stream_write h1 line fs1 !! baseFilename h1
               = Some (c ++ line ++ Py.newline)).
  { unfold stream_write. rewrite Hb1, Hc. apply lookup_insert_eq. }
  assert (Hname1 : hash_file h1 = baseFilename h1 ++ ".hash") by congruence.
  pose proof (save_hash_records h1 (stream_write h1 line fs1) _ Hname1 Hw) as Hs.
  destruct (_save_hash h1 (stream_write h1 line fs1)) as [h' fs'].
  destruct Hs as (Hb & Hh & Hl & Hd).
  split; [congruence|]. split.
  - split; [congruence|]. rewrite Hb, Hl. eauto.
  - exists (c ++ line ++ Py.newline). split; [congruence|].
    rewrite <- Hb1, <- Hname1. exact Hd.
Qed.

Lemma log_file_transfers_records (rs : list (string * TransferRecord)) :
  forall (h : SecureFileHandler) (fs : gmap string string),
    attached h fs ->
    rs <> [] ->
    let '(h', fs') := log_file_transfers h rs fs in
    exists content : string,
      fs' !! baseFilename h = Some content
      /\ fs' !! (baseFilename h ++ ".hash") = Some (Sha256.hexdigest content).
Proof.
  induction rs as [|[asctime r] rs IH]; intros h fs Hatt Hne; [contradiction|].
  cbn [log_file_transfers]. unfold log_file_transfer.
  pose proof (emit_records h (shouldRollover h (format_transfer asctime r) fs)
                (format_transfer asctime r) fs Hatt) as He.
  destruct (emit h _ _ fs) as [h1 fs1]. destruct He as (Hb & Hatt1 & Hc).
  destruct rs as [|r' rs'].
  - cbn [log_file_transfers]. exact Hc.
  - specialize (IH h1 fs1 Hatt1 ltac:(discriminate)).
    destruct (log_file_transfers h1 (r' :: rs') fs1) as [h' fs'].
    rewrite <- Hb. exact IH.
Qed.

(** What verification answers once a digest of [saved] is on file. *)
Lemma verify_against_digest (log_file saved current : string)
    (fs : gmap string string) :
  fs !! (log_file ++ ".hash") = Some (Sha256.hexdigest saved) ->
  fs !! log_file = Some current ->
  verify_log_integrity log_file fs
  = if String.eqb (Sha256.hexdigest saved) (Sha256.hexdigest current)
    then Py.Ok (true, msg_verified)
    else Py.Ok (false, msg_mismatch).
Proof.
  intros Hh Hc. unfold verify_log_integrity.
  rewrite Hh, Hc, strip_hexdigest.
  destruct (String.eqb _ _); reflexivity.
Qed.

End LogIntegrity.

Section LogIntegrityClaims.
Import Logger.

(** C7, as stated, fails in two ways.  With no record appended yet, a fresh
    log has no digest on file and verification reports the digest as
    missing.  And a matching digest does not mean unchanged content: two
    different contents share a SHA-256 digest, so the equivalence between
    "verification succeeds" and "the content is the one last digested"
    cannot hold for every content. *)
Lemma verified_does_not_mean_unchanged :
  verify_log_integrity Samples.transfers_csv Samples.fresh_log.2
  = Py.Ok (false, msg_missing)
  /\ ~ (forall (log_file saved current : string) (fs : gmap string string),
           fs !! (log_file ++ ".hash") = Some (Sha256.hexdigest saved) ->
           fs !! log_file = Some current ->
           verify_log_integrity log_file fs = Py.Ok (true, msg_verified)
           <-> current = saved).
Proof.
  split; [vm_compute; reflexivity|].
  intros Hclaim.
  destruct sha256_collision as (c & c' & Hne & Hcol).
  pose (fs := <["log" := c']> (<["log.hash" := Sha256.hexdigest c]> ∅)
              : gmap string string).
  assert (Hh : fs !! ("log" ++ ".hash") = Some (Sha256.hexdigest c)).
  { unfold fs. rewrite lookup_insert_ne by discriminate. apply lookup_insert_eq. }
  assert (Hc : fs !! "log" = Some c') by apply lookup_insert_eq.
  apply Hne. symmetry. apply (Hclaim "log" c c' fs Hh Hc).
  rewrite (verify_against_digest "log" c c' fs Hh Hc), Hcol, String.eqb_refl.
  reflexivity.
Qed.

(** C7, amended: after appending one or more records, each append
    persisting the digest, verification reports success; and after an
    out-of-band change of the log file that leaves the digest file alone,
    verification reports success exactly when the SHA-256 digest of the
    new content equals the digest of the content at the last append, and
    a mismatch otherwise.  Unchanged content therefore always verifies. *)
Theorem log_digest_tracks_last_append :
  forall (h : SecureFileHandler) (fs : gmap string string)
         (rs : list (string * TransferRecord)),
    attached h fs ->
    rs <> [] ->
    let log_file := baseFilename h in
    let fs' := (log_file_transfers h rs fs).2 in
    exists content : string,
      fs' !! log_file = Some content
      /\ verify_log_integrity log_file fs' = Py.Ok (true, msg_verified)
      /\ verify_log_integrity log_file (tamper log_file content fs')
         = Py.Ok (true, msg_verified)
      /\ forall changed : string,
           (verify_log_integrity log_file (tamper log_file changed fs')
            = Py.Ok (true, msg_verified)
            <-> Sha256.hexdigest changed = Sha256.hexdigest content)
           /\ (Sha256.hexdigest changed <> Sha256.hexdigest content ->
               verify_log_integrity log_file (tamper log_file changed fs')
               = Py.Ok (false, msg_mismatch)).
Proof.
  intros h fs rs Hatt Hne log_file fs'.
  pose proof (log_file_transfers_records rs h fs Hatt Hne) as H.
  subst fs'. destruct (log_file_transfers h rs fs) as [h' fs'].
  destruct H as (content & Hc & Hh). cbn [snd]. fold log_file in Hc, Hh.
  assert (Htamper : forall changed : string,
             verify_log_integrity log_file (tamper log_file changed fs')
             = if String.eqb (Sha256.hexdigest content) (Sha256.hexdigest changed)
               then Py.Ok (true, msg_verified)
               else Py.Ok (false, msg_mismatch)).
  { intros changed. apply verify_against_digest.
    - unfold tamper. rewrite lookup_insert_ne; [exact Hh|].
      intros Heq. symmetry in Heq. exact (hash_name_ne _ Heq).
    - apply lookup_insert_eq. }
  exists content. split; [exact Hc|]. split; [|split].
  - rewrite (verify_against_digest log_file content content fs' Hh Hc).
    rewrite String.eqb_refl. reflexivity.
  - rewrite Htamper, String.eqb_refl. reflexivity.
  - intros changed. rewrite Htamper.
    destruct (String.eqb_spec (Sha256.hexdigest content) (Sha256.hexdigest changed))
      as [Heq|Hneq].
    + split; [|congruence]. split; [intros _; congruence | reflexivity].
    + split; [|reflexivity]. split; [discriminate | congruence].
Qed.

Lemma log_digest_tracks_last_append_witness :
  let fs' := (log_file_transfers Samples.fresh_log.1 Samples.two_records
                Samples.fresh_log.2).2 in
  fs' !! Samples.transfers_csv = Some Samples.two_records_log
  /\ verify_log_integrity Samples.transfers_csv fs' = Py.Ok (true, msg_verified)
  /\ verify_log_integrity Samples.transfers_csv
       (tamper Samples.transfers_csv
               (drop_last_byte Samples.two_records_log) fs')
     = Py.Ok (false, msg_mismatch).
Proof.
  intros fs'.
  assert (Hatt : attached Samples.fresh_log.1 Samples.fresh_log.2).
  { split; [reflexivity|]. vm_compute. eauto. }
  assert (Hne : Samples.two_records <> []) by discriminate.
  destruct (log_digest_tracks_last_append
              Samples.fresh_log.1 Samples.fresh_log.2 Samples.two_records
              Hatt Hne) as (content & Hc & Hok & _ & Hchanged).
  change (baseFilename Samples.fresh_log.1) with Samples.transfers_csv
    in Hc, Hok, Hchanged.
  fold fs' in Hc, Hok, Hchanged.
  assert (Hlog : fs' !! Samples.transfers_csv = Some Samples.two_records_log)
    by (vm_compute; reflexivity).
  assert (Hcontent : content = Samples.two_records_log) by congruence.
  subst content.
  split; [exact Hlog|]. split; [exact Hok|].
  apply (Hchanged (drop_last_byte Samples.two_records_log)).
  vm_compute. discriminate.
Defined.

End LogIntegrityClaims.

(** ** The event handler *)

Section Handler.
Import FileWatcher.

Lemma transfers_app (a b : list LogLine) :
  transfers (a ++ b) = (transfers a ++ transfers b)%list.
Proof.
  induction a as [|x a IH]; [reflexivity|].
  destruct x; cbn [app transfers]; rewrite IH; reflexivity.
Qed.

(** The lines of [_log_file_operation], case by case. *)
Lemma log_file_operation_lines (env : Env) (self : USBFileEventHandler)
    (operation : Operation) (path : string) (final : bool) :
  let a := Config.alerts (config self) in
  _log_file_operation env self operation path final
  = match relpath env path (UsbMonitor.mount_point (device self)) with
    | Py.Raise e => [LoggingError e]
    | Py.Ok relative_path =>
        match (if path_exists env path then getsize env path else Py.Ok 0) with
        | Py.Raise e => [LoggingError e]
        | Py.Ok file_size =>
            let size_mb := (inject_Z file_size / inject_Z (1024 * 1024))%Q in
            ((if Config.large_transfer_alert a
                 && Qgtb size_mb (inject_Z (Config.large_transfer_threshold_mb a))
              then [LargeTransferWarning operation relative_path size_mb]
              else [])
             ++ (if _is_suspicious_file env self path
                 then [SuspiciousWarning operation relative_path file_size]
                 else [])
             ++ match _check_time_based_alerts env self with
                | Py.Raise e => [LoggingError e]
                | Py.Ok restricted =>
                    (if restricted
                     then [AfterHoursWarning operation relative_path file_size]
                     else [])
                    ++ (if final
                        then [Transfer (transfer_record env self operation path
                                          relative_path file_size)]
                        else [])
                end)%list
        end
    end.
Proof.
  intros a. unfold _log_file_operation. fold a.
  destruct (relpath env path _) as [relative_path|e]; [|reflexivity].
  destruct (if path_exists env path then getsize env path else Py.Ok 0)
    as [file_size|e]; [|reflexivity].
  cbv beta iota zeta delta [mbind Logging_bind and_then lift].
  destruct (Config.large_transfer_alert a), (Qgtb _ _),
    (_is_suspicious_file env self path),
    (_check_time_based_alerts env self) as [[|]|e], final; reflexivity.
Qed.

(** A call that is not final writes no record. *)
Lemma log_not_final_no_transfer (env : Env) (self : USBFileEventHandler)
    (operation : Operation) (path : string) :
  transfers (_log_file_operation env self operation path false) = [].
Proof.
  rewrite log_file_operation_lines. cbv zeta.
  destruct (relpath env path _) as [rel|e]; [|reflexivity].
  destruct (if path_exists env path then _ else _) as [size|e]; [|reflexivity].
  rewrite !transfers_app.
  destruct (_ && _), (_is_suspicious_file env self path),
    (_check_time_based_alerts env self) as [[|]|e]; reflexivity.
Qed.

(** A final call writes the record whenever nothing raises. *)
Lemma log_final_transfer (env : Env) (self : USBFileEventHandler)
    (operation : Operation) (path rel : string) (size : Z) (restricted : bool) :
  relpath env path (UsbMonitor.mount_point (device self)) = Py.Ok rel ->
  (if path_exists env path then getsize env path else Py.Ok 0) = Py.Ok size ->
  _check_time_based_alerts env self = Py.Ok restricted ->
  transfers (_log_file_operation env self operation path true)
  = [transfer_record env self operation path rel size].
Proof.
  intros Hrel Hsize Hcheck. rewrite log_file_operation_lines. cbv zeta.
  rewrite Hrel, Hsize, Hcheck, !transfers_app.
  destruct (_ && _), (_is_suspicious_file env self path), restricted;
    reflexivity.
Qed.

(** Whatever a final call writes is the record of that operation, with
    the size [os.path] reported, or 0 for a path that does not exist. *)
Lemma log_final_transfer_inv (env : Env) (self : USBFileEventHandler)
    (operation : Operation) (path : string) (r : Logger.TransferRecord) :
  In r (transfers (_log_file_operation env self operation path true)) ->
  exists (rel : string) (size : Z),
    relpath env path (UsbMonitor.mount_point (device self)) = Py.Ok rel
    /\ (if path_exists env path then getsize env path else Py.Ok 0) = Py.Ok size
    /\ r = transfer_record env self operation path rel size.
Proof.
  rewrite log_file_operation_lines. cbv zeta.
  destruct (relpath env path _) as [rel|e]; [|intros []].
  destruct (if path_exists env path then _ else _) as [size|e]; [|intros []].
  rewrite !transfers_app. intros Hin. exists rel, size.
  split; [reflexivity|]. split; [reflexivity|].
  destruct (_ && _), (_is_suspicious_file env self path),
    (_check_time_based_alerts env self) as [[|]|e];
    cbn in Hin; intuition congruence.
Qed.

End Handler.

Section Reconciler.
Import FileWatcher.

Implicit Types (self : USBFileEventHandler) (env : Env)
  (m : gmap string (Operation * Q)).

Lemma transfers_concat (ls : list (list LogLine)) (r : Logger.TransferRecord) :
  In r (transfers (List.concat ls)) <-> exists l, In l ls /\ In r (transfers l).
Proof.
  induction ls as [|l ls IH]; cbn [List.concat].
  - split; [intros [] | intros (l & [] & _)].
  - rewrite transfers_app, in_app_iff, IH. split.
    + intros [H|(l' & Hl' & H)]; [exists l | exists l']; cbn; auto.
    + intros (l' & [<-|Hl'] & H); [left | right; exists l']; auto.
Qed.

Lemma sweep_step_eq self (now : Q) (acc : list (string * Operation)) m
    (p : string) (op : Operation) (t0 : Q) :
  sweep_step self now (acc, m) (p, (op, t0))
  = if Qgtb (now - t0) (op_completion_time self)
    then ((acc ++ [(p, op)])%list, delete p m)
    else (acc, m).
Proof. reflexivity. Qed.




Lemma run_app (turns later : list (Env * Turn)) self :
  run (turns ++ later) self
  = ((run later (run turns self).1).1,
     ((run turns self).2 ++ (run later (run turns self).1).2)%list).
Proof.
  revert self. induction turns as [|[env t] turns IH]; intros self.
  - cbn [app run fst snd]. destruct (run later self); reflexivity.
  - cbn [app run]. destruct (turn env t self) as [self1 lines1].
    rewrite IH. destruct (run turns self1) as [self2 lines2]. cbn [fst snd].
    rewrite app_assoc. reflexivity.
Qed.

End Reconciler.

Section ReconcilerClaims.
Import FileWatcher.

(** C1, as stated, fails for a path the eligibility check rejects and for
    a path that is gone when the finalizer reaches it.  With the default
    policy (which excludes ".tmp"), a create and a modify of
    [/mnt/usb/a.tmp] within the threshold, followed by a finalizer round
    after the quiet period, produce no finalized record.  And the same two
    events on the eligible [/mnt/usb/a.txt] produce none either when the
    file is no longer there at that round (the device was pulled and no
    event followed). *)
Lemma burst_without_record :
  let burst_on (path : string) (at_sweep : gmap string Z) :=
    [ (Samples.posix_env Samples.usb_files 0 12 2,
       Created (Samples.file_event path));
      (Samples.posix_env Samples.usb_files (3 # 10) 12 2,
       Modified (Samples.file_event path));
      (Samples.posix_env at_sweep 2 12 2, Sweep) ] in
  (_should_monitor_file (Samples.posix_env Samples.usb_files 0 12 2)
     Samples.default_handler "/mnt/usb/a.tmp" = false
   /\ last_event_kind (burst_on "/mnt/usb/a.tmp" Samples.usb_files) = Some modified
   /\ transfers (run (burst_on "/mnt/usb/a.tmp" Samples.usb_files)
                     Samples.default_handler).2 = [])
  /\ (_should_monitor_file (Samples.posix_env Samples.usb_files 0 12 2)
        Samples.default_handler "/mnt/usb/a.txt" = true
      /\ path_exists (Samples.posix_env ∅ 2 12 2) "/mnt/usb/a.txt" = false
      /\ transfers (run (burst_on "/mnt/usb/a.txt" ∅)
                        Samples.default_handler).2 = []).
Proof. vm_compute. repeat split. Qed.

End ReconcilerClaims.

Section EventClaims.
Import FileWatcher.


(** C3, as stated, fails: a move event that carries a destination still
    has its source evaluated, recorded and logged when the destination is
    not eligible.  Here [a.txt] is renamed to the excluded [a.tmp] and a
    new [a.txt] exists by the time the callback runs: the entry is stored
    under the source path. *)
Lemma move_source_used_despite_destination :
  let env := Samples.posix_env Samples.usb_files 0 12 2 in
  let event := Samples.move_event "/mnt/usb/a.txt" "/mnt/usb/a.tmp" in
  dest_path event = Some "/mnt/usb/a.tmp"
  /\ _should_monitor_file env Samples.default_handler "/mnt/usb/a.tmp" = false
  /\ _in_progress (on_moved env event Samples.default_handler).1 !! "/mnt/usb/a.txt"
     = Some (moved, 0%Q)
  /\ _in_progress (on_moved env event Samples.default_handler).1 !! "/mnt/usb/a.tmp"
     = None.
Proof. vm_compute. repeat split. Qed.

(** C3, amended: for a move event on a file, a destination path, when
    present, is evaluated first and, when eligible, it alone is recorded
    and logged under kind "moved"; the source path is evaluated when no
    destination is present or when the destination is not eligible, and is
    then recorded and logged under kind "moved" when it is eligible;
    otherwise nothing is recorded. *)
Theorem move_prefers_destination :
  forall (env : Env) (self : USBFileEventHandler) (event : FileSystemEvent),
    is_directory event = false ->
    let on_source :=
      if _should_monitor_file env self (src_path event)
      then record_and_log env self moved (src_path event)
      else (self, []) in
    (forall dest : string,
        dest_path event = Some dest ->
        (_should_monitor_file env self dest = true ->
         on_moved env event self = record_and_log env self moved dest)
        /\ (_should_monitor_file env self dest = false ->
            on_moved env event self = on_source))
    /\ (dest_path event = None -> on_moved env event self = on_source)
    /\ (forall path : string,
           _in_progress (record_and_log env self moved path).1
           = <[path := (moved, time env)]> (_in_progress self)
           /\ (record_and_log env self moved path).2
              = _log_file_operation env self moved path false).
Proof.
  intros env self event Hdir on_source. unfold on_moved. rewrite Hdir.
  cbn [negb]. split; [|split].
  - intros dest ->. split; intros ->; reflexivity.
  - intros ->. reflexivity.
  - intros path. split; reflexivity.
Qed.


End EventClaims.

Section EventWitnesses.
Import FileWatcher Samples.


Lemma move_prefers_destination_witness :
  _in_progress
    (on_moved (posix_env usb_files 0 12 2)
       (move_event "/mnt/usb/old.txt" "/mnt/usb/a.txt") default_handler).1
  = {["/mnt/usb/a.txt" := (moved, 0%Q)]}
  /\ _in_progress
       (on_moved (posix_env usb_files 0 12 2)
          (file_event "/mnt/usb/a.txt") default_handler).1
     = {["/mnt/usb/a.txt" := (moved, 0%Q)]}.
Proof.
  split.
  - destruct (move_prefers_destination (posix_env usb_files 0 12 2)
                default_handler (move_event "/mnt/usb/old.txt" "/mnt/usb/a.txt")
                eq_refl) as (Hdest & _ & Hrecord).
    destruct (Hdest "/mnt/usb/a.txt" eq_refl) as [Heligible _].
    rewrite (Heligible eq_refl).
    destruct (Hrecord "/mnt/usb/a.txt") as [Htable _].
    rewrite Htable. apply insert_empty.
  - destruct (move_prefers_destination (posix_env usb_files 0 12 2)
                default_handler (file_event "/mnt/usb/a.txt") eq_refl)
      as (_ & Hsource & Hrecord).
    rewrite (Hsource eq_refl).
    change (_should_monitor_file (posix_env usb_files 0 12 2) default_handler
              (src_path (file_event "/mnt/usb/a.txt"))) with true.
    cbv iota.
    destruct (Hrecord "/mnt/usb/a.txt") as [Htable _].
    cbn [src_path file_event]. rewrite Htable. apply insert_empty.
Defined.


End EventWitnesses.

(** ** The registry: reads, deltas, start-up *)

#[local] Set Warnings "-clear-no-such-hyp".

Section RegistryMore.
Import UsbMonitor Registry.

Implicit Types (m : gmap string USBDevice) (ids : gset string)
  (l : list string) (ds : list USBDevice).

Lemma remove_loop_acc ids l : forall m acc (x : USBDevice),
  x ∈ acc -> x ∈ (foldl (remove_step ids) (m, acc) l).2.
Proof.
  induction l as [|k l IH]; intros m acc x Hx; [exact Hx|].
  cbn [foldl]. unfold remove_step at 2. cbn [fst snd].
  destruct (decide (k ∉ ids)); [|apply IH, Hx].
  destruct (m !! k); [|apply IH, Hx].
  apply IH, elem_of_app. left. exact Hx.
Qed.

(** An entry under an undetected key is popped when its key comes up. *)
Lemma remove_loop_pops ids l : forall m acc (k : string) (x : USBDevice),
  k ∈ l -> k ∉ ids -> m !! k = Some x ->
  x ∈ (foldl (remove_step ids) (m, acc) l).2.
Proof.
  induction l as [|y l IH]; intros m acc k x Hk Hout Hx; [inversion Hk|].
  cbn [foldl]. unfold remove_step at 2. cbn [fst snd].
  destruct (decide (y = k)) as [->|Hne].
  - rewrite decide_True by exact Hout. rewrite Hx.
    apply remove_loop_acc, elem_of_app. right. left.
  - apply elem_of_cons in Hk as [->|Hk]; [contradiction|].
    destruct (decide (y ∉ ids)); [|eapply IH; eauto].
    destruct (m !! y); [|eapply IH; eauto].
    eapply IH; eauto. rewrite lookup_delete_ne by exact Hne. exact Hx.
Qed.

Lemma add_loop_detected ds : forall m acc (x : USBDevice),
  x ∈ (foldl add_step (m, acc) ds).2 -> x ∈ acc \/ x ∈ ds.
Proof.
  induction ds as [|y ds IH]; intros m acc x; cbn [foldl]; [tauto|].
  unfold add_step at 2. cbn [fst snd].
  destruct (decide (m !! device_id y = None)).
  - intros H. apply IH in H as [H|H]; [|right; right; exact H].
    apply elem_of_app in H as [H|H]; [left; exact H|].
    apply list_elem_of_singleton in H as ->. right. left.
  - intros H. apply IH in H as [H|H]; [left | right; right]; exact H.
Qed.

Lemma add_loop_acc ds : forall m acc (x : USBDevice),
  x ∈ acc -> x ∈ (foldl add_step (m, acc) ds).2.
Proof.
  induction ds as [|z ds IH]; intros m acc x Hx; [exact Hx|].
  cbn [foldl]. unfold add_step at 2. cbn [fst snd].
  destruct (decide (m !! device_id z = None)); [|apply IH, Hx].
  apply IH, elem_of_app. left. exact Hx.
Qed.

(** A detected id that has no entry yet is announced. *)
Lemma add_loop_announces ds : forall m acc (id : string),
  id ∈ device_id <$> ds -> m !! id = None ->
  id ∈ device_id <$> (foldl add_step (m, acc) ds).2.
Proof.
  induction ds as [|y ds IH]; intros m acc id Hid Hnone; [inversion Hid|].
  cbn [foldl]. unfold add_step at 2. cbn [fst snd].
  destruct (decide (device_id y = id)) as [Heq|Hne].
  - subst id. rewrite decide_True by exact Hnone.
    apply list_elem_of_fmap. exists y. split; [reflexivity|].
    apply add_loop_acc, elem_of_app. right. left.
  - cbn [fmap list_fmap] in Hid.
    apply elem_of_cons in Hid as [->|Hid]; [congruence|].
    destruct (decide (m !! device_id y = None)); [|apply IH; assumption].
    apply IH; [exact Hid|]. rewrite lookup_insert_ne by exact Hne. exact Hnone.
Qed.

(** No id is announced twice, and every announced id has an entry. *)
Lemma add_loop_once ds : forall m (acc : list USBDevice),
  NoDup (device_id <$> acc) ->
  (forall x : USBDevice, x ∈ acc -> is_Some (m !! device_id x)) ->
  NoDup (device_id <$> (foldl add_step (m, acc) ds).2).
Proof.
  induction ds as [|y ds IH]; intros m acc Hnd Hin; [exact Hnd|].
  cbn [foldl]. unfold add_step at 2. cbn [fst snd].
  destruct (decide (m !! device_id y = None)) as [Hy|Hy]; [|apply IH; assumption].
  apply IH.
  - rewrite fmap_app. apply NoDup_app. split; [exact Hnd|]. split.
    + intros id Hid Hid'. cbn in Hid'. apply list_elem_of_singleton in Hid' as ->.
      apply list_elem_of_fmap in Hid as (x & Heq & Hx).
      destruct (Hin x Hx) as [d Hd]. rewrite <- Heq, Hy in Hd. discriminate.
    + cbn. apply NoDup_singleton.
  - intros x Hx. apply elem_of_app in Hx as [Hx|Hx].
    + destruct (Hin x Hx) as [d Hd].
      destruct (decide (device_id y = device_id x)) as [Heq|Hne].
      * rewrite Heq, lookup_insert_eq. eauto.
      * rewrite lookup_insert_ne by exact Hne. eauto.
    + apply list_elem_of_singleton in Hx as ->. rewrite lookup_insert_eq. eauto.
Qed.

(** X1: after a polling round, [is_device_connected] answers exactly
    whether the id was detected in that round, whatever was connected
    before. *)
Theorem connected_after_poll :
  forall (ds : list USBDevice) (m : gmap string USBDevice) (id : string),
    is_device_connected id (connected_devices (poll ds m))
    = bool_decide (id ∈ device_id <$> ds).
Proof.
  intros ds m id. unfold is_device_connected.
  apply bool_decide_ext, poll_keys.
Qed.

(** X2: the deltas of a polling round are exact.  A device is reported
    removed exactly when it was stored under an id that is not detected;
    the devices reported added are detected devices whose id had no
    entry, every detected id without an entry is reported, and no id is
    reported twice even when the detection lists it twice. *)
Theorem poll_deltas_exact :
  forall (ds : list USBDevice) (m : gmap string USBDevice),
    (forall x : USBDevice,
        x ∈ removed (poll ds m)
        <-> exists k : string, (k ∉ device_id <$> ds) /\ m !! k = Some x)
    /\ (forall x : USBDevice,
           x ∈ added (poll ds m) -> x ∈ ds /\ m !! device_id x = None)
    /\ (forall id : string,
           id ∈ device_id <$> ds -> m !! id = None ->
           id ∈ device_id <$> added (poll ds m))
    /\ NoDup (device_id <$> added (poll ds m)).
Proof.
  intros ds m. unfold poll. cbn [removed added].
  set (ids := list_to_set (device_id <$> ds) : gset string).
  assert (Hids : forall k : string, k ∈ ids <-> k ∈ device_id <$> ds)
    by (intros k; apply elem_of_list_to_set).
  destruct (foldl (remove_step ids) (m, []) (map_to_list m).*1)
    as [m1 removed1] eqn:Hrem. cbn [fst snd].
  assert (Hm1 : forall k : string,
             m1 !! k = if bool_decide (k ∈ (map_to_list m).*1 /\ k ∉ ids)
                       then None else m !! k).
  { intros k. pose proof (remove_loop_lookup ids (map_to_list m).*1 m [] k) as H.
    rewrite Hrem in H. exact H. }
  split; [|split; [|split]].
  - intros x. split.
    + intros Hx.
      pose proof (remove_loop_removed ids (map_to_list m).*1 m [] x) as H.
      rewrite Hrem in H. destruct (H Hx) as [Hnil|(k & Hk & Hkx)]; [inversion Hnil|].
      exists k. split; [|exact Hkx]. rewrite <- Hids. exact Hk.
    + intros (k & Hk & Hkx).
      pose proof (remove_loop_pops ids (map_to_list m).*1 m [] k x) as H.
      rewrite Hrem in H. apply H; [|rewrite Hids; exact Hk | exact Hkx].
      apply keys_of_map. rewrite Hkx. eauto.
  - intros x Hx. split.
    + apply add_loop_detected in Hx as [Hnil|Hx]; [inversion Hnil | exact Hx].
    + pose proof Hx as Hdet.
      apply add_loop_detected in Hdet as [Hnil|Hdet]; [inversion Hnil|].
      apply add_loop_added in Hx as [Hnil|Hnone]; [inversion Hnil|].
      rewrite Hm1 in Hnone. case_bool_decide as Hb; [|exact Hnone].
      destruct Hb as [_ Hout]. exfalso. apply Hout, Hids.
      apply list_elem_of_fmap. exists x. split; [reflexivity | exact Hdet].
  - intros id Hid Hnone. apply add_loop_announces; [exact Hid|].
    rewrite Hm1. case_bool_decide; [reflexivity | exact Hnone].
  - apply add_loop_once; [constructor|]. intros x Hx. inversion Hx.
Qed.

End RegistryMore.

Section RegistryInvariants.
Import UsbMonitor Registry.

Implicit Types (m : gmap string USBDevice) (ds : list USBDevice).

Lemma add_loop_origin ds : forall m acc (k : string) (x : USBDevice),
  (foldl add_step (m, acc) ds).1 !! k = Some x ->
  m !! k = Some x \/ (x ∈ ds /\ device_id x = k).
Proof.
  induction ds as [|y ds IH]; intros m acc k x; cbn [foldl]; [tauto|].
  unfold add_step at 2. cbn [fst snd].
  destruct (decide (m !! device_id y = None)).
  - intros H. apply IH in H as [H|[H1 H2]]; [|right; split; [right|]; assumption].
    apply lookup_insert_Some in H as [[<- <-]|[_ H]]; [|left; exact H].
    right. split; [left | reflexivity].
  - intros H. apply IH in H as [H|[H1 H2]]; [left; exact H|].
    right. split; [right|]; assumption.
Qed.

Lemma poll_origin ds m (k : string) (x : USBDevice) :
  connected_devices (poll ds m) !! k = Some x ->
  m !! k = Some x \/ (x ∈ ds /\ device_id x = k).
Proof.
  unfold poll. cbn [connected_devices].
  destruct (foldl (remove_step _) (m, []) _) as [m1 removed1] eqn:Hrem.
  cbn [fst]. intros H. apply add_loop_origin in H as [H|H]; [|right; exact H].
  left.
  pose proof (remove_loop_lookup (list_to_set (device_id <$> ds))
                (map_to_list m).*1 m [] k) as Hlook.
  rewrite Hrem in Hlook. cbn [fst] in Hlook. rewrite Hlook in H.
  case_bool_decide; [discriminate | exact H].
Qed.

Lemma initial_devices_lookup ds : forall m (k : string) (x : USBDevice),
  initial_devices ds m !! k = Some x ->
  m !! k = Some x \/ (x ∈ ds /\ device_id x = k).
Proof.
  unfold initial_devices.
  induction ds as [|y ds IH]; intros m k x; cbn [foldl]; [tauto|].
  intros H. apply IH in H as [H|[H1 H2]]; [|right; split; [right|]; assumption].
  apply lookup_insert_Some in H as [[<- <-]|[_ H]]; [|left; exact H].
  right. split; [left | reflexivity].
Qed.

Lemma initial_devices_keeps ds : forall m (k : string),
  is_Some (m !! k) -> is_Some (initial_devices ds m !! k).
Proof.
  unfold initial_devices.
  induction ds as [|y ds IH]; intros m k Hk; cbn [foldl]; [exact Hk|].
  apply IH. destruct (decide (device_id y = k)) as [<-|Hne].
  - rewrite lookup_insert_eq. eauto.
  - rewrite lookup_insert_ne by exact Hne. exact Hk.
Qed.

Lemma initial_devices_covers ds : forall m (x : USBDevice),
  x ∈ ds -> is_Some (initial_devices ds m !! device_id x).
Proof.
  induction ds as [|y ds IH]; intros m x Hx; [inversion Hx|].
  apply elem_of_cons in Hx as [->|Hx].
  - change (initial_devices (y :: ds) m)
      with (initial_devices ds (<[device_id y := y]> m)).
    apply initial_devices_keeps. rewrite lookup_insert_eq. eauto.
  - change (initial_devices (y :: ds) m)
      with (initial_devices ds (<[device_id y := y]> m)).
    apply IH, Hx.
Qed.

(** X3: every way the monitor changes the registry keeps each device
    stored under its own id: the start-up load, a polling round, and a
    udev event. *)
Theorem registry_wf_preserved :
  forall (m : gmap string USBDevice),
    registry_wf m ->
    (forall ds : list USBDevice, registry_wf (initial_devices ds m))
    /\ (forall ds : list USBDevice, registry_wf (connected_devices (poll ds m)))
    /\ (forall (d : UdevDevice) (mounts : Py.result (list string)),
           registry_wf (connected_devices (linux_event d mounts m))).
Proof.
  intros m Hwf. split; [|split].
  - intros ds k x H. apply initial_devices_lookup in H as [H|[_ H]];
      [apply Hwf, H | exact H].
  - intros ds k x H. apply poll_origin in H as [H|[_ H]];
      [apply Hwf, H | exact H].
  - intros d mounts k x. unfold linux_event.
    destruct (String.eqb (action d) "add" && is_usb d).
    + destruct mounts as [lines|e]; [|apply Hwf].
      destruct (find_mount_point lines (device_node d)) as [[|c mount]|];
        try apply Hwf.
      cbn [connected_devices]. intros H.
      apply lookup_insert_Some in H as [[<- <-]|[_ H]]; [reflexivity|].
      apply Hwf, H.
    + destruct (String.eqb (action d) "remove" && is_usb d); [|apply Hwf].
      destruct (m !! default (device_node d) (properties d !! "ID_SERIAL"));
        [|apply Hwf].
      cbn [connected_devices]. intros H.
      apply lookup_delete_Some in H as [_ H]. apply Hwf, H.
Qed.

(** X4: the devices present at start-up are registered silently and are
    never announced: a polling round on the same detection after the
    start-up load reports no added device, and no removed device either
    when nothing else was registered. *)
Theorem startup_devices_not_announced :
  forall (ds : list USBDevice) (m : gmap string USBDevice),
    added (poll ds (initial_devices ds m)) = []
    /\ ((forall k : string, is_Some (m !! k) -> k ∈ device_id <$> ds) ->
        removed (poll ds (initial_devices ds m)) = []
        /\ connected_devices (poll ds (initial_devices ds m))
           = initial_devices ds m).
Proof.
  intros ds m. set (m0 := initial_devices ds m).
  set (ids := list_to_set (device_id <$> ds) : gset string).
  assert (Hcov : forall x : USBDevice, x ∈ ds -> is_Some (m0 !! device_id x))
    by (intros x Hx; apply initial_devices_covers, Hx).
  split.
  - unfold poll. cbn [added].
    destruct (foldl (remove_step _) (m0, []) _) as [m1 removed1] eqn:Hrem.
    cbn [fst].
    rewrite add_loop_idle; [reflexivity|]. intros x Hx.
    pose proof (remove_loop_lookup ids (map_to_list m0).*1 m0 [] (device_id x))
      as Hlook.
    fold ids in Hrem. rewrite Hrem in Hlook. cbn [fst] in Hlook. rewrite Hlook.
    rewrite bool_decide_eq_false_2; [apply Hcov, Hx|].
    intros [_ Hout]. apply Hout, elem_of_list_to_set, list_elem_of_fmap.
    exists x. split; [reflexivity | exact Hx].
  - intros Hkeys. unfold poll. cbn [removed connected_devices]. fold ids.
    rewrite remove_loop_idle.
    + cbn [fst snd]. rewrite add_loop_idle by exact Hcov. split; reflexivity.
    + intros k _ [x Hx]. apply elem_of_list_to_set.
      apply initial_devices_lookup in Hx as [Hx|[Hx <-]].
      * apply Hkeys. rewrite Hx. eauto.
      * apply list_elem_of_fmap. exists x. split; [reflexivity | exact Hx].
Qed.

(** X5: [get_device_by_mount_point] answers with a connected device
    mounted at the path, and answers [None] exactly when no connected
    device is mounted there. *)
Theorem device_by_mount_point_sound :
  forall (path : string) (m : gmap string USBDevice),
    (forall d : USBDevice,
        get_device_by_mount_point path m = Some d ->
        mount_point d = path /\ exists k : string, m !! k = Some d)
    /\ (get_device_by_mount_point path m = None
        <-> forall (k : string) (d : USBDevice),
              m !! k = Some d -> mount_point d <> path).
Proof.
  intros path m. unfold get_device_by_mount_point, get_connected_devices.
  split.
  - intros d H. apply List.find_some in H as [Hin Heq].
    apply String.eqb_eq in Heq. split; [exact Heq|].
    apply list_elem_of_In, list_elem_of_fmap in Hin as ([k d'] & -> & Hin).
    exists k. apply elem_of_map_to_list, Hin.
  - split.
    + intros Hnone k d Hk Hmount.
      assert (Hin : In d (map_to_list m).*2).
      { apply list_elem_of_In, list_elem_of_fmap. exists (k, d).
        split; [reflexivity|]. apply elem_of_map_to_list, Hk. }
      pose proof (List.find_none _ _ Hnone d Hin) as Hneq. cbn in Hneq.
      apply String.eqb_neq in Hneq. contradiction.
    + intros Hall.
      destruct (List.find _ _) as [d|] eqn:Hfind; [|reflexivity].
      apply List.find_some in Hfind as [Hin Heq].
      apply String.eqb_eq in Heq.
      apply list_elem_of_In, list_elem_of_fmap in Hin as ([k d'] & -> & Hin).
      apply elem_of_map_to_list in Hin. exfalso. exact (Hall k d' Hin Heq).
Qed.

End RegistryInvariants.

(** ** The Linux monitor *)

Section LinuxMonitor.
Import UsbMonitor Registry.





(** X7: a hot-plug "add" of a mounted USB partition always announces the
    device and stores it, replacing an entry already held under that id
    (a polling round would keep the entry and stay silent); a "remove" of
    an id that is not connected changes and announces nothing; and
    "add" followed by "remove" of the same partition, on a registry that
    did not hold its id, gives the registry back and announces the device
    added as removed. *)
Theorem linux_add_remove_round_trip :
  forall (props : gmap string string) (node : string) (parent : bool)
         (lines : list string) (c : ascii) (mount : string)
         (mounts_later : Py.result (list string))
         (m : gmap string USBDevice),
    let plug (act : string) :=
      {| action := act; properties := props; device_node := node;
         usb_parent := parent |} in
    let device := linux_usb_device (plug "add") (String c mount) in
    is_usb (plug "add") = true ->
    find_mount_point lines node = Some (String c mount) ->
    let after_add := linux_event (plug "add") (Py.Ok lines) m in
    (added after_add = [device]
     /\ removed after_add = []
     /\ connected_devices after_add !! device_id device = Some device)
    /\ (m !! device_id device = None ->
        linux_event (plug "remove") mounts_later m
        = {| connected_devices := m; removed := []; added := [] |}
        /\ linux_event (plug "remove") mounts_later (connected_devices after_add)
           = {| connected_devices := m; removed := [device]; added := [] |}).
Proof.
  intros props node parent lines c mount mounts_later m plug device
         Husb Hfind after_add.
  assert (Husb' : is_usb (plug "remove") = true) by exact Husb.
  assert (Hadd : after_add
                 = {| connected_devices := <[device_id device := device]> m;
                      removed := []; added := [device] |}).
  { subst after_add device. unfold linux_event. rewrite Husb.
    subst plug. cbn [action device_node].
    change (String.eqb "add" "add") with true. cbn [andb].
    rewrite Hfind. reflexivity. }
  split.
  - rewrite Hadd. cbn [added removed connected_devices].
    split; [reflexivity|]. split; [reflexivity|]. apply lookup_insert_eq.
  - intros Hnone.
    assert (Hid : default node (props !! "ID_SERIAL") = device_id device)
      by reflexivity.
    unfold linux_event. rewrite Husb'. rewrite Hadd.
    subst plug. cbn [action device_node properties connected_devices].
    change (String.eqb "remove" "add") with false.
    change (String.eqb "remove" "remove") with true.
    cbn [andb]. rewrite Hid, Hnone, lookup_insert_eq.
    rewrite delete_insert_eq, delete_id by exact Hnone.
    split; reflexivity.
Qed.

(** X8: the event loop ends at the first poll that returns nothing (one
    second without an event) or that finds the stop event set: whatever
    udev reports after that is never processed. *)
Theorem linux_monitor_ends_at_idle_poll :
  forall (before after : list Poll) (idle : Poll)
         (m : gmap string USBDevice),
    polled idle = None \/ stop_set idle = true ->
    _monitor_linux_devices (before ++ idle :: after) m
    = _monitor_linux_devices before m.
Proof.
  intros before after idle. induction before as [|p before IH]; intros m Hidle.
  - cbn [app _monitor_linux_devices].
    destruct (polled idle) as [d|]; [|reflexivity].
    destruct Hidle as [[=] | Hstop]. rewrite Hstop. reflexivity.
  - cbn [app _monitor_linux_devices].
    destruct (polled p) as [d|]; [|reflexivity].
    destruct (stop_set p); [reflexivity|].
    rewrite IH by exact Hidle. reflexivity.
Qed.

End LinuxMonitor.

(** ** The watcher and the registry *)

Section WatcherSync.
Import UsbMonitor Registry Watcher.

Implicit Types (w : FileWatcher) (m : gmap string USBDevice)
  (ds l : list USBDevice).

Lemma removed_fold_dom l : forall w,
  let w' := foldl (fun w device => (_handle_device_removed device w).1) w l in
  dom (handlers w') = dom (handlers w) ∖ list_to_set (device_id <$> l)
  /\ dom (observers w') = dom (observers w) ∖ list_to_set (device_id <$> l)
  /\ config w' = config w.
Proof.
  induction l as [|d l IH]; intros w; cbn [foldl].
  - cbn. split; [set_solver|]. split; [set_solver | reflexivity].
  - destruct (IH (_handle_device_removed d w).1) as (Hh & Ho & Hc).
    cbn zeta in *. rewrite Hh, Ho, Hc.
    cbn [_handle_device_removed fst handlers observers config fmap list_fmap].
    rewrite !dom_delete_L. cbn [list_to_set].
    split; [set_solver|]. split; [set_solver | reflexivity].
Qed.

Lemma added_fold_dom (user : string) (start : string -> Py.result unit) l :
  (forall d : USBDevice, d ∈ l -> start (mount_point d) = Py.Ok tt) ->
  forall w,
    let w' :=
      foldl (fun w device => (_handle_device_added user start device w).1) w l in
    dom (handlers w') = dom (handlers w) ∪ list_to_set (device_id <$> l)
    /\ dom (observers w') = dom (observers w) ∪ list_to_set (device_id <$> l)
    /\ config w' = config w.
Proof.
  induction l as [|d l IH]; intros Hstart w; cbn [foldl].
  - cbn. split; [set_solver|]. split; [set_solver | reflexivity].
  - destruct (IH (fun x Hx => Hstart x (list_elem_of_further _ _ _ Hx))
                (_handle_device_added user start d w).1) as (Hh & Ho & Hc).
    cbn zeta in *. rewrite Hh, Ho, Hc.
    unfold _handle_device_added. rewrite (Hstart d) by left.
    cbn [fst handlers observers config fmap list_fmap list_to_set].
    rewrite !dom_insert_L.
    split; [set_solver|]. split; [set_solver | reflexivity].
Qed.

(** The ids a polling round reports, on a well-formed registry. *)
Lemma poll_delta_ids ds m (k : string) :
  registry_wf m ->
  (k ∈ device_id <$> removed (poll ds m)
   <-> is_Some (m !! k) /\ k ∉ device_id <$> ds)
  /\ (k ∈ device_id <$> added (poll ds m)
      <-> k ∈ device_id <$> ds /\ m !! k = None).
Proof.
  intros Hwf. unfold poll. cbn [removed added].
  set (ids := list_to_set (device_id <$> ds) : gset string).
  assert (Hids : forall k : string, k ∈ ids <-> k ∈ device_id <$> ds)
    by (intros k'; apply elem_of_list_to_set).
  destruct (foldl (remove_step ids) (m, []) (map_to_list m).*1)
    as [m1 removed1] eqn:Hrem. cbn [fst snd].
  assert (Hm1 : forall k : string,
             m1 !! k = if bool_decide (k ∈ (map_to_list m).*1 /\ k ∉ ids)
                       then None else m !! k).
  { intros k'.
    pose proof (remove_loop_lookup ids (map_to_list m).*1 m [] k') as H.
    rewrite Hrem in H. exact H. }
  split; split.
  - intros Hk. apply list_elem_of_fmap in Hk as (x & -> & Hx).
    pose proof (remove_loop_removed ids (map_to_list m).*1 m [] x) as H.
    rewrite Hrem in H. destruct (H Hx) as [Hnil|(k' & Hk' & Hkx)];
      [inversion Hnil|].
    rewrite (Hwf _ _ Hkx). split; [rewrite Hkx; eauto|].
    rewrite <- Hids. exact Hk'.
  - intros [[x Hx] Hout]. apply list_elem_of_fmap. exists x.
    split; [symmetry; apply (Hwf _ _ Hx)|].
    pose proof (remove_loop_pops ids (map_to_list m).*1 m [] k x) as H.
    rewrite Hrem in H. apply H; [|rewrite Hids; exact Hout | exact Hx].
    apply keys_of_map. rewrite Hx. eauto.
  - intros Hk. apply list_elem_of_fmap in Hk as (x & -> & Hx).
    pose proof Hx as Hdet.
    apply add_loop_detected in Hdet as [Hnil|Hdet]; [inversion Hnil|].
    assert (Hin : device_id x ∈ device_id <$> ds)
      by (apply list_elem_of_fmap; exists x; auto).
    split; [exact Hin|].
    apply add_loop_added in Hx as [Hnil|Hnone]; [inversion Hnil|].
    rewrite Hm1 in Hnone. case_bool_decide as Hb; [|exact Hnone].
    destruct Hb as [_ Hout]. exfalso. apply Hout, Hids, Hin.
  - intros [Hin Hnone]. apply add_loop_announces; [exact Hin|].
    rewrite Hm1. case_bool_decide; [reflexivity | exact Hnone].
Qed.

(** X9: file monitoring follows the registry.  If every device has its
    own id as key, the watcher monitors exactly the connected devices, and
    every observer starts, then after a polling round and its callbacks
    the watcher again monitors exactly the connected devices; the same
    holds after the watcher's start-up pass over the registry. *)
Theorem watcher_follows_registry :
  forall (user : string) (start : string -> Py.result unit)
         (ds : list USBDevice) (m : gmap string USBDevice) (w : FileWatcher),
    registry_wf m ->
    (forall path : string, start path = Py.Ok tt) ->
    (dom (handlers w) = dom m -> dom (observers w) = dom m ->
     let w' := dispatch user start (poll ds m) w in
     dom (handlers w') = dom (connected_devices (poll ds m))
     /\ dom (observers w') = dom (connected_devices (poll ds m)))
    /\ (let w0 := start_monitoring user start m (init (Watcher.config w)) in
        dom (handlers w0) = dom m /\ dom (observers w0) = dom m).
Proof.
  intros user start ds m w Hwf Hstart. split.
  - intros Hh Ho w'. subst w'. unfold dispatch.
    destruct (added_fold_dom user start (added (poll ds m))
                (fun d _ => Hstart (mount_point d))
                (foldl (fun w device => (_handle_device_removed device w).1)
                       w (removed (poll ds m)))) as (Hh2 & Ho2 & _).
    destruct (removed_fold_dom (removed (poll ds m)) w) as (Hh1 & Ho1 & _).
    cbn zeta in *. rewrite Hh2, Ho2, Hh1, Ho1, Hh, Ho.
    assert (Hgoal : dom m ∖ list_to_set (device_id <$> removed (poll ds m))
                    ∪ list_to_set (device_id <$> added (poll ds m))
                    = dom (connected_devices (poll ds m))).
    { apply set_eq. intros k.
      destruct (poll_delta_ids ds m k Hwf) as [Hrem Hadd].
      rewrite elem_of_union, elem_of_difference, !elem_of_list_to_set.
      rewrite Hrem, Hadd, !elem_of_dom, (poll_keys ds m k).
      destruct (decide (k ∈ device_id <$> ds)) as [Hin|Hout].
      - split; [intros _; exact Hin|]. intros _.
        destruct (m !! k) as [x|] eqn:Hk.
        + left. split; [eauto|]. intros [_ Hno]. contradiction.
        + right. split; [exact Hin | reflexivity].
      - split; [|contradiction].
        intros [[Hk Hno]|[Hin _]]; [|contradiction].
        exfalso. apply Hno. split; assumption. }
    split; exact Hgoal.
  - intros w0. subst w0. unfold start_monitoring.
    destruct (added_fold_dom user start (get_connected_devices m)
                (fun d _ => Hstart (mount_point d)) (init (Watcher.config w)))
      as (Hh & Ho & _).
    cbn zeta in *. rewrite Hh, Ho. cbn [init handlers observers].
    assert (Hids : list_to_set (device_id <$> get_connected_devices m)
                   =@{gset string} dom m).
    { apply set_eq. intros k. unfold get_connected_devices.
      rewrite elem_of_list_to_set, elem_of_dom, list_elem_of_fmap. split.
      - intros (x & -> & Hx). apply list_elem_of_fmap in Hx as ([k' x'] & -> & Hx).
        apply elem_of_map_to_list in Hx. cbn. rewrite (Hwf _ _ Hx), Hx. eauto.
      - intros [x Hx]. exists x. split; [symmetry; apply (Hwf _ _ Hx)|].
        apply list_elem_of_fmap. exists (k, x). split; [reflexivity|].
        apply elem_of_map_to_list, Hx. }
    rewrite Hids. split; rewrite dom_empty_L; apply left_id_L, _.
Qed.

End WatcherSync.

Section WatcherEdges.
Import UsbMonitor Registry Watcher.

Implicit Types (w : FileWatcher) (m : gmap string USBDevice)
  (ds l : list USBDevice).

(** A second round on the same detection has nothing to report. *)
Lemma poll_again_idle ds m :
  removed (poll ds (connected_devices (poll ds m))) = []
  /\ added (poll ds (connected_devices (poll ds m))) = [].
Proof.
  set (m1 := connected_devices (poll ds m)).
  assert (Hrem : foldl (remove_step (list_to_set (device_id <$> ds)))
                   (m1, []) (map_to_list m1).*1 = (m1, [])).
  { apply remove_loop_idle. intros k _ Hk.
    apply elem_of_list_to_set, (poll_keys ds m k), Hk. }
  assert (Hadd : foldl add_step (m1, []) ds = (m1, [])).
  { apply add_loop_idle. intros x Hx. apply (poll_keys ds m (device_id x)).
    apply list_elem_of_fmap. exists x. split; [reflexivity | exact Hx]. }
  fold m1. generalize dependent m1. intros m1 Hrem Hadd.
  unfold poll. cbn [removed added]. rewrite Hrem. cbn [fst snd].
  rewrite Hadd. split; reflexivity.
Qed.

Lemma removed_fold_absent l (id : string) : forall w,
  handlers w !! id = None ->
  handlers (foldl (fun w device => (_handle_device_removed device w).1) w l)
    !! id = None.
Proof.
  induction l as [|d l IH]; intros w Hw; cbn [foldl]; [exact Hw|].
  apply IH. cbn [_handle_device_removed fst handlers].
  apply lookup_delete_None. right. exact Hw.
Qed.

Lemma added_fold_failing (user : string) (start : string -> Py.result unit)
    l (id : string) :
  (forall d : USBDevice,
      d ∈ l -> device_id d = id -> exists e, start (mount_point d) = Py.Raise e) ->
  forall w,
    handlers (foldl (fun w device =>
                       (_handle_device_added user start device w).1) w l) !! id
    = handlers w !! id.
Proof.
  induction l as [|d l IH]; intros Hfail w; cbn [foldl]; [reflexivity|].
  rewrite IH by (intros x Hx; apply Hfail; right; exact Hx).
  unfold _handle_device_added.
  destruct (start (mount_point d)) as [[]|e] eqn:Hstart; [|reflexivity].
  cbn [fst handlers]. apply lookup_insert_ne. intros Heq.
  destruct (Hfail d) as [e He]; [left | exact Heq | congruence].
Qed.

(** X10: a device whose observer fails to start is connected but not
    monitored, and nothing retries it: after the round that announces it
    the watcher holds no handler under its id, and the next round on the
    same detection fires no callback, so the watcher stays as it is. *)
Theorem failed_observer_is_not_retried :
  forall (user : string) (start : string -> Py.result unit)
         (ds : list USBDevice) (m : gmap string USBDevice)
         (w : FileWatcher) (id : string),
    id ∈ device_id <$> ds ->
    handlers w !! id = None ->
    (forall d : USBDevice,
        d ∈ ds -> device_id d = id ->
        exists e, start (mount_point d) = Py.Raise e) ->
    let w1 := dispatch user start (poll ds m) w in
    is_device_connected id (connected_devices (poll ds m)) = true
    /\ handlers w1 !! id = None
    /\ dispatch user start (poll ds (connected_devices (poll ds m))) w1 = w1.
Proof.
  intros user start ds m w id Hin Hnone Hfail w1. split; [|split].
  - unfold is_device_connected. apply bool_decide_eq_true, poll_keys, Hin.
  - subst w1. unfold dispatch. rewrite added_fold_failing.
    + apply removed_fold_absent, Hnone.
    + intros d Hd. apply Hfail.
      apply add_loop_detected in Hd as [Hnil|Hd]; [inversion Hnil | exact Hd].
  - destruct (poll_again_idle ds m) as [Hrem Hadd].
    unfold dispatch at 1. rewrite Hrem, Hadd. reflexivity.
Qed.

(** X11: removing a device the watcher does not monitor changes nothing
    and stops nothing; and adding a device under a fresh id and removing
    it again gives the watcher back, the handler stopped being the one
    created for the device, with an empty in-flight table. *)
Theorem watcher_add_remove_round_trip :
  forall (user : string) (start : string -> Py.result unit)
         (d : USBDevice) (w : FileWatcher),
    handlers w !! device_id d = None ->
    observers w !! device_id d = None ->
    _handle_device_removed d w = (w, (None, None))
    /\ (start (mount_point d) = Py.Ok tt ->
        let w1 := (_handle_device_added user start d w).1 in
        _handle_device_removed d w1
        = (w, (Some (FileWatcher.init (Watcher.config w) d user),
               Some {| scheduled_path := mount_point d; recursive := true |}))).
Proof.
  intros user start d w Hh Ho. split.
  - unfold _handle_device_removed. rewrite Hh, Ho.
    rewrite !delete_id by assumption. destruct w; reflexivity.
  - intros Hstart w1. subst w1. unfold _handle_device_added. rewrite Hstart.
    unfold _handle_device_removed. cbn [fst handlers observers Watcher.config].
    rewrite !lookup_insert_eq, !delete_insert_eq, !delete_id by assumption.
    destruct w; reflexivity.
Qed.

End WatcherEdges.

(** ** Witnesses for the registry and the watcher *)

Section RegistryWitnesses.
Import UsbMonitor Registry Watcher Samples MoreSamples.

Lemma poll_deltas_exact_witness :
  let round := poll [device_D1_remounted; device_D3; device_D3] registry_D1_D2 in
  device_D2 ∈ removed round
  /\ (device_D1_remounted ∉ added round)
  /\ "SER-0003" ∈ device_id <$> added round
  /\ NoDup (device_id <$> added round).
Proof.
  intros round.
  destruct (poll_deltas_exact [device_D1_remounted; device_D3; device_D3]
              registry_D1_D2) as (Hrem & Hadd & Hnew & Hnodup).
  split; [|split; [|split]].
  - apply Hrem. exists "SER-0002". split; [|reflexivity].
    intros Hin. apply list_elem_of_fmap in Hin as (x & Hx & Hin).
    rewrite !elem_of_cons in Hin.
    destruct Hin as [->|[->|[->|Hin]]]; try discriminate Hx. inversion Hin.
  - intros Hin. apply Hadd in Hin as [_ Hnone]. discriminate Hnone.
  - apply Hnew; [|reflexivity].
    apply list_elem_of_fmap. exists device_D3. split; [reflexivity|].
    right. left.
  - exact Hnodup.
Defined.

Lemma sample_registry_wf : registry_wf registry_D1_D2.
Proof.
  intros k d Hk. unfold registry_D1_D2 in Hk.
  apply lookup_insert_Some in Hk as [[<- <-]|[_ Hk]]; [reflexivity|].
  apply lookup_singleton_Some in Hk as [<- <-]. reflexivity.
Qed.

Lemma registry_wf_preserved_witness :
  registry_wf (initial_devices [device_D3] registry_D1_D2)
  /\ registry_wf (connected_devices (poll [device_D1_remounted] registry_D1_D2))
  /\ registry_wf (connected_devices
                    (linux_event (stick "add") (Py.Ok proc_mounts) registry_D1_D2)).
Proof.
  destruct (registry_wf_preserved registry_D1_D2 sample_registry_wf)
    as (Hinit & Hpoll & Hevent).
  split; [|split].
  - apply Hinit.
  - apply Hpoll.
  - apply Hevent.
Defined.

Lemma startup_devices_not_announced_witness :
  let loaded := initial_devices [device_D1; device_D2] ∅ in
  added (poll [device_D1; device_D2] loaded) = []
  /\ removed (poll [device_D1; device_D2] loaded) = []
  /\ connected_devices (poll [device_D1; device_D2] loaded) = loaded.
Proof.
  intros loaded.
  destruct (startup_devices_not_announced [device_D1; device_D2] ∅)
    as [Hadd Hrest].
  split; [exact Hadd|]. apply Hrest.
  intros k [d Hk]. rewrite lookup_empty in Hk. discriminate Hk.
Defined.

Lemma device_by_mount_point_sound_witness :
  (exists d : USBDevice,
      get_device_by_mount_point "/mnt/usb2" registry_D1_D2 = Some d
      /\ mount_point d = "/mnt/usb2")
  /\ get_device_by_mount_point "/media/usb" registry_D1_D2 = None.
Proof.
  destruct (device_by_mount_point_sound "/mnt/usb2" registry_D1_D2)
    as [Hsome _].
  destruct (device_by_mount_point_sound "/media/usb" registry_D1_D2)
    as [_ Hnone].
  split.
  - exists device_D2. split; [vm_compute; reflexivity|].
    apply (Hsome device_D2). vm_compute. reflexivity.
  - apply Hnone. intros k d Hk. unfold registry_D1_D2 in Hk.
    apply lookup_insert_Some in Hk as [[_ <-]|[_ Hk]]; [discriminate|].
    apply lookup_singleton_Some in Hk as [_ <-]. discriminate.
Defined.


Lemma linux_add_remove_round_trip_witness :
  let after_add := linux_event (stick "add") (Py.Ok proc_mounts) ∅ in
  added after_add = [stick_device]
  /\ connected_devices after_add !! "Kingston_DT_0001" = Some stick_device
  /\ linux_event (stick "remove") (Py.Raise Py.OSError) (connected_devices after_add)
     = {| connected_devices := ∅; removed := [stick_device]; added := [] |}.
Proof.
  intros after_add.
  destruct (linux_add_remove_round_trip
              (properties (stick "add")) "/dev/sdb1" true proc_mounts
              "/" "mnt/usb" (Py.Raise Py.OSError) ∅ eq_refl eq_refl)
    as [(Hadd & _ & Hstored) Hback].
  split; [exact Hadd|]. split; [exact Hstored|].
  apply (Hback eq_refl).
Defined.

Lemma linux_monitor_ends_at_idle_poll_witness :
  _monitor_linux_devices sample_polls ∅
  = {| connected_devices := {["Kingston_DT_0001" := stick_device]};
       removed := []; added := [stick_device] |}.
Proof.
  unfold sample_polls.
  rewrite (linux_monitor_ends_at_idle_poll
             [ {| polled := Some (stick "add"); stop_set := false;
                  mounts_now := Py.Ok proc_mounts |} ]
             [ {| polled := Some (stick "remove"); stop_set := false;
                  mounts_now := Py.Ok proc_mounts |} ]
             {| polled := None; stop_set := false; mounts_now := Py.Ok proc_mounts |}
             ∅ (or_introl eq_refl)).
  vm_compute. reflexivity.
Defined.

Lemma watcher_follows_registry_witness :
  let w0 := start_monitoring "alice" always_starts registry_D1_D2
              (init Config.default_config) in
  let round := poll [device_D1_remounted; device_D3] registry_D1_D2 in
  let w1 := dispatch "alice" always_starts round w0 in
  dom (handlers w0) = dom registry_D1_D2
  /\ dom (handlers w1) = dom (connected_devices round)
  /\ dom (observers w1) = dom (connected_devices round).
Proof.
  intros w0 round w1.
  destruct (watcher_follows_registry "alice" always_starts
              [device_D1_remounted; device_D3] registry_D1_D2 w0
              sample_registry_wf (fun _ => eq_refl)) as [Hround [Hh Ho]].
  split; [exact Hh|]. apply Hround; [exact Hh | exact Ho].
Defined.

Lemma failed_observer_is_not_retried_witness :
  let start := starts_except "/mnt/usb3" in
  let round := poll [device_D1; device_D3] registry_D1_D2 in
  let w1 := dispatch "alice" start round (init Config.default_config) in
  is_device_connected "SER-0003" (connected_devices round) = true
  /\ handlers w1 !! "SER-0003" = None
  /\ dispatch "alice" start
       (poll [device_D1; device_D3] (connected_devices round)) w1 = w1.
Proof.
  intros start round w1.
  apply (failed_observer_is_not_retried "alice" start [device_D1; device_D3]
           registry_D1_D2 (init Config.default_config) "SER-0003").
  - apply list_elem_of_fmap. exists device_D3. split; [reflexivity|].
    right. left.
  - reflexivity.
  - intros d Hd Hid. rewrite !elem_of_cons in Hd.
    destruct Hd as [->|[->|Hd]].
    + discriminate Hid.
    + exists Py.OSError. reflexivity.
    + inversion Hd.
Defined.

Lemma watcher_add_remove_round_trip_witness :
  let w := init Config.default_config in
  _handle_device_removed device_D3 w = (w, (None, None))
  /\ _handle_device_removed device_D3
       (_handle_device_added "alice" always_starts device_D3 w).1
     = (w, (Some (FileWatcher.init Config.default_config device_D3 "alice"),
            Some {| scheduled_path := "/mnt/usb3"; recursive := true |})).
Proof.
  intros w.
  destruct (watcher_add_remove_round_trip "alice" always_starts device_D3 w
              eq_refl eq_refl) as [Hidle Hback].
  split; [exact Hidle|]. apply (Hback eq_refl).
Defined.

End RegistryWitnesses.

(** ** Retention *)

Section RetentionFacts.
Import Py PyText Retention.

Lemma split_nonempty (sep : ascii) (s : string) : split sep s <> [].
Proof.
  destruct s as [|c s]; cbn [split]; [discriminate|].
  destruct (Ascii.eqb c sep); [discriminate|].
  destruct (split sep s); discriminate.
Qed.

(** A string without the separator is one field. *)
Lemma split_one_field (sep : ascii) (t : string) :
  all_chars (fun c => negb (Ascii.eqb c sep)) t = true -> split sep t = [t].
Proof.
  induction t as [|c t IH]; [reflexivity|].
  cbn [all_chars split]. intros H. apply andb_true_iff in H as [Hc Ht].
  apply negb_true_iff in Hc. rewrite Hc, (IH Ht). reflexivity.
Qed.

(** Appending text without the separator extends the last field. *)
Lemma split_app_last (sep : ascii) (t : string) :
  all_chars (fun c => negb (Ascii.eqb c sep)) t = true ->
  forall s : string,
    split sep (s ++ t)
    = (List.removelast (split sep s) ++ [(List.last (split sep s) EmptyString ++ t)%string])%list.
Proof.
  intros Ht. induction s as [|c s IH].
  - change (EmptyString ++ t) with t. rewrite (split_one_field sep t Ht).
    reflexivity.
  - change (String c s ++ t) with (String c (s ++ t)). cbn [split].
    rewrite IH. pose proof (split_nonempty sep s) as Hne.
    destruct (split sep s) as [|f [|f2 fs]] eqn:Hs; [contradiction| |];
      destruct (Ascii.eqb c sep); reflexivity.
Qed.

(** Text appended behind a separator leaves the first field alone. *)
Lemma split_head_app (sep : ascii) (t : string) :
  forall s : string,
    List.hd EmptyString (split sep (s ++ String sep t))
    = List.hd EmptyString (split sep s).
Proof.
  induction s as [|c s IH].
  - change (EmptyString ++ String sep t) with (String sep t).
    cbn [split]. rewrite Ascii.eqb_refl. reflexivity.
  - change (String c s ++ String sep t) with (String c (s ++ String sep t)).
    cbn [split]. destruct (Ascii.eqb c sep); [reflexivity|].
    pose proof (split_nonempty sep (s ++ String sep t)) as Hne1.
    pose proof (split_nonempty sep s) as Hne2.
    destruct (split sep (s ++ String sep t)) as [|g gs]; [contradiction|].
    destruct (split sep s) as [|f fs]; [contradiction|].
    cbn in IH |- *. rewrite IH. reflexivity.
Qed.

(** A digest file carries the date of its log. *)
Lemma file_date_str_hash (name : string) :
  file_date_str (name ++ ".hash") = file_date_str name.
Proof.
  unfold file_date_str.
  rewrite (split_app_last "_" ".hash" eq_refl name).
  pose proof (split_nonempty "_" name) as Hne.
  destruct (split "_" name) as [|x [|y [|z l]]]; [contradiction|reflexivity| |].
  - cbn [List.removelast List.last app]. f_equal.
    apply (split_head_app "." "hash").
  - reflexivity.
Qed.

Lemma contains_app (needle s t : string) :
  contains needle s = true -> contains needle (s ++ t) = true.
Proof.
  assert (Hprefix : forall n s, String.prefix n s = true ->
                                String.prefix n (s ++ t) = true).
  { induction n as [|a n IHn]; intros u Hu.
    - destruct (u ++ t); reflexivity.
    - destruct u as [|b u]; [discriminate Hu|].
      change (String b u ++ t) with (String b (u ++ t)).
      cbn [String.prefix] in Hu |- *.
      destruct (ascii_dec a b); [apply IHn, Hu | discriminate Hu]. }
  induction s as [|c s IH].
  - cbn [contains]. rewrite orb_false_r. intros H.
    change (EmptyString ++ t) with t.
    destruct t as [|d t]; cbn [contains]; apply orb_true_iff; left;
      [exact H | apply (Hprefix needle EmptyString H)].
  - change (String c s ++ t) with (String c (s ++ t)). cbn [contains].
    intros H. apply orb_true_iff in H as [H|H]; apply orb_true_iff.
    + left. apply (Hprefix needle (String c s) H).
    + right. apply IH, H.
Qed.


(** The loop after a prefix of the listing. *)
Lemma cleanup_loop_app (strptime : string -> option Q) (cutoff : Q)
    (a b : list string) :
  forall fs : gmap string string,
    cleanup_loop strptime cutoff (a ++ b) fs
    = Py.bind (cleanup_loop strptime cutoff a fs)
              (cleanup_loop strptime cutoff b).
Proof.
  induction a as [|l a IH]; intros fs; [reflexivity|].
  cbn [app cleanup_loop].
  destruct (file_date_str l) as [text|]; [|apply IH].
  destruct (strptime text) as [d|]; [|apply IH].
  destruct (FileWatcher.Qgtb cutoff d); [|apply IH].
  destruct (unlink l fs) as [fs1|e]; [|reflexivity].
  destruct (fs1 !! (l ++ ".hash")); apply IH.
Qed.

(** The only exception is the one of [unlink]. *)
Lemma cleanup_loop_raises (strptime : string -> option Q) (cutoff : Q)
    (listing : list string) :
  forall (fs : gmap string string) (e : exn),
    cleanup_loop strptime cutoff listing fs = Raise e -> e = FileNotFoundError.
Proof.
  induction listing as [|l listing IH]; intros fs e; [discriminate|].
  cbn [cleanup_loop].
  destruct (file_date_str l) as [text|]; [|apply IH].
  destruct (strptime text) as [d|]; [|apply IH].
  destruct (FileWatcher.Qgtb cutoff d); [|apply IH].
  unfold unlink. destruct (fs !! l); [|congruence].
  destruct (delete l fs !! (l ++ ".hash")); apply IH.
Qed.

(** What a completed loop has done: it only removed files, each removed
    file is an expired log of the listing or the digest next to one, and
    no expired log of the listing is left, nor its digest. *)
Lemma cleanup_loop_done (strptime : string -> option Q) (cutoff : Q)
    (listing : list string) :
  forall fs fs' : gmap string string,
    cleanup_loop strptime cutoff listing fs = Ok fs' ->
    (forall name : string,
        fs' !! name = fs !! name
        \/ (fs' !! name = None
            /\ exists (l text : string) (d : Q),
                 In l listing /\ (name = l \/ name = l ++ ".hash")
                 /\ file_date_str l = Some text /\ strptime text = Some d
                 /\ (d < cutoff)%Q))
    /\ (forall (l text : string) (d : Q),
           In l listing -> file_date_str l = Some text ->
           strptime text = Some d -> (d < cutoff)%Q ->
           fs' !! l = None /\ fs' !! (l ++ ".hash") = None).
Proof.
  induction listing as [|l0 listing IH]; intros fs fs' Hrun.
  { injection Hrun as <-. split; [left; reflexivity | intros l text d []]. }
  cbn [cleanup_loop] in Hrun.
  assert (Hskip : cleanup_loop strptime cutoff listing fs = Ok fs' ->
                  (forall (text : string) (d : Q),
                      file_date_str l0 = Some text -> strptime text = Some d ->
                      (d < cutoff)%Q -> False) ->
                  (forall name : string,
                      fs' !! name = fs !! name
                      \/ (fs' !! name = None
                          /\ exists (l text : string) (d : Q),
                               In l (l0 :: listing)
                               /\ (name = l \/ name = l ++ ".hash")
                               /\ file_date_str l = Some text
                               /\ strptime text = Some d /\ (d < cutoff)%Q))
                  /\ (forall (l text : string) (d : Q),
                         In l (l0 :: listing) -> file_date_str l = Some text ->
                         strptime text = Some d -> (d < cutoff)%Q ->
                         fs' !! l = None /\ fs' !! (l ++ ".hash") = None)).
  { intros Hrest Hfresh. destruct (IH fs fs' Hrest) as [Hkeep Hgone]. split.
    - intros name. destruct (Hkeep name) as [H|(Hnone & l & text & d & Hin & H)];
        [left; exact H | right].
      split; [exact Hnone|]. exists l, text, d. split; [right; exact Hin | exact H].
    - intros l text d [<-|Hin] Htext Hd Hlt;
        [destruct (Hfresh text d Htext Hd Hlt) | eapply Hgone; eauto]. }
  destruct (file_date_str l0) as [text0|] eqn:Htext0;
    [|apply (Hskip Hrun); intros text d [=]].
  destruct (strptime text0) as [d0|] eqn:Hd0;
    [|apply (Hskip Hrun); intros text d [= <-]; congruence].
  destruct (FileWatcher.Qgtb cutoff d0) eqn:Hold.
  2:{ apply (Hskip Hrun). intros text d [= <-] Hd Hlt.
      rewrite Hd0 in Hd. injection Hd as <-.
      apply Qgtb_false_iff in Hold. apply (Qlt_not_le _ _ Hlt Hold). }
  apply Qgtb_true_iff in Hold.
  unfold unlink in Hrun. destruct (fs !! l0) as [c0|] eqn:Hl0; [|discriminate].
  set (fs2 := match delete l0 fs !! (l0 ++ ".hash") with
              | Some _ => delete (l0 ++ ".hash") (delete l0 fs)
              | None => delete l0 fs
              end).
  assert (Hrest : cleanup_loop strptime cutoff listing fs2 = Ok fs').
  { unfold fs2. destruct (delete l0 fs !! (l0 ++ ".hash")); exact Hrun. }
  assert (Hfs2 : forall name : string,
             fs2 !! name = if bool_decide (name = l0 \/ name = l0 ++ ".hash")
                           then None else fs !! name).
  { intros name. unfold fs2. case_bool_decide as Hname.
    - destruct Hname as [->| ->].
      + destruct (delete l0 fs !! (l0 ++ ".hash"));
          [rewrite lookup_delete_ne by apply hash_name_ne|];
          apply lookup_delete_eq.
      + destruct (delete l0 fs !! (l0 ++ ".hash")) eqn:Hh;
          [apply lookup_delete_eq | exact Hh].
    - destruct (delete l0 fs !! (l0 ++ ".hash"));
        rewrite !lookup_delete_ne
          by (intros Heq; apply Hname; rewrite <- Heq; tauto);
        reflexivity. }
  destruct (IH fs2 fs' Hrest) as [Hkeep Hgone]. split.
  - intros name. destruct (Hkeep name) as [H|(Hnone & l & text & d & Hin & H)].
    + rewrite Hfs2 in H. case_bool_decide as Hname; [right | left; exact H].
      split; [exact H|]. exists l0, text0, d0.
      split; [left; reflexivity|]. tauto.
    + right. split; [exact Hnone|]. exists l, text, d.
      split; [right; exact Hin | exact H].
  - intros l text d [<-|Hin] Htext Hd Hlt; [|eapply Hgone; eauto].
    split.
    + destruct (Hkeep l0) as [H|[H _]]; [|exact H].
      rewrite H, Hfs2. rewrite bool_decide_eq_true_2; tauto.
    + destruct (Hkeep (l0 ++ ".hash")) as [H|[H _]]; [|exact H].
      rewrite H, Hfs2. rewrite bool_decide_eq_true_2; tauto.
Qed.

End RetentionFacts.

Section RetentionClaims.
Import Py PyText Retention.

(** X12: a cleanup that completes only removes files; every file it
    removes is a dated log of the scan older than the cut-off, or the
    digest file next to one; none of those logs and digests is left; and
    a file whose name does not contain ".log", such as a transfer log
    [transfers_<date>.csv], is never removed however old it is. *)
Theorem cleanup_removes_expired_logs_only :
  forall (strptime : string -> option Q) (now : Q) (days_to_keep : Z)
         (scan : list string) (fs fs' : gmap string string),
    cleanup_old_logs strptime now days_to_keep scan fs = Ok fs' ->
    let expired (l : string) :=
      glob_log l = true
      /\ exists (text : string) (d : Q),
           file_date_str l = Some text /\ strptime text = Some d
           /\ (d < now - inject_Z (days_to_keep * 86400))%Q in
    (forall name : string, fs' !! name = fs !! name \/ fs' !! name = None)
    /\ (forall name : string,
           fs' !! name <> fs !! name ->
           exists l : string,
             In l scan /\ expired l /\ (name = l \/ name = l ++ ".hash"))
    /\ (forall l : string,
           In l scan -> expired l ->
           fs' !! l = None /\ fs' !! (l ++ ".hash") = None)
    /\ (forall name : string,
           contains ".log" name = false -> fs' !! name = fs !! name).
Proof.
  intros strptime now days_to_keep scan fs fs' Hrun expired.
  unfold cleanup_old_logs in Hrun.
  destruct (cleanup_loop_done _ _ _ _ _ Hrun) as [Hkeep Hgone].
  assert (Hwhy : forall name : string,
             fs' !! name <> fs !! name ->
             exists l : string,
               In l scan /\ expired l /\ (name = l \/ name = l ++ ".hash")).
  { intros name Hne.
    destruct (Hkeep name) as [H|(_ & l & text & d & Hin & Hname & Hrest)];
      [contradiction|].
    apply filter_In in Hin as [Hin Hglob]. exists l.
    split; [exact Hin|]. split; [|exact Hname].
    split; [exact Hglob|]. exists text, d. exact Hrest. }
  split; [|split; [exact Hwhy|split]].
  - intros name. destruct (Hkeep name) as [H|[H _]]; [left | right]; exact H.
  - intros l Hin (Hglob & text & d & Htext & Hd & Hlt).
    apply (Hgone l text d); try assumption.
    apply filter_In. split; assumption.
  - intros name Hname.
    destruct (decide (fs' !! name = fs !! name)) as [H|Hne]; [exact H|].
    destruct (Hwhy name Hne) as (l & _ & [Hglob _] & [->| ->]).
    + unfold glob_log in Hglob. congruence.
    + unfold glob_log in Hglob.
      rewrite (contains_app ".log" l ".hash" Hglob) in Hname. discriminate.
Qed.

(** X13: the cleanup removes the digest file together with its log, but
    the digest file matches ["*.log*"] itself and carries the same date.
    So whenever the scan yields an expired log before its own digest
    file, the loop reaches the digest after it is gone and the cleanup
    ends with [FileNotFoundError], which the [except] clause does not
    catch.  In the opposite order both files are removed. *)
Theorem cleanup_fails_when_digest_follows_log :
  forall (strptime : string -> option Q) (now : Q) (days_to_keep : Z)
         (l text : string) (d : Q) (before between after : list string)
         (fs : gmap string string),
    glob_log l = true ->
    file_date_str l = Some text ->
    strptime text = Some d ->
    (d < now - inject_Z (days_to_keep * 86400))%Q ->
    cleanup_old_logs strptime now days_to_keep
      (before ++ l :: between ++ (l ++ ".hash") :: after) fs
    = Raise FileNotFoundError
    /\ (is_Some (fs !! l) -> is_Some (fs !! (l ++ ".hash")) ->
        fs !! ((l ++ ".hash") ++ ".hash") = None ->
        cleanup_old_logs strptime now days_to_keep [l ++ ".hash"; l] fs
        = Ok (delete l (delete (l ++ ".hash") fs))).
Proof.
  intros strptime now days_to_keep l text d before between after fs
    Hglob Htext Hd Hlt.
  assert (Hglob' : glob_log (l ++ ".hash") = true)
    by (apply contains_app, Hglob).
  assert (Hold : FileWatcher.Qgtb (now - inject_Z (days_to_keep * 86400)) d = true)
    by (apply Qgtb_true_iff, Hlt).
  split.
  - unfold cleanup_old_logs.
    rewrite List.filter_app. cbn [List.filter]. rewrite Hglob.
    rewrite List.filter_app. cbn [List.filter]. rewrite Hglob'.
    set (cutoff := (now - inject_Z (days_to_keep * 86400))%Q) in *.
    change (List.filter glob_log before ++ l :: List.filter glob_log between
            ++ (l ++ ".hash")%string :: List.filter glob_log after)%list
      with (List.filter glob_log before
            ++ (l :: List.filter glob_log between)
            ++ (l ++ ".hash")%string :: List.filter glob_log after)%list.
    rewrite app_assoc, cleanup_loop_app.
    destruct (cleanup_loop strptime cutoff
                (List.filter glob_log before ++ l :: List.filter glob_log between) fs)
      as [fs1|e] eqn:Hfirst.
    + destruct (cleanup_loop_done _ _ _ _ _ Hfirst) as [_ Hgone].
      destruct (Hgone l text d) as [_ Hnone]; try assumption.
      { apply in_or_app. right. left. reflexivity. }
      cbn [bind cleanup_loop]. rewrite file_date_str_hash, Htext, Hd, Hold.
      unfold unlink. rewrite Hnone. reflexivity.
    + cbn [bind]. f_equal. exact (cleanup_loop_raises _ _ _ _ _ Hfirst).
  - intros [c Hc] [h Hh] Hhh. unfold cleanup_old_logs.
    cbn [List.filter]. rewrite Hglob, Hglob'. cbn [cleanup_loop].
    rewrite file_date_str_hash, Htext, Hd, Hold.
    unfold unlink. rewrite Hh.
    rewrite lookup_delete_ne
      by (intros Heq; symmetry in Heq; exact (hash_name_ne _ Heq)).
    rewrite Hhh.
    rewrite lookup_delete_ne by apply hash_name_ne.
    rewrite Hc.
    rewrite lookup_delete_ne
      by (intros Heq; symmetry in Heq; exact (hash_name_ne _ Heq)).
    rewrite lookup_delete_eq. reflexivity.
Qed.

End RetentionClaims.

(** ** The content of the log *)

Section LogContent.
Import Logger.



End LogContent.

Section LogContentClaims.
Import Logger.

(** X14: the handler's own check and the verification of the viewer
    agree whenever the log and its digest file both exist, and disagree
    otherwise: without a digest file the handler's check passes while
    verification reports the digest missing, and with a digest but no
    log the check fails while verification raises. *)
Theorem check_hash_against_verification :
  forall (h : SecureFileHandler) (fs : gmap string string),
    hash_file h = baseFilename h ++ ".hash" ->
    (fs !! hash_file h = None ->
     _check_hash h fs = true
     /\ verify_log_integrity (baseFilename h) fs = Py.Ok (false, msg_missing))
    /\ (is_Some (fs !! hash_file h) -> fs !! baseFilename h = None ->
        _check_hash h fs = false
        /\ verify_log_integrity (baseFilename h) fs = Py.Raise Py.FileNotFoundError)
    /\ (is_Some (fs !! hash_file h) -> is_Some (fs !! baseFilename h) ->
        verify_log_integrity (baseFilename h) fs
        = Py.Ok (_check_hash h fs,
                 if _check_hash h fs then msg_verified else msg_mismatch)).
Proof.
  intros h fs Hname. unfold _check_hash, _compute_file_hash, verify_log_integrity.
  rewrite <- Hname. split; [|split].
  - intros ->. split; reflexivity.
  - intros [saved ->] ->. split; reflexivity.
  - intros [saved ->] [content ->].
    destruct (String.eqb (Py.strip saved) (Sha256.hexdigest content)); reflexivity.
Qed.



End LogContentClaims.

(** ** Rollover *)

Section Rollover.
Import Logger.

(** Every character of a printed number is one of the ten digits. *)
Lemma pretty_N_go_chars (p : ascii -> bool) :
  (forall n : N, p (pretty_N_char n) = true) ->
  forall (x : N) (s : string),
    Py.all_chars p s = true -> Py.all_chars p (pretty_N_go x s) = true.
Proof.
  intros Hp x. induction (N.lt_wf_0 x) as [x _ IH]. intros s Hs.
  destruct (decide (x = 0)%N) as [->|Hx]; [exact Hs|].
  rewrite pretty_N_go_step by lia. apply IH.
  - apply N.div_lt; lia.
  - cbn [Py.all_chars]. rewrite Hp, Hs. reflexivity.
Qed.

Lemma pretty_nat_chars (p : ascii -> bool) (n : nat) :
  (forall d : N, p (pretty_N_char d) = true) ->
  Py.all_chars p (pretty n) = true.
Proof.
  intros Hp. unfold pretty, pretty_nat, pretty, pretty_N.
  destruct (decide (N.of_nat n = 0)%N).
  - change (p (pretty_N_char 0) && true = true). rewrite (Hp 0%N). reflexivity.
  - apply pretty_N_go_chars; [exact Hp | reflexivity].
Qed.

Lemma digit_is_not_h (d : N) :
  negb (Ascii.eqb (pretty_N_char d) "h") = true.
Proof.
  destruct d as [|[[[[]|[]|]|[[]|[]|]|]|[[[]|[]|]|[[]|[]|]|]|]]; reflexivity.
Qed.

Lemma string_app_nil_r (s : string) : s ++ EmptyString = s.
Proof.
  induction s as [|c s IH]; [reflexivity|].
  change (String c (s ++ EmptyString) = String c s). rewrite IH. reflexivity.
Qed.

Lemma string_app_inv_head (a b c : string) : a ++ b = a ++ c -> b = c.
Proof.
  induction a as [|x a IH]; intros H; [exact H|].
  injection H as H. apply IH, H.
Qed.

Lemma backup_name_not_log (base : string) (i : nat) : backup_name base i <> base.
Proof.
  intros H. apply (f_equal String.length) in H. unfold backup_name in H.
  rewrite string_length_app in H.
  change ("." ++ pretty i) with (String "." (pretty i)) in H.
  cbn [String.length] in H. lia.
Qed.

(** No backup is named like a digest file. *)
Lemma backup_name_not_digest (base middle : string) (i : nat) :
  backup_name base i <> (base ++ middle) ++ ".hash".
Proof.
  intros H. unfold backup_name in H.
  assert (Hassoc : (base ++ middle) ++ ".hash" = base ++ (middle ++ ".hash")).
  { clear. induction base as [|x a IH]; [reflexivity|].
    change (String x ((a ++ middle) ++ ".hash")
            = String x (a ++ (middle ++ ".hash"))).
    rewrite IH. reflexivity. }
  rewrite Hassoc in H. apply string_app_inv_head in H.
  pose proof (pretty_nat_chars (fun c => negb (Ascii.eqb c "h")) i digit_is_not_h)
    as Hdigits.
  assert (Hall : Py.all_chars (fun c => negb (Ascii.eqb c "h"))
                   ("." ++ pretty i) = true) by exact Hdigits.
  rewrite H in Hall. rewrite all_chars_app in Hall.
  apply andb_true_iff in Hall as [_ Hall]. discriminate Hall.
Qed.

Lemma rename_other (src dst name : string) (fs : gmap string string) :
  name <> src -> name <> dst -> rename src dst fs !! name = fs !! name.
Proof.
  intros Hs Hd. unfold rename. destruct (fs !! src); [|reflexivity].
  rewrite lookup_insert_ne by congruence.
  apply lookup_delete_ne. congruence.
Qed.

(** Shifting the backups touches backups only. *)
Lemma shift_backups_other (base name : string) (l : list nat) :
  (forall i : nat, name <> backup_name base i) ->
  forall fs : gmap string string,
    List.fold_left
      (fun fs i => rename (backup_name base i) (backup_name base (S i)) fs) l fs
    !! name
    = fs !! name.
Proof.
  intros Hname. induction l as [|i l IH]; intros fs; [reflexivity|].
  cbn [List.fold_left]. rewrite IH. apply rename_other; apply Hname.
Qed.

Lemma save_hash_eq (h : SecureFileHandler) (content : string)
    (fs : gmap string string) :
  fs !! baseFilename h = Some content ->
  _save_hash h fs
  = (set_current_hash h (Some (Sha256.hexdigest content)),
     <[hash_file h := Sha256.hexdigest content]> fs).
Proof.
  intros Hlog. unfold _save_hash, _compute_file_hash.
  rewrite Hlog, hexdigest_truthy. reflexivity.
Qed.

(** An append that rolls over is the rollover, then a plain append. *)
Lemma emit_after_rollover (h : SecureFileHandler) (line content : string)
    (fs : gmap string string) :
  hash_file h = baseFilename h ++ ".hash" ->
  rotating_doRollover h fs !! baseFilename h = Some content ->
  (emit h true line fs).2
  = <[hash_file h := Sha256.hexdigest (content ++ line ++ Py.newline)]>
      (<[baseFilename h := content ++ line ++ Py.newline]>
         (<[hash_file h := Sha256.hexdigest content]>
            (rotating_doRollover h fs))).
Proof.
  intros Hname Hroll. unfold emit, doRollover.
  rewrite (save_hash_eq h content _ Hroll).
  set (h1 := set_current_hash h _). set (fs1 := <[hash_file h := _]> _).
  assert (Hlog1 : fs1 !! baseFilename h1 = Some content).
  { unfold fs1, h1. cbn [baseFilename set_current_hash].
    rewrite lookup_insert_ne by (rewrite Hname; apply hash_name_ne).
    exact Hroll. }
  unfold stream_write. rewrite Hlog1.
  rewrite (save_hash_eq h1 (content ++ line ++ Py.newline)) by apply lookup_insert_eq.
  reflexivity.
Qed.

End Rollover.

Section RolloverClaims.
Import Logger.

(** X17: an append that rolls the log over.  With backups configured the
    previous content moves to the first backup and the log starts again
    with the new line; the digest file follows the new log, so the log
    verifies, but the backup is left without a digest and verification of
    it reports the digest missing.  With no backups configured (the class
    default) the rollover keeps the content and the line is appended to
    it: the size limit has no effect. *)
Theorem rollover_leaves_backup_without_digest :
  forall (h : SecureFileHandler) (fs : gmap string string)
         (content line : string),
    hash_file h = baseFilename h ++ ".hash" ->
    fs !! baseFilename h = Some content ->
    let log_file := baseFilename h in
    let fs' := (emit h true line fs).2 in
    (0 < backupCount h ->
     fs !! (backup_name log_file 1 ++ ".hash") = None ->
     fs' !! log_file = Some (line ++ Py.newline)
     /\ fs' !! backup_name log_file 1 = Some content
     /\ verify_log_integrity log_file fs' = Py.Ok (true, msg_verified)
     /\ verify_log_integrity (backup_name log_file 1) fs'
        = Py.Ok (false, msg_missing))
    /\ (backupCount h <= 0 ->
        fs' !! log_file = Some (content ++ line ++ Py.newline)).
Proof.
  intros h fs content line Hname Hlog log_file fs'.
  assert (Hhash_ne : hash_file h <> log_file)
    by (rewrite Hname; apply hash_name_ne).
  split.
  - intros Hcount Hfree.
    set (shifted :=
           List.fold_left
             (fun fs i => rename (backup_name log_file i)
                            (backup_name log_file (S i)) fs)
             (List.rev (List.seq 1 (Z.to_nat (backupCount h) - 1))) fs).
    assert (Hshift : forall name : string,
               (forall i : nat, name <> backup_name log_file i) ->
               shifted !! name = fs !! name).
    { intros name Hn. apply shift_backups_other, Hn. }
    assert (Hlog_shifted : shifted !! log_file = Some content).
    { rewrite Hshift; [exact Hlog|].
      intros i Heq. symmetry in Heq. exact (backup_name_not_log _ _ Heq). }
    set (moved := <[backup_name log_file 1 := content]> (delete log_file shifted)).
    assert (Hroll : rotating_doRollover h fs = <[log_file := EmptyString]> moved).
    { unfold rotating_doRollover. fold log_file.
      replace (0 <? backupCount h) with true by (symmetry; apply Z.ltb_lt, Hcount).
      fold shifted. unfold rename. rewrite Hlog_shifted. fold moved.
      unfold open_append.
      replace (moved !! log_file) with (@None string); [reflexivity|].
      symmetry. unfold moved.
      rewrite lookup_insert_ne by apply backup_name_not_log.
      apply lookup_delete_eq. }
    assert (Hfs' : fs'
                   = <[hash_file h := Sha256.hexdigest (line ++ Py.newline)]>
                       (<[log_file := line ++ Py.newline]>
                          (<[hash_file h := Sha256.hexdigest EmptyString]>
                             (<[log_file := EmptyString]> moved)))).
    { unfold fs'. rewrite (emit_after_rollover h line EmptyString fs Hname).
      - rewrite Hroll. reflexivity.
      - rewrite Hroll. apply lookup_insert_eq. }
    assert (Hnew : fs' !! log_file = Some (line ++ Py.newline)).
    { rewrite Hfs', lookup_insert_ne by exact Hhash_ne. apply lookup_insert_eq. }
    assert (Hdigest : fs' !! (log_file ++ ".hash")
                      = Some (Sha256.hexdigest (line ++ Py.newline))).
    { rewrite Hfs'. unfold log_file. rewrite <- Hname. apply lookup_insert_eq. }
    assert (Hbackup_ne : backup_name log_file 1 <> hash_file h).
    { rewrite Hname. intros Heq.
      apply (backup_name_not_digest log_file EmptyString 1).
      rewrite string_app_nil_r. exact Heq. }
    split; [exact Hnew|]. split; [|split].
    + rewrite Hfs'.
      rewrite lookup_insert_ne by congruence.
      rewrite lookup_insert_ne
        by (intros Heq; symmetry in Heq; exact (backup_name_not_log _ _ Heq)).
      rewrite lookup_insert_ne by congruence.
      rewrite lookup_insert_ne
        by (intros Heq; symmetry in Heq; exact (backup_name_not_log _ _ Heq)).
      apply lookup_insert_eq.
    + rewrite (verify_against_digest log_file _ _ fs' Hdigest Hnew).
      rewrite String.eqb_refl. reflexivity.
    + unfold verify_log_integrity.
      replace (fs' !! (backup_name log_file 1 ++ ".hash")) with (@None string);
        [reflexivity|].
      symmetry. rewrite Hfs'.
      assert (Hn1 : backup_name log_file 1 ++ ".hash" <> hash_file h).
      { rewrite Hname. unfold backup_name. intros Heq.
        apply (f_equal String.length) in Heq.
        rewrite !string_length_app in Heq.
        change ("." ++ pretty 1%nat) with (String "." (pretty 1%nat)) in Heq.
        cbn [String.length] in Heq. unfold log_file in Heq. lia. }
      assert (Hn2 : backup_name log_file 1 ++ ".hash" <> log_file).
      { unfold backup_name. intros Heq.
        apply (f_equal String.length) in Heq.
        rewrite !string_length_app in Heq.
        change (String.length ".hash") with 5%nat in Heq.
        unfold log_file in Heq. lia. }
      rewrite lookup_insert_ne by congruence.
      rewrite lookup_insert_ne by congruence.
      rewrite lookup_insert_ne by congruence.
      rewrite lookup_insert_ne by congruence.
      unfold moved.
      rewrite lookup_insert_ne
        by (intros Heq; symmetry in Heq; exact (hash_name_ne _ Heq)).
      rewrite lookup_delete_ne by congruence.
      rewrite Hshift; [exact Hfree|].
      intros i Heq. symmetry in Heq.
      exact (backup_name_not_digest log_file ("." ++ pretty 1%nat) i Heq).
  - intros Hcount.
    assert (Hroll : rotating_doRollover h fs = fs).
    { unfold rotating_doRollover.
      replace (0 <? backupCount h) with false by (symmetry; apply Z.ltb_ge, Hcount).
      unfold open_append. rewrite Hlog. reflexivity. }
    unfold fs'. rewrite (emit_after_rollover h line content fs Hname).
    + rewrite lookup_insert_ne by exact Hhash_ne. apply lookup_insert_eq.
    + rewrite Hroll. exact Hlog.
Qed.

End RolloverClaims.

(** ** Runs of the handler *)

Section HandlerRuns.
Import FileWatcher Notions.

Implicit Types (self : USBFileEventHandler) (env : Env)
  (m : gmap string (Operation * Q)).

Lemma record_and_log_identity env self (o : Operation) (p : string) :
  same_identity self (record_and_log env self o p).1
  /\ transfers (record_and_log env self o p).2 = [].
Proof.
  split; [repeat split|]. apply log_not_final_no_transfer.
Qed.

Lemma same_identity_refl self : same_identity self self.
Proof. repeat split. Qed.

(** An event callback keeps the handler's identity and writes no record. *)
Lemma event_turn env (t : Turn) self :
  t <> Sweep ->
  same_identity self (turn env t self).1 /\ transfers (turn env t self).2 = [].
Proof.
  intros Ht. destruct t as [ev|ev|ev|ev|]; [| | | |contradiction];
    cbn [turn]; unfold on_created, on_deleted, on_modified, on_moved.
  - destruct (negb (is_directory ev) && _); [apply record_and_log_identity|].
    split; [apply same_identity_refl | reflexivity].
  - destruct (negb (is_directory ev)); [apply record_and_log_identity|].
    split; [apply same_identity_refl | reflexivity].
  - destruct (negb (is_directory ev) && _); [apply record_and_log_identity|].
    split; [apply same_identity_refl | reflexivity].
  - destruct (negb (is_directory ev));
      [|split; [apply same_identity_refl | reflexivity]].
    destruct (dest_path ev) as [dest|].
    + destruct (_should_monitor_file env self dest);
        [apply record_and_log_identity|].
      destruct (_should_monitor_file env self (src_path ev));
        [apply record_and_log_identity|].
      split; [apply same_identity_refl | reflexivity].
    + destruct (_should_monitor_file env self (src_path ev));
        [apply record_and_log_identity|].
      split; [apply same_identity_refl | reflexivity].
Qed.

(** A finalizer round keeps the identity; its records are records of the
    handler. *)
Lemma sweep_turn env self :
  same_identity self (_finalize_operations env self).1
  /\ forall r : Logger.TransferRecord,
       In r (transfers (_finalize_operations env self).2) ->
       exists (o : Operation) (p rel : string) (size : Z),
         r = transfer_record env self o p rel size.
Proof.
  split; [repeat split|]. intros r Hr.
  unfold _finalize_operations in Hr. cbn [snd] in Hr.
  apply transfers_concat in Hr as (l & Hl & Hr).
  apply in_map_iff in Hl as ([p o] & <- & _). unfold finalize_one in Hr.
  destruct (path_exists env p || operation_eqb o deleted); [|destruct Hr].
  apply log_final_transfer_inv in Hr as (rel & size & _ & _ & ->).
  exists o, p, rel, size. reflexivity.
Qed.


(** The records of one turn are records of the handler. *)
Lemma turn_records env (t : Turn) self :
  same_identity self (turn env t self).1
  /\ forall r : Logger.TransferRecord,
       In r (transfers (turn env t self).2) ->
       exists (o : Operation) (p rel : string) (size : Z),
         r = transfer_record env self o p rel size.
Proof.
  assert (Hevent : t <> Sweep ->
                   same_identity self (turn env t self).1
                   /\ forall r : Logger.TransferRecord,
                        In r (transfers (turn env t self).2) ->
                        exists (o : Operation) (p rel : string) (size : Z),
                          r = transfer_record env self o p rel size).
  { intros Ht. destruct (event_turn env t self Ht) as [Hid Hnone].
    split; [exact Hid | rewrite Hnone; intros r []]. }
  destruct t; try (apply Hevent; discriminate). apply sweep_turn.
Qed.

(** The table after the first loop of a finalizer round. *)
Lemma sweep_loop_lookup self (now : Q) (l : list (string * (Operation * Q)))
    (p : string) :
  forall (acc : list (string * Operation)) m,
    (foldl (sweep_step self now) (acc, m) l).2 !! p
    = if existsb (fun item => String.eqb item.1 p
                              && Qgtb (now - item.2.2) (op_completion_time self)) l
      then None else m !! p.
Proof.
  induction l as [|[q [o t]] l IH]; intros acc m; [reflexivity|].
  cbn [foldl existsb fst snd]. rewrite sweep_step_eq.
  destruct (Qgtb (now - t) (op_completion_time self)) eqn:Hold.
  - rewrite IH, andb_true_r. destruct (String.eqb_spec q p) as [->|Hne].
    + cbn [orb]. rewrite lookup_delete_eq. destruct (existsb _ l); reflexivity.
    + cbn [orb]. rewrite lookup_delete_ne by exact Hne. reflexivity.
  - rewrite IH, andb_false_r. reflexivity.
Qed.

(** With nothing old enough the first loop takes nothing. *)
Lemma sweep_loop_fresh self (now : Q) (l : list (string * (Operation * Q))) :
  Forall (fun item => Qgtb (now - item.2.2) (op_completion_time self) = false) l ->
  forall (acc : list (string * Operation)) m,
    foldl (sweep_step self now) (acc, m) l = (acc, m).
Proof.
  induction 1 as [|[q [o t]] l Hfresh _ IH]; intros acc m; [reflexivity|].
  cbn [foldl]. rewrite sweep_step_eq. cbn in Hfresh. rewrite Hfresh. apply IH.
Qed.

Lemma set_in_progress_same self : set_in_progress self (_in_progress self) = self.
Proof. destruct self. reflexivity. Qed.


End HandlerRuns.

Section BurstAmong.
Import FileWatcher Notions.

Implicit Types (self s : USBFileEventHandler) (env : Env)
  (m : gmap string (Operation * Q)).

(** The decisions of a handler depend on its configuration, device and
    user, not on its table. *)
Lemma should_monitor_same env self s (path : string) :
  same_identity self s ->
  _should_monitor_file env s path = _should_monitor_file env self path.
Proof.
  intros (Hc & _). unfold _should_monitor_file. rewrite Hc. reflexivity.
Qed.

Lemma log_file_operation_same env self s (o : Operation) (path : string)
    (final : bool) :
  same_identity self s ->
  _log_file_operation env s o path final
  = _log_file_operation env self o path final.
Proof.
  destruct self, s. intros (Hc & Hd & Hu & _). cbn in Hc, Hd, Hu. subst.
  reflexivity.
Qed.

Lemma same_identity_trans self s s' :
  same_identity self s -> same_identity s s' -> same_identity self s'.
Proof.
  intros (? & ? & ? & ?) (? & ? & ? & ?). repeat split; congruence.
Qed.

Lemma run_cons (env : Env) (t : Turn) (rest : list (Env * Turn)) s :
  (run ((env, t) :: rest) s).1 = (run rest (turn env t s).1).1.
Proof.
  cbn [run]. destruct (turn env t s) as [s1 lines1]. cbn [fst].
  destruct (run rest s1) as [s2 lines2]. reflexivity.
Qed.

(** An event that does not name [path] leaves its entry alone. *)
Lemma turn_elsewhere env (t : Turn) s (path : string) :
  t <> Sweep ->
  touches path t = false ->
  _in_progress (turn env t s).1 !! path = _in_progress s !! path.
Proof.
  intros Ht Htouch.
  assert (Hrecord : forall (o : Operation) (q : string),
             String.eqb q path = false ->
             _in_progress (record_and_log env s o q).1 !! path
             = _in_progress s !! path).
  { intros o q Hq. apply String.eqb_neq in Hq.
    unfold record_and_log, _record_operation.
    cbn [fst _in_progress set_in_progress]. apply lookup_insert_ne, Hq. }
  destruct t as [ev|ev|ev|ev|]; [| | | |contradiction]; cbn [touches] in Htouch;
    cbn [turn]; unfold on_created, on_deleted, on_modified, on_moved.
  - destruct (negb (is_directory ev) && _); [apply Hrecord, Htouch|reflexivity].
  - destruct (negb (is_directory ev)); [apply Hrecord, Htouch|reflexivity].
  - destruct (negb (is_directory ev) && _); [apply Hrecord, Htouch|reflexivity].
  - apply orb_false_iff in Htouch as [Hsrc Hdest].
    destruct (negb (is_directory ev)); [|reflexivity].
    destruct (dest_path ev) as [dest|].
    + destruct (_should_monitor_file env s dest); [apply Hrecord, Hdest|].
      destruct (_should_monitor_file env s (src_path ev));
        [apply Hrecord, Hsrc|reflexivity].
    + destruct (_should_monitor_file env s (src_path ev));
        [apply Hrecord, Hsrc|reflexivity].
Qed.

(** The entries the first loop takes, in the order of the table. *)
Lemma sweep_loop_taken self (now : Q) (l : list (string * (Operation * Q))) :
  forall (acc : list (string * Operation)) m,
    (foldl (sweep_step self now) (acc, m) l).1
    = (acc
       ++ List.map (fun item => (item.1, item.2.1))
            (List.filter
               (fun item => Qgtb (now - item.2.2) (op_completion_time self)) l))%list.
Proof.
  induction l as [|[q [o t0]] l IH]; intros acc m.
  - cbn. rewrite app_nil_r. reflexivity.
  - cbn [foldl List.filter fst snd]. rewrite sweep_step_eq.
    destruct (Qgtb (now - t0) (op_completion_time self)).
    + rewrite IH. cbn [List.map fst snd]. rewrite <- app_assoc. reflexivity.
    + apply IH.
Qed.

(** Among the entries taken, those of [path]: none when the table has no
    entry of [path] that is old enough. *)
Lemma taken_for_path_none (old : string * (Operation * Q) -> bool)
    (l : list (string * (Operation * Q))) (path : string) :
  (forall item, In item l -> item.1 = path -> old item = false) ->
  List.filter (fun entry : string * Operation => String.eqb entry.1 path)
    (List.map (fun item => (item.1, item.2.1)) (List.filter old l))
  = [].
Proof.
  induction l as [|x l IH]; intros Hl; [reflexivity|].
  cbn [List.filter]. destruct (old x) eqn:Hx.
  - cbn [List.map List.filter fst]. destruct (String.eqb_spec x.1 path) as [Hp|_].
    + rewrite (Hl x (or_introl eq_refl) Hp) in Hx. discriminate Hx.
    + apply IH. intros item Hin. apply Hl. right. exact Hin.
  - apply IH. intros item Hin. apply Hl. right. exact Hin.
Qed.

(** ... and exactly one when it has one. *)
Lemma taken_for_path_one (old : string * (Operation * Q) -> bool)
    (l : list (string * (Operation * Q))) (path : string) (k : Operation)
    (t : Q) :
  NoDup (l.*1) ->
  In (path, (k, t)) l ->
  old (path, (k, t)) = true ->
  List.filter (fun entry : string * Operation => String.eqb entry.1 path)
    (List.map (fun item => (item.1, item.2.1)) (List.filter old l))
  = [(path, k)].
Proof.
  induction l as [|x l IH]; intros Hnodup Hin Hold; [destruct Hin|].
  cbn [fmap list_fmap] in Hnodup. apply NoDup_cons in Hnodup as [Hx Hnodup].
  destruct Hin as [->|Hin].
  - cbn [List.filter]. rewrite Hold. cbn [List.map List.filter fst snd].
    rewrite String.eqb_refl. f_equal. apply taken_for_path_none.
    intros item Hitem Hp. exfalso. apply Hx. cbn [fst].
    apply list_elem_of_fmap. exists item. split; [symmetry; exact Hp|].
    apply list_elem_of_In, Hitem.
  - assert (Hne : x.1 <> path).
    { intros Hp. apply Hx. apply list_elem_of_fmap. exists (path, (k, t)).
      split; [exact Hp | apply list_elem_of_In, Hin]. }
    cbn [List.filter]. destruct (old x).
    + cbn [List.map List.filter fst].
      replace (String.eqb x.1 path) with false
        by (symmetry; apply String.eqb_neq, Hne).
      apply IH; assumption.
    + apply IH; assumption.
Qed.

(** A round finds no entry of [path] to finalize when the table holds
    none, or one that is not old enough. *)
Lemma finalized_lines_none env s (path : string) :
  (forall (o : Operation) (t0 : Q),
      _in_progress s !! path = Some (o, t0) ->
      Qgtb (time env - t0) (op_completion_time s) = false) ->
  finalized_lines env s path = [].
Proof.
  intros Hfresh. unfold finalized_lines, to_finalize.
  rewrite sweep_loop_taken. cbn [app]. rewrite taken_for_path_none; [reflexivity|].
  intros [q [o t0]] Hin Hq. cbn [fst snd] in *. subst q.
  apply (Hfresh o t0). apply elem_of_map_to_list, list_elem_of_In, Hin.
Qed.

(** A round finalizes the entry of [path] once, when it is old enough. *)
Lemma finalized_lines_one env s (path : string) (k : Operation) (t : Q) :
  _in_progress s !! path = Some (k, t) ->
  Qgtb (time env - t) (op_completion_time s) = true ->
  finalized_lines env s path = finalize_one env s (path, k).
Proof.
  intros Hentry Hold. unfold finalized_lines, to_finalize.
  rewrite sweep_loop_taken. cbn [app].
  rewrite (taken_for_path_one _ _ path k t).
  - cbn [List.map List.concat]. apply app_nil_r.
  - apply NoDup_fst_map_to_list.
  - apply list_elem_of_In, elem_of_map_to_list, Hentry.
  - exact Hold.
Qed.

(** The table after a round, entry by entry. *)
Lemma finalize_lookup env s (path : string) :
  _in_progress (_finalize_operations env s).1 !! path
  = match _in_progress s !! path with
    | Some (o, t0) =>
        if Qgtb (time env - t0) (op_completion_time s) then None
        else Some (o, t0)
    | None => None
    end.
Proof.
  unfold _finalize_operations. cbn [fst _in_progress set_in_progress].
  rewrite sweep_loop_lookup.
  destruct (_in_progress s !! path) as [[o t0]|] eqn:Hp.
  - destruct (Qgtb (time env - t0) (op_completion_time s)) eqn:Hold.
    + replace (existsb _ _) with true; [reflexivity|].
      symmetry. apply existsb_exists. exists (path, (o, t0)). split.
      * apply list_elem_of_In, elem_of_map_to_list, Hp.
      * cbn [fst snd]. rewrite String.eqb_refl, Hold. reflexivity.
    + replace (existsb _ _) with false; [reflexivity|].
      symmetry. apply not_true_is_false. intros Hex.
      apply existsb_exists in Hex as ([q [o' t']] & Hin & Hq).
      cbn [fst snd] in Hq. apply andb_true_iff in Hq as [Hq Hold'].
      apply String.eqb_eq in Hq. subst q.
      apply list_elem_of_In, elem_of_map_to_list in Hin.
      rewrite Hp in Hin. injection Hin as <- <-. congruence.
  - destruct (existsb _ _); reflexivity.
Qed.

Lemma turn_identity env (t : Turn) self s :
  same_identity self s -> same_identity self (turn env t s).1.
Proof.
  intros Hid. apply (same_identity_trans self s); [exact Hid|].
  apply turn_records.
Qed.

(** During the burst the table holds the latest event on [path] and no
    record is written for [path]. *)
Lemma run_burst_rest self (path : string) (k : Operation) (t : Q)
    (turns : list (Env * Turn)) (k' : Operation) (t' : Q) :
  burst_rest self path k t turns k' t' ->
  forall s,
    same_identity self s ->
    _in_progress s !! path = Some (k, t) ->
    same_identity self (run turns s).1
    /\ _in_progress (run turns s).1 !! path = Some (k', t')
    /\ records_for path turns s = [].
Proof.
  induction 1 as [k t
                 | k t env event turns k' t' Hdir Hsrc Hgap Hok _ IH
                 | k t env turns k' t' Hgap _ IH
                 | k t env other turns k' t' Hother Htouch _ IH];
    intros s Hid Hentry.
  - split; [exact Hid|]. split; [exact Hentry | reflexivity].
  - rewrite run_cons. cbn [records_for app].
    apply IH; [apply turn_identity, Hid|].
    cbn [turn]. unfold on_modified.
    rewrite Hdir, Hsrc, (should_monitor_same env self s path Hid), Hok.
    cbn [negb andb]. unfold record_and_log, _record_operation.
    cbn [fst _in_progress set_in_progress]. apply lookup_insert_eq.
  - rewrite run_cons. cbn [records_for].
    assert (Hthr : op_completion_time s = op_completion_time self)
      by (destruct Hid as (_ & _ & _ & H); exact H).
    apply Qgtb_false_iff in Hgap.
    rewrite finalized_lines_none.
    + cbn [transfers app]. apply IH; [apply turn_identity, Hid|].
      cbn [turn]. rewrite finalize_lookup, Hentry, Hthr, Hgap. reflexivity.
    + intros o t0 Ho. rewrite Hentry in Ho. injection Ho as <- <-.
      rewrite Hthr. exact Hgap.
  - rewrite run_cons.
    assert (Hnone : records_for path ((env, other) :: turns) s
                    = records_for path turns (turn env other s).1).
    { cbn [records_for]. destruct other; try reflexivity. contradiction. }
    rewrite Hnone. apply IH; [apply turn_identity, Hid|].
    rewrite (turn_elsewhere env other s path Hother Htouch). exact Hentry.
Qed.

(** Once the entry of [path] is gone, turns that do not name [path] write
    no record for it. *)
Lemma run_untouched (path : string) (later : list (Env * Turn)) :
  Forall (fun et => touches path et.2 = false) later ->
  forall s,
    _in_progress s !! path = None ->
    records_for path later s = []
    /\ _in_progress (run later s).1 !! path = None.
Proof.
  induction 1 as [|[env t] later Htouch _ IH]; intros s Hnone;
    [split; [reflexivity | exact Hnone]|].
  cbn [snd] in Htouch. rewrite run_cons. cbn [records_for].
  assert (Hevent : t <> Sweep ->
                   records_for path later (turn env t s).1 = []
                   /\ _in_progress (run later (turn env t s).1).1 !! path = None).
  { intros Ht. apply IH.
    rewrite (turn_elsewhere env t s path Ht Htouch). exact Hnone. }
  destruct t as [ev|ev|ev|ev|]; try (apply Hevent; discriminate).
  rewrite finalized_lines_none by (intros o t0 Ho; congruence).
  cbn [transfers app]. apply IH. cbn [turn].
  rewrite finalize_lookup, Hnone. reflexivity.
Qed.

Lemma records_for_app (path : string) (a b : list (Env * Turn)) :
  forall s,
    records_for path (a ++ b) s
    = (records_for path a s ++ records_for path b (run a s).1)%list.
Proof.
  induction a as [|[env t] a IH]; intros s; [reflexivity|].
  cbn [app records_for]. rewrite IH, run_cons, app_assoc. reflexivity.
Qed.

(** The records counted for [path] are records the run writes. *)
Lemma records_for_written (path : string) (turns : list (Env * Turn)) :
  forall s (r : Logger.TransferRecord),
    In r (records_for path turns s) -> In r (transfers (run turns s).2).
Proof.
  induction turns as [|[env t] turns IH]; intros s r Hr; [destruct Hr|].
  cbn [records_for] in Hr. cbn [run].
  specialize (IH (turn env t s).1 r).
  destruct (turn env t s) as [s1 lines1] eqn:Hturn. cbn [fst] in *.
  destruct (run turns s1) as [s2 lines2]. cbn [snd] in *.
  rewrite transfers_app. apply in_or_app.
  apply in_app_or in Hr as [Hr|Hr]; [left | right; apply IH, Hr].
  destruct t; try destruct Hr. cbn [turn] in Hturn.
  unfold _finalize_operations in Hturn. injection Hturn as _ <-.
  unfold finalized_lines in Hr.
  apply transfers_concat in Hr as (l & Hl & Hr). apply transfers_concat.
  exists l. split; [|exact Hr].
  apply in_map_iff in Hl as (entry & <- & Hentry).
  apply filter_In in Hentry as [Hentry _]. apply in_map. exact Hentry.
Qed.

Lemma last_kind_on_untouched (path : string) (later : list (Env * Turn)) :
  Forall (fun et => touches path et.2 = false) later ->
  last_kind_on path later = None.
Proof.
  induction 1 as [|[env t] later Htouch _ IH]; [reflexivity|].
  cbn [snd] in Htouch. cbn [last_kind_on]. rewrite IH, Htouch. reflexivity.
Qed.

Lemma last_kind_on_app (path : string) (turns later : list (Env * Turn)) :
  last_kind_on path later = None ->
  last_kind_on path (turns ++ later) = last_kind_on path turns.
Proof.
  intros Hlater. induction turns as [|[env t] turns IH]; [exact Hlater|].
  cbn [app last_kind_on]. rewrite IH. reflexivity.
Qed.

Lemma burst_rest_last_kind self (path : string) (k : Operation) (t : Q)
    (turns : list (Env * Turn)) (k' : Operation) (t' : Q) :
  burst_rest self path k t turns k' t' ->
  match last_kind_on path turns with
  | Some kind => kind
  | None => k
  end = k'.
Proof.
  induction 1 as [k t
                 | k t env event turns k' t' _ Hsrc _ _ _ IH
                 | k t env turns k' t' _ _ IH
                 | k t env other turns k' t' _ Htouch _ IH];
    cbn [last_kind_on].
  - reflexivity.
  - cbn [touches turn_kind]. rewrite Hsrc, String.eqb_refl.
    destruct (last_kind_on path turns); exact IH.
  - cbn [touches]. destruct (last_kind_on path turns); exact IH.
  - rewrite Htouch. destruct (last_kind_on path turns); exact IH.
Qed.

Lemma burst_last_kind self (path : string) (turns : list (Env * Turn))
    (k : Operation) (t : Q) :
  burst self path turns k t -> last_kind_on path turns = Some k.
Proof.
  intros [env event rest k' t' _ Hsrc _ Hrest].
  apply burst_rest_last_kind in Hrest. cbn [last_kind_on touches turn_kind].
  rewrite Hsrc, String.eqb_refl.
  destruct (last_kind_on path rest); congruence.
Qed.

End BurstAmong.

Section BurstAmongClaims.
Import FileWatcher Notions.

(** C1, amended: a create followed by N modify events on one path, each
    event on a file that passes the eligibility check and arriving no
    later than the completion threshold after the event before it, with
    finalizer rounds and events on other paths in between (whatever else
    is in flight), and afterwards no event naming the path: if the path
    still exists at the first finalizer round later than the threshold
    after the last of these events and logging the record does not raise,
    then the run writes exactly one finalized record for the path, its
    kind is the kind of the last event on the path, and the path has no
    entry afterwards.  An event on a file the eligibility check rejects is
    not recorded and logs nothing; and an entry older than the threshold
    whose path is gone when the finalizer reaches it is removed without a
    record for the path, unless its kind is "deleted". *)
Theorem burst_finalized_once :
  forall (self : USBFileEventHandler) (path : string),
    (forall (turns : list (Env * Turn)) (k : Operation) (t : Q) (env : Env)
            (later : list (Env * Turn)) (rel : string) (size : Z)
            (restricted : bool),
        burst self path turns k t ->
        (op_completion_time self < time env - t)%Q ->
        path_exists env path = true ->
        relpath env path (UsbMonitor.mount_point (device self)) = Py.Ok rel ->
        getsize env path = Py.Ok size ->
        _check_time_based_alerts env self = Py.Ok restricted ->
        Forall (fun et => touches path et.2 = false) later ->
        let whole := (turns ++ (env, Sweep) :: later)%list in
        records_for path whole self = [transfer_record env self k path rel size]
        /\ In (transfer_record env self k path rel size)
              (transfers (run whole self).2)
        /\ last_kind_on path whole = Some k
        /\ _in_progress (run whole self).1 !! path = None)
    /\ (forall (env : Env) (event : FileSystemEvent),
           _should_monitor_file env self (src_path event) = false ->
           on_created env event self = (self, [])
           /\ on_modified env event self = (self, []))
    /\ (forall (env : Env) (o : Operation) (t0 : Q),
           _in_progress self !! path = Some (o, t0) ->
           (op_completion_time self < time env - t0)%Q ->
           path_exists env path = false ->
           o <> deleted ->
           _in_progress (_finalize_operations env self).1 !! path = None
           /\ finalized_lines env self path = []).
Proof.
  intros self path. split; [|split].
  - intros turns k t env later rel size restricted
           Hburst Hquiet Hexists Hrel Hsize Hcheck Hlater whole.
    assert (Hkind : last_kind_on path whole = Some k).
    { unfold whole. rewrite last_kind_on_app;
        [exact (burst_last_kind _ _ _ _ _ Hburst)|].
      cbn [last_kind_on touches].
      rewrite (last_kind_on_untouched path later Hlater). reflexivity. }
    destruct Hburst as [env0 event rest k t Hdir Hsrc Hok Hrest].
    (* the create event *)
    set (s0 := (turn env0 (Created event) self).1).
    assert (Hid0 : same_identity self s0)
      by (apply turn_identity, same_identity_refl).
    assert (Hentry0 : _in_progress s0 !! path = Some (created, time env0)).
    { unfold s0. cbn [turn]. unfold on_created. rewrite Hdir, Hsrc, Hok.
      cbn [negb andb]. unfold record_and_log, _record_operation.
      cbn [fst _in_progress set_in_progress]. apply lookup_insert_eq. }
    (* the burst *)
    destruct (run_burst_rest self path created (time env0) rest k t Hrest
                s0 Hid0 Hentry0) as (Hid1 & Hentry1 & Hnone1).
    set (s1 := (run rest s0).1) in *.
    assert (Hthr : op_completion_time s1 = op_completion_time self)
      by (destruct Hid1 as (_ & _ & _ & H); exact H).
    apply Qgtb_true_iff in Hquiet.
    (* the finalizing round *)
    assert (Hfinal : transfers (finalized_lines env s1 path)
                     = [transfer_record env self k path rel size]).
    { rewrite (finalized_lines_one env s1 path k t Hentry1)
        by (rewrite Hthr; exact Hquiet).
      cbn [finalize_one]. rewrite Hexists. cbn [orb].
      rewrite (log_file_operation_same env self s1 k path true Hid1).
      apply (log_final_transfer env self k path rel size restricted Hrel);
        [rewrite Hexists; exact Hsize | exact Hcheck]. }
    set (s2 := (turn env Sweep s1).1).
    assert (Hgone : _in_progress s2 !! path = None).
    { unfold s2. cbn [turn]. rewrite finalize_lookup, Hentry1, Hthr, Hquiet.
      reflexivity. }
    destruct (run_untouched path later Hlater s2 Hgone) as [Hnone2 Hend].
    assert (Hrecords : records_for path whole self
                       = [transfer_record env self k path rel size]).
    { unfold whole. cbn [app records_for]. fold s0.
      rewrite records_for_app, Hnone1. fold s1. cbn [app records_for].
      fold s2. rewrite Hfinal, Hnone2. reflexivity. }
    split; [exact Hrecords|]. split; [|split; [exact Hkind|]].
    + apply (records_for_written path). rewrite Hrecords. left. reflexivity.
    + unfold whole. cbn [app]. rewrite run_cons. fold s0.
      rewrite run_app. cbn [fst]. fold s1. rewrite run_cons. fold s2.
      exact Hend.
  - intros env event Hno. unfold on_created, on_modified. rewrite Hno.
    rewrite andb_false_r. split; reflexivity.
  - intros env o t0 Hentry Hold Hgone Hkind.
    apply Qgtb_true_iff in Hold. split.
    + rewrite finalize_lookup, Hentry, Hold. reflexivity.
    + rewrite (finalized_lines_one env self path o t0 Hentry Hold).
      cbn [finalize_one]. rewrite Hgone. cbn [orb].
      destruct o; try reflexivity. contradiction.
Qed.

End BurstAmongClaims.

Section BurstAmongWitnesses.
Import FileWatcher Samples MoreSamples.

Lemma burst_finalized_once_witness :
  records_for report
    (report_burst_among ++ (report_settled, Sweep) :: report_after)
    busy_handler
  = [ {| Logger.operation := "modified"; Logger.device := "D1";
         Logger.file_path := "report.docx"; Logger.file_size := 2097152;
         Logger.file_type := ".docx"; Logger.user := "alice" |} ]
  /\ on_created (posix_env usb_files 0 12 2) (file_event "/mnt/usb/a.tmp")
       busy_handler = (busy_handler, [])
  /\ finalized_lines (posix_env ∅ 2 12 2)
       (_record_operation (posix_env usb_files 0 12 2) default_handler
          created report) report = [].
Proof.
  assert (Hburst : burst busy_handler report report_burst_among modified
                     (6 # 10)).
  { apply burst_create; [reflexivity..|].
    apply burst_elsewhere; [discriminate | reflexivity |].
    apply burst_modify; [reflexivity | reflexivity | vm_compute; congruence
                        | reflexivity |].
    apply burst_sweep; [vm_compute; congruence|].
    apply burst_modify; [reflexivity | reflexivity | vm_compute; congruence
                        | reflexivity |].
    apply burst_elsewhere; [discriminate | reflexivity |].
    apply burst_sweep; [vm_compute; congruence|].
    apply burst_sweep; [vm_compute; congruence|].
    apply burst_done. }
  assert (Hafter : Forall (fun et : Env * Turn => touches report et.2 = false)
                     report_after).
  { repeat constructor. }
  destruct (burst_finalized_once busy_handler report) as (Hrun & _ & _).
  destruct (Hrun report_burst_among modified (6 # 10) report_settled
              report_after "report.docx" 2097152 false
              Hburst eq_refl eq_refl eq_refl eq_refl eq_refl Hafter)
    as (Hone & _).
  destruct (burst_finalized_once busy_handler "/mnt/usb/a.tmp")
    as (_ & Hskip & _).
  destruct (Hskip (posix_env usb_files 0 12 2) (file_event "/mnt/usb/a.tmp")
              eq_refl) as (Hcreate & _).
  destruct (burst_finalized_once
              (_record_operation (posix_env usb_files 0 12 2) default_handler
                 created report) report) as (_ & _ & Hdrop).
  assert (Hgone : path_exists (posix_env ∅ 2 12 2) report = false)
    by (vm_compute; reflexivity).
  destruct (Hdrop (posix_env ∅ 2 12 2) created 0%Q eq_refl eq_refl Hgone)
    as (_ & Hnone); [discriminate|].
  split; [exact Hone | split; [exact Hcreate | exact Hnone]].
Defined.

End BurstAmongWitnesses.

Section HandlerClaims.
Import FileWatcher Notions.

(** X18: the final pass over an operation evaluates the alerts again: it
    logs exactly the lines the first pass logs in the same environment,
    then the transfer record.  The record is a single one, and it is
    missing exactly when computing the relative path, reading the size or
    evaluating the time window raises. *)
Theorem final_pass_repeats_alerts :
  forall (env : Env) (self : USBFileEventHandler) (o : Operation)
         (path : string),
    let first := _log_file_operation env self o path false in
    let final := _log_file_operation env self o path true in
    final = (first ++ List.map Transfer (transfers final))%list
    /\ (length (transfers final) <= 1)%nat
    /\ (transfers final = []
        <-> Py.is_ok (relpath env path (UsbMonitor.mount_point (device self)))
            && Py.is_ok (if path_exists env path then getsize env path
                         else Py.Ok 0)
            && Py.is_ok (_check_time_based_alerts env self) = false).
Proof.
  intros env self o path first final. unfold first, final.
  rewrite !log_file_operation_lines. cbv zeta.
  destruct (relpath env path _) as [rel|e];
    [|split; [reflexivity | split; [cbn; lia | split; reflexivity]]].
  destruct (if path_exists env path then _ else _) as [size|e];
    [|split; [reflexivity | split; [cbn; lia | split; reflexivity]]].
  destruct (Config.large_transfer_alert _ && _),
    (_is_suspicious_file env self path),
    (_check_time_based_alerts env self) as [[|]|e];
    cbn; (split; [reflexivity | split; [lia | split; congruence]]).
Qed.


(** X20: only the finalizer writes records.  A run of events without a
    finalizer round writes no transfer record, whatever the events, the
    files and the policy are; operations still in the table when the
    handler is stopped are therefore never recorded. *)
Theorem events_alone_write_no_record :
  forall (turns : list (Env * Turn)) (self : USBFileEventHandler),
    Forall (fun et => et.2 <> Sweep) turns ->
    transfers (run turns self).2 = []
    /\ same_identity self (run turns self).1.
Proof.
  induction turns as [|[env t] turns IH]; intros self Hall.
  - split; [reflexivity | apply same_identity_refl].
  - apply Forall_cons in Hall as [Ht Hall]. cbn [snd] in Ht.
    cbn [run]. destruct (event_turn env t self Ht) as [Hid Hnone].
    destruct (turn env t self) as [self1 lines1].
    destruct (IH self1 Hall) as [Hrest Hid1].
    destruct (run turns self1) as [self2 lines2]. cbn [fst snd] in *.
    split.
    + rewrite transfers_app, Hnone, Hrest. reflexivity.
    + destruct Hid as (? & ? & ? & ?), Hid1 as (? & ? & ? & ?).
      repeat split; congruence.
Qed.

(** X21: every record a run writes names the handler's device and user,
    and one of the four operations. *)
Theorem records_name_device_and_user :
  forall (turns : list (Env * Turn)) (self : USBFileEventHandler)
         (r : Logger.TransferRecord),
    In r (transfers (run turns self).2) ->
    Logger.device r = UsbMonitor.name (device self)
    /\ Logger.user r = username self
    /\ exists o : Operation, Logger.operation r = operation_name o.
Proof.
  induction turns as [|[env t] turns IH]; intros self r Hr; [destruct Hr|].
  cbn [run] in Hr.
  pose proof (turn_records env t self) as Hturn.
  destruct Hturn as [Hid Hrecords].
  destruct (turn env t self) as [self1 lines1].
  specialize (IH self1 r).
  destruct (run turns self1) as [self2 lines2]. cbn [fst snd] in *.
  rewrite transfers_app in Hr. apply in_app_or in Hr as [Hr|Hr].
  - destruct (Hrecords r Hr) as (o & p & rel & size & ->).
    split; [reflexivity|]. split; [reflexivity|]. exists o. reflexivity.
  - destruct Hid as (_ & Hdev & Huser & _). rewrite <- Hdev, <- Huser.
    apply IH, Hr.
Qed.

(** X22: a finalizer round leaves exactly the entries that are not yet
    older than the completion threshold, whether or not their files still
    exist; and a second round at the same moment takes nothing and logs
    nothing, so no operation is finalized twice. *)
Theorem finalizer_round_keeps_fresh_entries :
  forall (env : Env) (self : USBFileEventHandler),
    let self' := (_finalize_operations env self).1 in
    (forall p : string,
        _in_progress self' !! p
        = match _in_progress self !! p with
          | Some (o, t0) =>
              if Qgtb (time env - t0) (op_completion_time self)
              then None else Some (o, t0)
          | None => None
          end)
    /\ _finalize_operations env self' = (self', []).
Proof.
  intros env self self'.
  assert (Htable : forall p : string,
             _in_progress self' !! p
             = match _in_progress self !! p with
               | Some (o, t0) =>
                   if Qgtb (time env - t0) (op_completion_time self)
                   then None else Some (o, t0)
               | None => None
               end).
  { intros p. unfold self', _finalize_operations. cbn [fst].
    cbn [_in_progress set_in_progress]. rewrite sweep_loop_lookup.
    destruct (_in_progress self !! p) as [[o t0]|] eqn:Hp.
    - destruct (Qgtb (time env - t0) (op_completion_time self)) eqn:Hold.
      + replace (existsb _ _) with true; [reflexivity|].
        symmetry. apply existsb_exists. exists (p, (o, t0)). split.
        * apply list_elem_of_In, elem_of_map_to_list, Hp.
        * cbn [fst snd]. rewrite String.eqb_refl, Hold. reflexivity.
      + replace (existsb _ _) with false; [reflexivity|].
        symmetry. apply not_true_is_false. intros Hex.
        apply existsb_exists in Hex as ([q [o' t']] & Hin & Hq).
        cbn [fst snd] in Hq. apply andb_true_iff in Hq as [Hq Hold'].
        apply String.eqb_eq in Hq. subst q.
        apply list_elem_of_In, elem_of_map_to_list in Hin.
        rewrite Hp in Hin. injection Hin as <- <-. congruence.
    - destruct (existsb _ _); reflexivity. }
  split; [exact Htable|].
  unfold _finalize_operations at 1.
  assert (Hthr : op_completion_time self' = op_completion_time self) by reflexivity.
  rewrite sweep_loop_fresh.
  - cbn [fst snd List.map List.concat]. rewrite set_in_progress_same. reflexivity.
  - apply Forall_forall. intros [q [o t0]] Hin. cbn [fst snd].
    apply elem_of_map_to_list in Hin.
    rewrite Htable in Hin. rewrite Hthr.
    destruct (_in_progress self !! q) as [[o' t']|]; [|discriminate Hin].
    destruct (Qgtb (time env - t') (op_completion_time self)) eqn:Hold;
      [discriminate Hin|].
    injection Hin as <- <-. exact Hold.
Qed.

End HandlerClaims.

(** ** The settings dialog *)

Section Numerals.
Import Py PyText Notions.

Lemma digit_of_pretty (d : N) :
  (d < 10)%N -> digit_of (pretty_N_char d) = Some (Z.of_N d).
Proof.
  intros Hd.
  assert (H : (d = 0 \/ d = 1 \/ d = 2 \/ d = 3 \/ d = 4 \/ d = 5 \/ d = 6
               \/ d = 7 \/ d = 8 \/ d = 9)%N) by lia.
  destruct H as [->|[->|[->|[->|[->|[->|[->|[->|[->| ->]]]]]]]]]; reflexivity.
Qed.

(** Reading the digits of a printed number continues the accumulator. *)
Lemma int_digits_pretty_go (x : N) :
  (0 < x)%N ->
  exists k : Z,
    0 <= k
    /\ forall (s : string) (acc : Z) (sep : bool),
         int_digits (pretty_N_go x s) acc sep
         = int_digits s (acc * 10 ^ k + Z.of_N x) false.
Proof.
  induction (N.lt_wf_0 x) as [x _ IH]. intros Hx.
  assert (Hmod : (x `mod` 10 < 10)%N) by (apply N.mod_lt; lia).
  assert (Hsplit : Z.of_N x = 10 * Z.of_N (x / 10) + Z.of_N (x `mod` 10)).
  { rewrite (N.div_mod x 10) at 1 by lia. lia. }
  destruct (decide (x / 10 = 0)%N) as [Hsmall|Hbig].
  - exists 1. split; [lia|]. intros s acc sep.
    rewrite pretty_N_go_step by exact Hx. rewrite Hsmall, pretty_N_go_0.
    cbn [int_digits]. rewrite (digit_of_pretty _ Hmod).
    f_equal. rewrite Hsplit, Hsmall. lia.
  - destruct (IH (x / 10)%N) as (k & Hk & Hread); [apply N.div_lt; lia | lia |].
    exists (k + 1). split; [lia|]. intros s acc sep.
    rewrite pretty_N_go_step by exact Hx. rewrite Hread.
    cbn [int_digits]. rewrite (digit_of_pretty _ Hmod).
    f_equal. rewrite Z.pow_add_r by lia. rewrite Hsplit.
    generalize (10 ^ k). intros P. lia.
Qed.

Lemma pretty_N_char_numeral (d : N) : numeral_char (pretty_N_char d) = true.
Proof.
  destruct d as [|[[[[]|[]|]|[[]|[]|]|]|[[[]|[]|]|[[]|[]|]|]|]]; reflexivity.
Qed.


Lemma numeral_not_space (s : string) :
  all_chars numeral_char s = true -> all_chars not_space s = true.
Proof.
  induction s as [|c s IH]; [reflexivity|]. cbn [all_chars].
  intros [Hc Hs]%andb_true_iff. rewrite (IH Hs), andb_true_r.
  unfold numeral_char in Hc. destruct (not_space c); [reflexivity|discriminate].
Qed.

Lemma pretty_positive_eq (p : positive) :
  pretty (Z.pos p) = pretty_N_go (N.pos p) EmptyString.
Proof. reflexivity. Qed.

Lemma pretty_negative_eq (p : positive) :
  pretty (Z.neg p) = String "-" (pretty_N_go (N.pos p) EmptyString).
Proof. reflexivity. Qed.

Lemma pretty_N_go_numeral (p : positive) :
  all_chars numeral_char (pretty_N_go (N.pos p) EmptyString) = true.
Proof. apply pretty_N_go_chars; [apply pretty_N_char_numeral | reflexivity]. Qed.

Lemma pretty_N_go_read (p : positive) :
  int_digits (pretty_N_go (N.pos p) EmptyString) 0 true = Some (Z.pos p).
Proof.
  destruct (int_digits_pretty_go (N.pos p)) as (k & _ & Hread); [lia|].
  rewrite Hread. reflexivity.
Qed.



Lemma pretty_Z_strip (z : Z) :
  strip (pretty z) = pretty z /\ pretty z <> EmptyString.
Proof.
  destruct z as [|p|p].
  - split; [reflexivity | discriminate].
  - rewrite pretty_positive_eq. split.
    + apply strip_no_space, numeral_not_space, pretty_N_go_numeral.
    + intros H. pose proof (pretty_N_go_read p) as Hread.
      rewrite H in Hread. discriminate Hread.
  - rewrite pretty_negative_eq. split; [|discriminate].
    apply strip_no_space. cbn [all_chars].
    rewrite (numeral_not_space _ (pretty_N_go_numeral p)). reflexivity.
Qed.

End Numerals.

Section SettingsFacts.
Import Py PyText Notions Settings.

Lemma at_least_sound (minimum : Z) (text : string) (v : Z) :
  at_least minimum text = Some v -> minimum <= v /\ int text = Ok v.
Proof.
  unfold at_least. destruct (int text) as [n|e]; [|discriminate].
  destruct (n <? minimum) eqn:Hlt; [discriminate|].
  intros [= <-]. apply Z.ltb_ge in Hlt. split; [exact Hlt | reflexivity].
Qed.


Lemma extension_list_nonempty (text ext : string) :
  In ext (extension_list text) -> ext <> EmptyString.
Proof.
  unfold extension_list. intros Hin.
  apply in_map_iff in Hin as (raw & <- & Hraw).
  apply filter_In in Hraw as [_ Hkeep]. apply negb_true_iff in Hkeep.
  apply String.eqb_neq, Hkeep.
Qed.




End SettingsFacts.

Section SettingsClaims.
Import Py PyText Notions Settings FileWatcher.

(** X23: whatever the dialog writes into the configuration has passed
    its checks: the interval and the retention are at least 1, the sizes
    and thresholds are not negative, a maximum size is not below the
    minimum, and no extension in the three lists is empty.  The two
    restricted hours are stored as typed, without any check. *)
Theorem saved_settings_are_validated :
  forall (mkdir : string -> result unit) (self : SettingsDialog)
         (cfg : AppConfig),
    updated (_save_settings mkdir self) = Some cfg ->
    let m := Config.monitoring (core cfg) in
    let a := Config.alerts (core cfg) in
    1 <= Config.check_interval_seconds m
    /\ 0 <= Config.min_file_size_bytes m
    /\ (forall n : Z, Config.max_file_size_bytes m = Some n ->
                      Config.min_file_size_bytes m <= n)
    /\ 0 <= Config.alert_threshold_mb a
    /\ 0 <= Config.large_transfer_threshold_mb a
    /\ 1 <= log_retention_days (security cfg)
    /\ (forall ext : string,
           In ext (Config.include_file_extensions m
                   ++ Config.exclude_file_extensions m
                   ++ Config.suspicious_extensions a)%list ->
           ext <> EmptyString)
    /\ Config.restricted_hours (Config.time_based_alerts a)
       = <["start" := time_start_var self]> {["end" := time_end_var self]}.
Proof.
  intros mkdir self cfg. unfold _save_settings.
  destruct (at_least 1 (interval_var self)) as [check_interval|] eqn:H1;
    [|discriminate].
  destruct (at_least 0 (min_size_var self)) as [min_size|] eqn:H2;
    [|discriminate].
  destruct (match strip (max_size_var self) with
            | EmptyString => Some None
            | String _ _ => option_map Some
                              (at_least min_size (strip (max_size_var self)))
            end) as [max_size|] eqn:H3; [|discriminate].
  destruct (at_least 0 (threshold_var self)) as [threshold|] eqn:H4;
    [|discriminate].
  destruct (at_least 0 (large_size_var self)) as [large_size|] eqn:H5;
    [|discriminate].
  destruct (at_least 1 (retention_var self)) as [retention|] eqn:H6;
    [|discriminate].
  intros Hcfg.
  assert (Hc : cfg = {|
             general :=
               {| log_directory := log_dir_var self;
                  run_at_startup := startup_var self;
                  minimize_to_tray := tray_var self |};
             core :=
               {| Config.monitoring :=
                    {| Config.check_interval_seconds := check_interval;
                       Config.include_file_extensions :=
                         extension_list (include_var self);
                       Config.exclude_file_extensions :=
                         extension_list (exclude_var self);
                       Config.min_file_size_bytes := min_size;
                       Config.max_file_size_bytes := max_size |};
                  Config.alerts :=
                    {| Config.enable_alerts := alerts_enabled_var self;
                       Config.alert_threshold_mb := threshold;
                       Config.suspicious_extensions :=
                         extension_list (suspicious_var self);
                       Config.large_transfer_alert := large_transfer_var self;
                       Config.large_transfer_threshold_mb := large_size;
                       Config.time_based_alerts :=
                         {| Config.enabled := time_alerts_var self;
                            Config.restricted_hours :=
                              <["start" := time_start_var self]>
                                {["end" := time_end_var self]};
                            Config.weekend_alerts := weekend_alerts_var self |} |} |};
             security :=
               {| hash_algorithm := hash_var self;
                  encrypt_logs := encrypt_var self;
                  log_retention_days := retention |} |}).
  { destruct (mkdir (log_dir_var self)); cbn [updated] in Hcfg; congruence. }
  subst cfg. cbn.
  apply at_least_sound in H1 as [H1 _], H2 as [H2 _], H4 as [H4 _],
    H5 as [H5 _], H6 as [H6 _].
  repeat (split; [assumption|]).
  split; [|split; [assumption|split; [assumption|split; [assumption|split]]]].
  - intros n ->. destruct (strip (max_size_var self)) as [|c rest];
      [discriminate H3|].
    destruct (at_least min_size (String c rest)) as [v|] eqn:Hmax;
      [|discriminate H3].
    injection H3 as <-. apply at_least_sound in Hmax as [Hmax _]. exact Hmax.
  - intros ext Hin.
    apply in_app_or in Hin as [Hin|Hin];
      [|apply in_app_or in Hin as [Hin|Hin]];
      exact (extension_list_nonempty _ _ Hin).
  - reflexivity.
Qed.




End SettingsClaims.

(** ** Witnesses for the log, the handler and the dialog *)

Section RetentionWitnesses.
Import Py PyText Retention MoreSamples.

Lemma cleanup_removes_expired_logs_only_witness :
  let fs' := delete old_log (delete (old_log ++ ".hash") log_directory) in
  cleanup_old_logs sample_strptime sample_now 90 scan_digest_first log_directory
  = Ok fs'
  /\ fs' !! old_log = None
  /\ fs' !! (old_log ++ ".hash") = None
  /\ fs' !! "transfers_2024-01-01.csv" = log_directory !! "transfers_2024-01-01.csv".
Proof.
  intros fs'.
  assert (Hrun : cleanup_old_logs sample_strptime sample_now 90
                   scan_digest_first log_directory = Ok fs')
    by (vm_compute; reflexivity).
  destruct (cleanup_removes_expired_logs_only sample_strptime sample_now 90
              scan_digest_first log_directory fs' Hrun)
    as (_ & _ & Hgone & Hkept).
  split; [exact Hrun|].
  destruct (Hgone old_log) as [Hlog Hdigest].
  { right. right. right. right. left. reflexivity. }
  { split; [reflexivity|]. exists "2024-01-01", 0%Q.
    split; [reflexivity|]. split; [reflexivity|]. vm_compute. reflexivity. }
  split; [exact Hlog|]. split; [exact Hdigest|].
  apply Hkept. reflexivity.
Defined.

Lemma cleanup_fails_when_digest_follows_log_witness :
  cleanup_old_logs sample_strptime sample_now 90 scan_log_first log_directory
  = Raise FileNotFoundError
  /\ cleanup_old_logs sample_strptime sample_now 90
       [old_log ++ ".hash"; old_log] log_directory
     = Ok (delete old_log (delete (old_log ++ ".hash") log_directory)).
Proof.
  assert (Hlt : (0 < sample_now - inject_Z (90 * 86400))%Q)
    by (vm_compute; reflexivity).
  destruct (cleanup_fails_when_digest_follows_log sample_strptime sample_now 90
              old_log "2024-01-01" 0%Q [] ["notes.log"] [] log_directory
              eq_refl eq_refl eq_refl Hlt) as [Hfail Hok].
  split; [exact Hfail|]. apply Hok.
  - vm_compute. eauto.
  - vm_compute. eauto.
  - reflexivity.
Defined.

End RetentionWitnesses.

Section LogWitnesses.
Import Logger Samples.

Lemma check_hash_against_verification_witness :
  _check_hash fresh_log.1 fresh_log.2 = true
  /\ verify_log_integrity transfers_csv fresh_log.2 = Py.Ok (false, msg_missing).
Proof.
  destruct (check_hash_against_verification fresh_log.1 fresh_log.2 eq_refl)
    as (Hmissing & _ & _).
  apply Hmissing. reflexivity.
Defined.



Lemma rollover_leaves_backup_without_digest_witness :
  let fs' := (emit fresh_log.1 true "a line" fresh_log.2).2 in
  fs' !! transfers_csv = Some ("a line" ++ Py.newline)
  /\ fs' !! (transfers_csv ++ ".1") = Some header
  /\ verify_log_integrity (transfers_csv ++ ".1") fs' = Py.Ok (false, msg_missing).
Proof.
  intros fs'.
  destruct (rollover_leaves_backup_without_digest fresh_log.1 fresh_log.2
              header "a line" eq_refl eq_refl) as [Hbackups _].
  destruct Hbackups as (Hnew & Hold & _ & Hmissing).
  - reflexivity.
  - reflexivity.
  - split; [exact Hnew|]. split; [exact Hold | exact Hmissing].
Defined.

End LogWitnesses.

Section HandlerWitnesses.
Import FileWatcher Notions Samples MoreSamples.

Lemma final_pass_repeats_alerts_witness :
  let env := posix_env usb_files 2 20 2 in
  _log_file_operation env office_hours_handler created report true
  = (_log_file_operation env office_hours_handler created report false
     ++ [Transfer (transfer_record env office_hours_handler created report
                     "report.docx" 2097152)])%list
  /\ length (_log_file_operation env office_hours_handler created report false)
     = 1%nat.
Proof.
  intros env.
  destruct (final_pass_repeats_alerts env office_hours_handler created report)
    as (Hlines & _ & _).
  split; [|vm_compute; reflexivity].
  rewrite Hlines at 1. f_equal.
Defined.


Lemma events_alone_write_no_record_witness :
  transfers (run events_only default_handler).2 = []
  /\ _in_progress (run events_only default_handler).1 !! report
     = Some (modified, 3 # 10)%Q.
Proof.
  destruct (events_alone_write_no_record events_only default_handler)
    as [Hnone _].
  - repeat constructor; discriminate.
  - split; [exact Hnone | reflexivity].
Defined.

Lemma records_name_device_and_user_witness :
  let r :=
    {| Logger.operation := "modified"; Logger.device := "D1";
       Logger.file_path := "report.docx"; Logger.file_size := 2097152;
       Logger.file_type := ".docx"; Logger.user := "alice" |} in
  In r (transfers (run (report_burst ++ [(report_settled, Sweep)])
                       default_handler).2)
  /\ Logger.device r = UsbMonitor.name device_D1
  /\ Logger.user r = "alice".
Proof.
  intros r.
  assert (Hin : In r (transfers (run (report_burst ++ [(report_settled, Sweep)])
                                     default_handler).2))
    by (vm_compute; left; reflexivity).
  destruct (records_name_device_and_user
              (report_burst ++ [(report_settled, Sweep)]) default_handler r Hin)
    as (Hdevice & Huser & _).
  split; [exact Hin|]. split; [exact Hdevice | exact Huser].
Defined.

End HandlerWitnesses.

Section SettingsWitnesses.
Import Py PyText Notions Settings FileWatcher Samples MoreSamples.

Lemma saved_settings_are_validated_witness :
  _save_settings mkdir_ok (sample_dialog "6pm") = Saved saved_sample_config
  /\ Config.include_file_extensions (Config.monitoring (core saved_sample_config))
     = [".txt"; ".pdf"]
  /\ Config.max_file_size_bytes (Config.monitoring (core saved_sample_config))
     = Some 5000
  /\ Config.min_file_size_bytes (Config.monitoring (core saved_sample_config))
     <= 5000
  /\ Config.restricted_hours
       (Config.time_based_alerts (Config.alerts (core saved_sample_config)))
     = <["start" := "6pm"]> {["end" := "07:00"]}.
Proof.
  assert (Hsave : _save_settings mkdir_ok (sample_dialog "6pm")
                  = Saved saved_sample_config) by (vm_compute; reflexivity).
  destruct (saved_settings_are_validated mkdir_ok (sample_dialog "6pm")
              saved_sample_config)
    as (_ & _ & Hmax & _ & _ & _ & _ & Hhours).
  { rewrite Hsave. reflexivity. }
  split; [exact Hsave|]. split; [reflexivity|]. split; [reflexivity|].
  split; [apply Hmax; reflexivity | exact Hhours].
Defined.



End SettingsWitnesses.

(** ** The order of policies *)

Section PolicyOrder.
Import FileWatcher Samples.

Lemma substring_all (s : string) : String.substring 0 (String.length s) s = s.
Proof.
  induction s as [|c s IH]; [reflexivity|].
  cbn [String.length String.substring]. rewrite IH. reflexivity.
Qed.

Lemma endswith_refl (s : string) : Py.endswith s s = true.
Proof.
  unfold Py.endswith. rewrite Nat.leb_refl, Nat.sub_diag, substring_all.
  apply String.eqb_refl.
Qed.

(** Whether the include list is the wildcard alone decides the branch,
    whatever the branches are. *)
Lemma wildcard_branch (include : list string) :
  exists b : bool,
    forall (A : Type) (x y : A),
      match include with
      | ["*"] => x
      | _ => y
      end = if b then x else y.
Proof.
  destruct include as [|s l]; [exists false; reflexivity|].
  destruct s as [|c s]; [destruct l; exists false; reflexivity|].
  destruct c as [[] [] [] [] [] [] [] []]; destruct s as [|d s];
    destruct l as [|p l];
    first [exists true; reflexivity | exists false; reflexivity].
Qed.

(** The decision of [_should_monitor_file] as a function of the policy. *)
Lemma should_monitor_with_monitoring (env : Env) (self : USBFileEventHandler)
    (m : Config.MonitoringConfig) (path : string) :
  _should_monitor_file env (with_monitoring self m) path
  = isfile env path
    && negb match getsize env path with
            | Py.Ok size_bytes => size_rejected m size_bytes
            | Py.Raise _ => false
            end
    && extension_allowed env m (extension env path).
Proof.
  unfold _should_monitor_file. cbn [config with_monitoring Config.monitoring].
  destruct (isfile env path); [|reflexivity]. cbn [negb andb].
  destruct (match getsize env path with
            | Py.Ok size_bytes => size_rejected m size_bytes
            | Py.Raise _ => false
            end); reflexivity.
Qed.

Lemma size_rejected_monotone (inc exc inc' exc' : list string)
    (lo lo' : Z) (hi hi' : option Z) (size : Z) :
  lo <= lo' ->
  (forall a : Z, hi = Some a -> a <> 0 ->
                 exists b : Z, hi' = Some b /\ b <> 0 /\ b <= a) ->
  size_rejected (monitoring_with inc exc lo hi) size = true ->
  size_rejected (monitoring_with inc' exc' lo' hi') size = true.
Proof.
  intros Hlo Hhi. unfold size_rejected, monitoring_with.
  cbn [Config.min_file_size_bytes Config.max_file_size_bytes].
  intros H. apply orb_true_iff in H as [H|H]; apply orb_true_iff.
  - left. apply andb_true_iff in H as [H1 H2].
    apply Z.ltb_lt in H1, H2. apply andb_true_iff. split; apply Z.ltb_lt; lia.
  - right. unfold exceeds in H |- *. destruct hi as [a|]; [|discriminate].
    apply andb_true_iff in H as [H1 H2]. apply negb_true_iff, Z.eqb_neq in H1.
    apply Z.ltb_lt in H2.
    destruct (Hhi a eq_refl H1) as (b & -> & Hb & Hba).
    apply andb_true_iff. split; [apply negb_true_iff, Z.eqb_neq, Hb|].
    apply Z.ltb_lt. lia.
Qed.

End PolicyOrder.

Section PolicyOrderClaims.
Import FileWatcher Samples.

(** X26: a stricter policy monitors fewer files.  A file that is
    monitored after patterns are added to the exclusion list, after the
    minimum size is raised, or after a maximum size is set or lowered,
    was monitored before.  The same holds, less obviously, when patterns
    are added to an include list that was the wildcard alone: the
    exclusions are then matched by suffix and by [fnmatch] instead of by
    equality, so no file is gained and some may be lost. *)
Theorem stricter_policy_monitors_less :
  forall (env : Env) (self : USBFileEventHandler) (path : string)
         (include exclude added : list string) (lo lo' : Z)
         (hi hi' : option Z),
    lo <= lo' ->
    (forall a : Z, hi = Some a -> a <> 0 ->
                   exists b : Z, hi' = Some b /\ b <> 0 /\ b <= a) ->
    (_should_monitor_file env
       (with_monitoring self (monitoring_with include (exclude ++ added) lo' hi'))
       path = true ->
     _should_monitor_file env
       (with_monitoring self (monitoring_with include exclude lo hi))
       path = true)
    /\ (forall (pattern : string) (more : list string),
           fnmatch env (extension env path) "*" = true ->
           _should_monitor_file env
             (with_monitoring self
                (monitoring_with ("*" :: pattern :: more) (exclude ++ added)
                                 lo' hi'))
             path = true ->
           _should_monitor_file env
             (with_monitoring self (monitoring_with ["*"] exclude lo hi))
             path = true).
Proof.
  intros env self path include exclude added lo lo' hi hi' Hlo Hhi.
  set (ext := extension env path).
  assert (Hsize : forall inc exc inc' exc',
             negb match getsize env path with
                  | Py.Ok size_bytes =>
                      size_rejected (monitoring_with inc' exc' lo' hi') size_bytes
                  | Py.Raise _ => false
                  end = true ->
             negb match getsize env path with
                  | Py.Ok size_bytes =>
                      size_rejected (monitoring_with inc exc lo hi) size_bytes
                  | Py.Raise _ => false
                  end = true).
  { intros inc exc inc' exc'. destruct (getsize env path) as [size|e]; [|auto].
    intros H. apply negb_true_iff in H. apply negb_true_iff.
    destruct (size_rejected (monitoring_with inc exc lo hi) size) eqn:Hrej;
      [|reflexivity].
    rewrite (size_rejected_monotone inc exc inc' exc' lo lo' hi hi' size
               Hlo Hhi Hrej) in H. discriminate H. }
  assert (Hlisted : forall (f : string -> bool) (l : list string),
             negb (existsb f (l ++ added)) = true -> negb (existsb f l) = true).
  { intros f l H. apply negb_true_iff in H. apply negb_true_iff.
    rewrite existsb_app in H. apply orb_false_iff in H as [H _]. exact H. }
  split.
  - rewrite !should_monitor_with_monitoring. fold ext.
    intros H. apply andb_true_iff in H as [H Hext].
    apply andb_true_iff in H as [Hfile Hsz].
    rewrite Hfile, (Hsize include exclude _ _ Hsz). cbn [andb].
    unfold extension_allowed, monitoring_with in Hext |- *.
    cbn [Config.include_file_extensions Config.exclude_file_extensions]
      in Hext |- *.
    destruct (wildcard_branch include) as [b Hb].
    rewrite Hb in Hext. rewrite Hb. destruct b.
    + exact (Hlisted _ _ Hext).
    + destruct (negb (existsb (pattern_matches env ext) include));
        [discriminate Hext|]. exact (Hlisted _ _ Hext).
  - intros pattern more Hstar. rewrite !should_monitor_with_monitoring.
    fold ext in Hstar |- *.
    intros H. apply andb_true_iff in H as [H Hext].
    apply andb_true_iff in H as [Hfile Hsz].
    rewrite Hfile, (Hsize ["*"] exclude _ _ Hsz). cbn [andb].
    unfold extension_allowed, monitoring_with in Hext |- *.
    cbn [Config.include_file_extensions Config.exclude_file_extensions]
      in Hext |- *.
    assert (Hincluded :
              existsb (pattern_matches env ext) ("*" :: pattern :: more) = true).
    { cbn [existsb]. unfold pattern_matches at 1.
      rewrite Hstar, orb_true_r. reflexivity. }
    rewrite Hincluded in Hext. cbn [negb] in Hext.
    apply Hlisted in Hext. apply negb_true_iff in Hext. apply negb_true_iff.
    destruct (Py.str_in ext exclude) eqn:Hin; [|reflexivity].
    unfold Py.str_in in Hin. apply existsb_exists in Hin as (q & Hq & Heq).
    apply String.eqb_eq in Heq. subst q.
    assert (Hex : existsb (pattern_matches env ext) exclude = true).
    { apply existsb_exists. exists ext. split; [exact Hq|].
      unfold pattern_matches. rewrite endswith_refl. reflexivity. }
    congruence.
Qed.

End PolicyOrderClaims.

(** ** The log viewer *)

Section ViewerFacts.
Import Samples Notions Logger LogViewer.

Lemma last_char_app (a b : string) :
  b <> EmptyString -> last_char (a ++ b) = last_char b.
Proof.
  intros Hb. induction a as [|c a IH]; [reflexivity|].
  change (String c a ++ b) with (String c (a ++ b)). cbn [last_char].
  destruct (a ++ b) as [|d r] eqn:Hab; [|exact IH].
  destruct a; [|discriminate Hab]. contradiction.
Qed.

Lemma last_char_all (p : ascii -> bool) (s : string) (c : ascii) :
  Py.all_chars p s = true -> last_char s = Some c -> p c = true.
Proof.
  induction s as [|d s IH]; [discriminate|].
  cbn [Py.all_chars last_char]. intros [Hd Hs]%andb_true_iff.
  destruct s as [|e s]; [intros [= <-]; exact Hd | apply IH, Hs].
Qed.

(** The step of the star. *)
Lemma glob_star_cons (pattern : string) (c : ascii) (s : string) :
  glob (String "*" pattern) (String c s)
  = glob pattern (String c s) || glob (String "*" pattern) s.
Proof. reflexivity. Qed.

(** A pattern that starts with plain characters asks for them. *)
Lemma glob_plain_prefix (q pattern : string) :
  Py.all_chars (fun c => negb (Ascii.eqb c "*") && negb (Ascii.eqb c "?")) q
  = true ->
  forall s : string,
    glob (q ++ pattern) s = true ->
    exists rest : string, s = q ++ rest /\ glob pattern rest = true.
Proof.
  induction q as [|c q IH]; intros Hq s Hs.
  - exists s. split; [reflexivity | exact Hs].
  - cbn [Py.all_chars] in Hq. apply andb_true_iff in Hq as [Hc Hq].
    apply andb_true_iff in Hc as [Hstar Hany].
    apply negb_true_iff in Hstar, Hany.
    change (String c q ++ pattern) with (String c (q ++ pattern)) in Hs.
    cbn [glob] in Hs. rewrite Hstar in Hs.
    destruct s as [|d s]; [discriminate Hs|].
    rewrite Hany in Hs. cbn [orb] in Hs.
    apply andb_true_iff in Hs as [Hd Hs]. apply Ascii.eqb_eq in Hd. subst d.
    destruct (IH Hq s Hs) as (rest & -> & Hrest).
    exists rest. split; [reflexivity | exact Hrest].
Qed.

Lemma glob_csv (s : string) : glob ".csv" s = true -> s = ".csv".
Proof.
  intros H.
  destruct (glob_plain_prefix ".csv" EmptyString eq_refl s H) as (rest & -> & Hrest).
  cbn [glob] in Hrest. apply String.eqb_eq in Hrest. subst rest. reflexivity.
Qed.

Lemma glob_star_csv_last (s : string) :
  glob "*.csv" s = true -> last_char s = Some "v"%char.
Proof.
  induction s as [|c s IH]; [discriminate|].
  rewrite glob_star_cons. intros [H|H]%orb_true_iff.
  - apply glob_csv in H. rewrite H. reflexivity.
  - specialize (IH H). cbn [last_char].
    destruct s; [discriminate IH | exact IH].
Qed.

Lemma glob_star_csv_suffix (s : string) : glob "*.csv" (s ++ ".csv") = true.
Proof.
  induction s as [|c s IH]; [reflexivity|].
  change (String c s ++ ".csv") with (String c (s ++ ".csv")).
  rewrite glob_star_cons, IH. apply orb_true_r.
Qed.

(** What the pattern of the viewer asks of a name. *)
Lemma is_transfer_log_shape (name : string) :
  is_transfer_log name = true ->
  exists rest : string,
    name = "transfers_" ++ rest /\ glob "*.csv" rest = true.
Proof.
  unfold is_transfer_log. intros H.
  exact (glob_plain_prefix "transfers_" "*.csv" eq_refl name H).
Qed.

Lemma is_transfer_log_dated (date : string) :
  is_transfer_log ("transfers_" ++ date ++ ".csv") = true.
Proof.
  unfold is_transfer_log.
  change (glob "*.csv" (date ++ ".csv") = true). apply glob_star_csv_suffix.
Qed.

Lemma pretty_nat_Z (i : nat) : pretty i = pretty (Z.of_nat i).
Proof. destruct i; reflexivity. Qed.

End ViewerFacts.

Section ViewerClaims.
Import Samples Notions Logger LogViewer.

(** X27: the viewer offers the dated transfer logs and nothing that a
    rollover has moved away: every name it lists starts with
    ["transfers_"] and ends with ["v"], a log [transfers_<date>.csv] in
    the directory is always listed, and a rotated backup
    [<log>.<number>] never is, whatever the log is called: the records a
    rollover moves to a backup are not shown. *)
Theorem viewer_lists_no_backup :
  forall (scan : list string),
    (forall name : string,
        In name (log_files scan) ->
        In name scan
        /\ (exists rest : string, name = "transfers_" ++ rest)
        /\ last_char name = Some "v"%char)
    /\ (forall date : string,
           In ("transfers_" ++ date ++ ".csv") scan ->
           In ("transfers_" ++ date ++ ".csv") (log_files scan))
    /\ (forall (log_file : string) (i : nat),
           ~ In (backup_name log_file i) (log_files scan)).
Proof.
  intros scan.
  assert (Hlisted : forall name : string,
             In name (log_files scan) ->
             In name scan
             /\ (exists rest : string, name = "transfers_" ++ rest)
             /\ last_char name = Some "v"%char).
  { intros name Hin. apply filter_In in Hin as [Hin Hglob].
    split; [exact Hin|].
    destruct (is_transfer_log_shape name Hglob) as (rest & -> & Hrest).
    split; [exists rest; reflexivity|].
    rewrite last_char_app; [apply glob_star_csv_last, Hrest|].
    intros ->. discriminate Hrest. }
  split; [exact Hlisted|]. split.
  - intros date Hin. apply filter_In. split; [exact Hin|].
    apply is_transfer_log_dated.
  - intros log_file i Hin. destruct (Hlisted _ Hin) as (_ & _ & Hlast).
    unfold backup_name in Hlast.
    rewrite last_char_app in Hlast by discriminate.
    change ("." ++ pretty i) with (String "." (pretty i)) in Hlast.
    assert (Hdigits : Py.all_chars (fun c => negb (Ascii.eqb c "v")) (pretty i)
                      = true).
    { apply pretty_nat_chars. intros d.
      destruct d as [|[[[[]|[]|]|[[]|[]|]|]|[[[]|[]|]|[[]|[]|]|]|]]; reflexivity. }
    assert (Hlast' : last_char (pretty i) = Some "v"%char).
    { cbn [last_char] in Hlast. destruct (pretty i) as [|c r] eqn:Hp;
        [|exact Hlast].
      rewrite pretty_nat_Z in Hp. destruct (pretty_Z_strip (Z.of_nat i)) as [_ Hne].
      contradiction. }
    pose proof (last_char_all _ _ _ Hdigits Hlast') as Hv. discriminate Hv.
Qed.


End ViewerClaims.

Section PolicyOrderWitnesses.
Import FileWatcher Samples.

Lemma stricter_policy_monitors_less_witness :
  let env := posix_env usb_files 0 12 2 in
  let under (include exclude : list string) (lo : Z) (hi : option Z)
            (path : string) :=
    _should_monitor_file env
      (with_monitoring default_handler (monitoring_with include exclude lo hi))
      path in
  under ["*"] [".lock"] 0 None "/mnt/usb/a.txt" = true
  /\ under ["*"] ["tmp"] 0 None "/mnt/usb/a.tmp" = true
  /\ under ["*"; ".txt"] ["tmp"] 0 None "/mnt/usb/a.tmp" = false.
Proof.
  intros env under.
  destruct (stricter_policy_monitors_less env default_handler "/mnt/usb/a.txt"
              ["*"] [".lock"] [".tmp"] 0 500 None (Some 5000))
    as [Hstricter _].
  - lia.
  - intros a Ha. discriminate Ha.
  - split; [apply Hstricter; reflexivity|]. split; reflexivity.
Defined.

End PolicyOrderWitnesses.

Section ViewerWitnesses.
Import Logger LogViewer.

Lemma viewer_lists_no_backup_witness :
  let scan := [ "transfers_2024-01-01.csv"; "transfers_2024-01-01.csv.1";
                "app_2024-01-01.log" ] in
  In "transfers_2024-01-01.csv" (log_files scan)
  /\ ~ In "transfers_2024-01-01.csv.1" (log_files scan).
Proof.
  intros scan.
  destruct (viewer_lists_no_backup scan) as (_ & Hdated & Hbackup).
  split.
  - apply (Hdated "2024-01-01"). left. reflexivity.
  - exact (Hbackup "transfers_2024-01-01.csv" 1%nat).
Defined.

End ViewerWitnesses.
